(** * EPK generator: validation, HTML rendering and batch processing

    A shallow embedding of [api/epk_core.py] (classes [ValidationResult],
    [EPKGenerator] and [BatchProcessor]) together with the properties the
    specification states about them.

    Modelling conventions.
    - A Python [str] is a Rocq [string]; one [ascii] stands for one character,
      so the alphabet is the code points 0..255.  Template text of the source
      outside that alphabet is kept as the bytes of the source file.
    - A JSON object with text leaves is a [gmap string string]; [d.get(k)] is
      [d !! k].  The configuration has the shape written by
      [generate_config_template]: every scalar leaf is a string, [platforms]
      and [territories] are lists of strings.
    - The file system is read-only data ([FS]); symbolic links are not
      modelled.  The optional imports ([PIL], Playwright, WeasyPrint) and the
      external PDF renderers are fields of [Env].
    - Code that can raise returns [result]; [try]/[except] is a [match].
      [str * int] raises as CPython does on a 64-bit machine; the longest
      string the process can allocate is the field [memory] of [FS].
      Writing a file always succeeds: [generate_html] returns the path and
      the text it writes.
    - Left out: [setup_project_structure], [optimize_image],
      [generate_config_template] and the command line of [main], which
      only create files or call the image library, and logging.
    - Of [api/main.py]: the association of the uploaded team photos in
      [create_project], and the handlers [generate_epk] and
      [validate_project], with the registry of projects passed as state. *)

From Stdlib Require Import ZArith Lia Ascii String.
From stdpp Require Import gmap strings list sorting pretty.

Open Scope string_scope.

(** ** Exceptions *)

Inductive exn :=
  | ValueError (msg : string)
  | OverflowError (msg : string)
  | MemoryError.

Inductive result (A : Type) :=
  | Ok (a : A)
  | Raise (e : exn).
Arguments Ok {A} a.
Arguments Raise {A} e.

#[global] Instance result_ret : MRet result := λ A a, Ok a.
#[global] Instance result_bind : MBind result := λ A B k r,
  match r with
  | Ok a => k a
  | Raise e => Raise e
  end.

Definition raises {A} (r : result A) : Prop := ∃ e, r = Raise e.

(** [str(e)] *)
Definition exn_str (e : exn) : string :=
  match e with
  | ValueError msg | OverflowError msg => msg
  | MemoryError => ""
  end.

(** ** Python string operations *)

Module Py.

Definition chr (n : N) : string := String (ascii_of_N n) "".

(** The double quote and the line feed, which the templates below write
    as a back quote and as a list separator. *)
Definition dq : string := chr 34.
Definition nl : string := chr 10.

Definition code (c : ascii) : N := N_of_ascii c.

Fixpoint chars (s : string) : list ascii :=
  match s with
  | "" => []
  | String c s' => c :: chars s'
  end.

Fixpoint of_chars (l : list ascii) : string :=
  match l with
  | [] => ""
  | c :: l' => String c (of_chars l')
  end.

Fixpoint map_chars (f : ascii → ascii) (s : string) : string :=
  match s with
  | "" => ""
  | String c s' => String (f c) (map_chars f s')
  end.

(** A template literal: the source's double quotes are written as back
    quotes (the source has no back quote). *)
Definition lit_char (c : ascii) : ascii :=
  if (code c =? 96)%N then ascii_of_N 34 else c.
Definition lit (s : string) : string := map_chars lit_char s.

(** [''.join(l)] and [sep.join(l)] *)
Definition join (sep : string) (l : list string) : string :=
  String.concat sep l.
Definition cat (l : list string) : string := String.concat "" l.

(** Template lines, joined by line feeds. *)
Definition lines (l : list string) : string := join nl l.

(** [s * n] on a 64-bit interpreter, for a string [s] of [len]
    characters; [len] is given apart from [s] because template text
    outside Latin-1 is kept as the bytes of the source.  A count that
    does not fit a machine index is refused, and so is a result longer
    than an index can count; a count of zero or less gives the empty
    string; a result of more than [capacity] characters cannot be
    allocated. *)
Definition repeat (capacity : Z) (len : Z) (s : string) (n : Z)
  : result string :=
  if decide (n < - 2 ^ 63 ∨ 2 ^ 63 ≤ n)%Z
  then Raise (OverflowError "cannot fit 'int' into an index-sized integer")
  else if decide (n ≤ 0 ∨ len = 0)%Z then Ok ""
  else if decide ((2 ^ 63 - 1) / n < len)%Z
  then Raise (OverflowError "repeated string is too long")
  else if decide (capacity < len * n)%Z then Raise MemoryError
  else Ok (cat (replicate (Z.to_nat n) s)).

(** [len(s)] *)
Definition len (s : string) : Z := Z.of_nat (String.length s).

(** [bool(s)] for an optional string: [None] and [''] are false. *)
Definition truthy (o : option string) : bool :=
  match o with
  | Some (String _ _) => true
  | _ => false
  end.

(** [d.get(k, default)] *)
Definition get (d : gmap string string) (k : string) (dflt : string)
  : string := default dflt (d !! k).

(** [str.lower]: A-Z and the capital letters of Latin-1. *)
Definition lower_char (c : ascii) : ascii :=
  let n := code c in
  if ((65 <=? n) && (n <=? 90))%N then ascii_of_N (n + 32)
  else if ((192 <=? n) && (n <=? 222) && negb (n =? 215))%N
       then ascii_of_N (n + 32)
  else c.
Definition lower (s : string) : string := map_chars lower_char s.

(** [str.isspace] on one character. *)
Definition is_space (c : ascii) : bool :=
  let n := code c in
  ((9 <=? n) && (n <=? 13) || (28 <=? n) && (n <=? 32)
   || (n =? 133) || (n =? 160))%N.

Fixpoint lstrip (s : string) : string :=
  match s with
  | String c s' => if is_space c then lstrip s' else s
  | "" => ""
  end.

Definition rstrip (s : string) : string :=
  String.rev (lstrip (String.rev s)).

(** [str.strip()] *)
Definition strip (s : string) : string := rstrip (lstrip s).

(** [needle in haystack] *)
Fixpoint contains (needle haystack : string) : bool :=
  String.prefix needle haystack ||
  match haystack with
  | "" => false
  | String _ h' => contains needle h'
  end.

(** [s.split(sep)] for a separator of at least one character: the pieces
    between the successive occurrences of [sep], scanned left to right.
    [cur] is the piece being read, reversed; [skip] counts characters of
    a separator just matched that are still to be dropped. *)
Fixpoint split_go (sep : string) (cur : string) (skip : nat) (s : string)
  : list string :=
  match s with
  | "" => [String.rev cur]
  | String c s' =>
      match skip with
      | S k => split_go sep cur k s'
      | O =>
          if String.prefix sep s
          then String.rev cur :: split_go sep "" (String.length sep - 1) s'
          else split_go sep (String c cur) 0 s'
      end
  end.
Definition split (sep s : string) : list string := split_go sep "" 0 s.

(** [str(n)] for an integer. *)
Definition str_int (n : Z) : string := pretty n.

Definition digit (c : ascii) : option Z :=
  let n := code c in
  if ((48 <=? n) && (n <=? 57))%N then Some (Z.of_N n - 48)%Z else None.

(** [int(s)].  The conversion drops surrounding white space (for [int]
    that is the C white space and the two Latin-1 space characters),
    reads an optional sign and then decimal digits, single underscores
    allowed between digits.  More than 4300 digits are refused (the
    default of [sys.int_max_str_digits]). *)
Definition int_space (c : ascii) : bool :=
  let n := code c in
  ((9 <=? n) && (n <=? 13) || (n =? 32) || (n =? 133) || (n =? 160))%N.

Fixpoint int_lstrip (s : string) : string :=
  match s with
  | String c s' => if int_space c then int_lstrip s' else s
  | "" => ""
  end.
Definition int_strip (s : string) : string :=
  String.rev (int_lstrip (String.rev (int_lstrip s))).

Fixpoint int_scan (acc : Z) (n : nat) (prev_digit : bool) (s : string)
  : option (Z * nat * string) :=
  match s with
  | "" => if prev_digit then Some (acc, n, "") else None
  | String c s' =>
      match digit c with
      | Some d => int_scan (10 * acc + d)%Z (S n) true s'
      | None =>
          if (code c =? 95)%N
          then if prev_digit then int_scan acc n false s' else None
          else if prev_digit then Some (acc, n, s) else None
      end
  end.

Definition hex_digit (n : N) : string :=
  String.substring (N.to_nat n) 1 "0123456789abcdef".
Definition hex_digit_upper (n : N) : string :=
  String.substring (N.to_nat n) 1 "0123456789ABCDEF".

(** [repr(s)] *)
Definition repr_char (quote : N) (c : ascii) : string :=
  let n := code c in
  if (n =? 92)%N then chr 92 +:+ chr 92
  else if (n =? quote)%N then chr 92 +:+ chr quote
  else if (n =? 9)%N then chr 92 +:+ "t"
  else if (n =? 10)%N then chr 92 +:+ "n"
  else if (n =? 13)%N then chr 92 +:+ "r"
  else if ((n <? 32) || (127 <=? n) && (n <=? 160) || (n =? 173))%N
       then chr 92 +:+ "x" +:+ hex_digit (n / 16) +:+ hex_digit (n mod 16)
  else String c "".

Definition repr (s : string) : string :=
  let quote : N :=
    if contains "'" s && negb (contains dq s) then 34%N else 39%N in
  chr quote +:+ cat (repr_char quote <$> chars s) +:+ chr quote.

Definition invalid_literal (s : string) : exn :=
  ValueError ("invalid literal for int() with base 10: " +:+ repr s).

Definition int (s : string) : result Z :=
  let t := int_strip s in
  let '(neg, body) :=
    match t with
    | String c t' =>
        if (code c =? 45)%N then (true, t')
        else if (code c =? 43)%N then (false, t')
        else (false, t)
    | "" => (false, t)
    end in
  match int_scan 0%Z 0%nat false body with
  | None => Raise (invalid_literal s)
  | Some (v, n, rest) =>
      if decide (4300 < n)%nat
      then Raise (ValueError
             ("Exceeds the limit (4300 digits) for integer string conversion: value has "
              +:+ pretty n +:+
              " digits; use sys.set_int_max_str_digits() to increase the limit"))
      else match rest with
           | "" => Ok (if neg then (- v)%Z else v)
           | _ => Raise (invalid_literal s)
           end
  end.

(** [urllib.parse.quote_from_bytes(os.fsencode(s))]: the bytes of the
    UTF-8 encoding, all but letters, digits and [_.-~/] written [%XX]. *)
Definition percent (n : N) : string :=
  "%" +:+ hex_digit_upper (n / 16) +:+ hex_digit_upper (n mod 16).

Definition url_safe (n : N) : bool :=
  ((48 <=? n) && (n <=? 57) || (65 <=? n) && (n <=? 90)
   || (97 <=? n) && (n <=? 122)
   || (n =? 95) || (n =? 46) || (n =? 45) || (n =? 126) || (n =? 47))%N.

Definition quote_char (c : ascii) : string :=
  let n := code c in
  if (n <? 128)%N
  then if url_safe n then String c "" else percent n
  else percent (192 + n / 64) +:+ percent (128 + n mod 64).

Definition quote (s : string) : string := cat (quote_char <$> chars s).

(** The integer nearest to [n] that a float holds: below 2^53 [n]
    itself, from there on [n] rounded to 53 significant bits, ties to
    even. *)
Definition round53 (n : Z) : Z :=
  if decide (n < 2 ^ 53)%Z then n
  else
    let e := (Z.log2 n - 52)%Z in
    let q := (n / 2 ^ e)%Z in
    let r := (n mod 2 ^ e)%Z in
    let half := (2 ^ (e - 1))%Z in
    (if decide (half < r ∨ (r = half ∧ Z.odd q = true))%Z
     then q + 1 else q)%Z * 2 ^ e.

(** [f"{size / (1024 * 1024):.1f}"] for a file size in bytes, from 0 up:
    the division gives the float nearest to the quotient, which is
    [round53 size] over 2^20 (the quotient itself below 2^53), and the
    format rounds that float to one decimal, ties to even. *)
Definition format_mb (size : Z) : string :=
  let n := (round53 size * 10)%Z in
  let q := (n / 1048576)%Z in
  let r := (n mod 1048576)%Z in
  let t := if decide (524288 < r ∨ (r = 524288 ∧ Z.odd q = true))%Z
           then (q + 1)%Z else q in
  str_int (t / 10)%Z +:+ "." +:+ str_int (t mod 10)%Z.

End Py.

(** ** Paths ([pathlib.PurePosixPath]) *)

Module Path.

(** [root] is [""] for a relative path, ["/"] or ["//"] otherwise. *)
Record t := mk { root : string; parts : list string }.

#[global] Instance eq_dec : EqDecision t.
Proof. solve_decision. Defined.

Fixpoint leading_slashes (s : string) : nat :=
  match s with
  | String c s' => if (Py.code c =? 47)%N then S (leading_slashes s') else 0
  | "" => 0
  end.

Definition is_part (p : string) : bool :=
  negb (p =? "")%string && negb (p =? ".")%string.

(** [Path(s)] *)
Definition of_str (s : string) : t :=
  {| root := match leading_slashes s with
             | 0 => ""
             | 2 => "//"
             | _ => "/"
             end;
     parts := List.filter is_part (Py.split "/" s) |}.

(** [str(p)] *)
Definition str (p : t) : string :=
  match root p, parts p with
  | "", [] => "."
  | r, ps => r +:+ Py.join "/" ps
  end.

(** [p / q] *)
Definition join (p q : t) : t :=
  match root q with
  | "" => {| root := root p; parts := (parts p ++ parts q)%list |}
  | _ => q
  end.

(** [p / s] for a string [s] *)
Definition div (p : t) (s : string) : t := join p (of_str s).

(** [p.name] *)
Definition name (p : t) : string := List.last (parts p) "".

Fixpoint strip_prefix (pre l : list string) : option (list string) :=
  match pre, l with
  | [], _ => Some l
  | a :: pre', b :: l' => if decide (a = b) then strip_prefix pre' l' else None
  | _ :: _, [] => None
  end.

(** [p.relative_to(base)] *)
Definition relative_to (p base : t) : result t :=
  match (if decide (root p = root base)
         then strip_prefix (parts base) (parts p) else None) with
  | Some rest => Ok {| root := ""; parts := rest |}
  | None =>
      Raise (ValueError
        (Py.repr (str p) +:+ " is not in the subpath of " +:+
         Py.repr (str base) +:+
         " OR one path is relative and the other is absolute."))
  end.

(** Collapsing [..] against the components before it; at the root
    [..] stays at the root. *)
Definition normalize (ps : list string) : list string :=
  List.rev (List.fold_left
    (fun acc p => if (p =? "..")%string then List.tl acc else p :: acc)
    ps []).

(** [p.resolve()], without symbolic links: the path made absolute from
    the working directory, [..] collapsed. *)
Definition resolve (cwd : list string) (p : t) : t :=
  {| root := "/";
     parts := normalize (match root p with
                         | "" => (cwd ++ parts p)%list
                         | _ => parts p
                         end) |}.

(** [p.as_uri()] *)
Definition as_uri (p : t) : result string :=
  match root p with
  | "" => Raise (ValueError "relative path can't be expressed as a file URI")
  | _ => Ok ("file://" +:+ Py.quote (str p))
  end.

(** [p.suffix] *)
Fixpoint rfind_dot (i : nat) (s : string) : option nat :=
  match s with
  | "" => None
  | String c s' =>
      match rfind_dot (S i) s' with
      | Some j => Some j
      | None => if (Py.code c =? 46)%N then Some i else None
      end
  end.

Definition suffix (p : t) : string :=
  let n := name p in
  match rfind_dot 0 n with
  | Some i =>
      if decide (0 < i ∧ i < String.length n - 1)
      then String.substring i (String.length n - i) n else ""
  | None => ""
  end.

End Path.

(** ** The world outside the program *)

(** What [PIL.Image.open] makes of a file: a picture with its size in
    pixels, or an exception. *)
Inductive Image :=
  | Picture (width height : Z)
  | Unreadable (error : string).

(** ** Configuration ([film_config.json]) *)

Abbreviation dict := (gmap string string).

(** The [distribution] object: its text entries and its two list
    entries. *)
Record Distribution := {
  dist_text : dict;
  dist_platforms : option (list string);
  dist_territories : option (list string);
}.

(** [not dist] *)
Definition dist_is_empty (d : Distribution) : bool :=
  bool_decide (dist_text d = ∅ ∧ dist_platforms d = None
               ∧ dist_territories d = None).

Record Config := {
  metadata : dict;
  team : list dict;
  awards : list dict;
  festivals : list dict;
  reviews : list dict;
  press_coverage : list dict;
  distribution : Distribution;
  technical : dict;
  contact : dict;
}.

(** [{}], the configuration before [load_config]. *)
Definition empty_config : Config :=
  {| metadata := ∅; team := []; awards := []; festivals := [];
     reviews := []; press_coverage := [];
     distribution := {| dist_text := ∅; dist_platforms := None;
                        dist_territories := None |};
     technical := ∅; contact := ∅ |}.

(** The machine, as the program reads it: the file system and the
    memory left for one string. *)
Record FS := {
  cwd : list string;                  (* components of [os.getcwd()] *)
  exists_ : Path.t → bool;            (* [p.exists()] *)
  is_dir : Path.t → bool;             (* [p.is_dir()] *)
  iterdir : Path.t → list string;     (* names in [p], in the order listed *)
  st_size : Path.t → Z;               (* [p.stat().st_size] *)
  image_open : Path.t → Image;        (* [Image.open(p)] *)
  load_json : Path.t → result Config; (* [json.load(open(p))] *)
  memory : Z;                         (* the longest string, in characters,
                                         that the process can allocate *)
}.

(** The optional imports and the two external PDF renderers; a renderer
    is given the HTML text and either writes the PDF or raises. *)
Record Env := {
  PIL_AVAILABLE : bool;
  PLAYWRIGHT_AVAILABLE : bool;
  WEASYPRINT_AVAILABLE : bool;
  playwright_pdf : string → result unit;
  weasyprint_pdf : string → result unit;
}.

(** [fnmatch(name, "*.[jp][pn][g]")]: the name ends in a dot, [j] or [p],
    [p] or [n], and [g]. *)
Definition image_name (name : string) : bool :=
  match List.rev (Py.chars name) with
  | g :: c2 :: c1 :: dot :: _ =>
      bool_decide (g = "g"%char ∧ (c2 = "p"%char ∨ c2 = "n"%char)
                   ∧ (c1 = "j"%char ∨ c1 = "p"%char) ∧ dot = "."%char)
  | _ => false
  end.

(** [list(d.glob("*.[jp][pn][g]"))] and [list(d.glob("*"))] *)
Definition glob_images (fs : FS) (d : Path.t) : list Path.t :=
  Path.div d <$> List.filter image_name (iterdir fs d).
Definition glob_all (fs : FS) (d : Path.t) : list Path.t :=
  Path.div d <$> iterdir fs d.

(** ** [ValidationResult] and [EPKGenerator] *)

Record ValidationResult := {
  is_valid : bool;
  errors : list string;
  warnings : list string;
}.

Record EPKGenerator := {
  project_dir : Path.t;
  config : Config;
  optimize_images : bool;
  _for_pdf : option bool;   (* unset until [generate_html] stores it *)
}.

(** [EPKGenerator(project_dir, optimize_images)] *)
Definition EPKGenerator_init (env : Env) (dir : Path.t) (optimize : bool)
  : EPKGenerator :=
  {| project_dir := dir; config := empty_config;
     optimize_images := optimize && PIL_AVAILABLE env; _for_pdf := None |}.

Definition assets_dir (self : EPKGenerator) : Path.t :=
  Path.div (project_dir self) "assets".
Definition output_dir (self : EPKGenerator) : Path.t :=
  Path.div (project_dir self) "output".

(** [getattr(self, '_for_pdf', False)] *)
Definition for_pdf (self : EPKGenerator) : bool := default false (_for_pdf self).

Definition load_config (fs : FS) (self : EPKGenerator) (config_file : Path.t)
  : result EPKGenerator :=
  c ← load_json fs config_file;
  Ok {| project_dir := project_dir self; config := c;
        optimize_images := optimize_images self; _for_pdf := _for_pdf self |}.

(** *** [validate_assets] *)

Definition required_fields : list (string * string) :=
  [("title", "Film title"); ("logline", "Logline"); ("synopsis", "Synopsis");
   ("genre", "Genre"); ("runtime", "Runtime")].

Definition missing_field_error (label : string) : string :=
  "Missing required field: " +:+ label.

Definition check_required (meta : dict) : list string :=
  '(field, label) ← required_fields;
  if Py.truthy (meta !! field) then [] else [missing_field_error label].

Definition posters_dir (self : EPKGenerator) : Path.t :=
  Path.div (Path.div (assets_dir self) "images") "posters".
Definition stills_dir (self : EPKGenerator) : Path.t :=
  Path.div (Path.div (assets_dir self) "images") "stills".
Definition downloads_dir (self : EPKGenerator) : Path.t :=
  Path.div (assets_dir self) "downloads".

Definition poster_required : string := "Poster image required (JPG or PNG)".

(** The poster rule: its errors and its warnings. *)
Definition check_poster (env : Env) (fs : FS) (self : EPKGenerator)
  : list string * list string :=
  let poster_dir := posters_dir self in
  if negb (exists_ fs poster_dir) || bool_decide (glob_images fs poster_dir = [])
  then ([poster_required], [])
  else if PIL_AVAILABLE env then
    match glob_images fs poster_dir with
    | poster :: _ =>
        match image_open fs poster with
        | Picture w h =>
            if bool_decide (w < 1000 ∨ h < 1500)%Z
            then ([], ["Poster resolution low (" +:+ Py.str_int w +:+ "x" +:+
                       Py.str_int h +:+ "px). Recommended: 2000x3000px"])
            else ([], [])
        | Unreadable e => ([], ["Could not validate poster: " +:+ e])
        end
    | [] => ([], [])
    end
  else ([], []).

Definition still_low_warning (still : Path.t) : string :=
  "Still '" +:+ Path.name still +:+ "' resolution low. Recommended: 1920x1080px".

(** The loop over the sampled stills: it stops at the first picture less
    than 1280 wide; a still that cannot be opened is passed over. *)
Fixpoint sample_stills (fs : FS) (stills : list Path.t) : list string :=
  match stills with
  | [] => []
  | still :: rest =>
      match image_open fs still with
      | Picture w _ =>
          if bool_decide (w < 1280)%Z then [still_low_warning still]
          else sample_stills fs rest
      | Unreadable _ => sample_stills fs rest
      end
  end.

Definition few_stills_warning (n : nat) : string :=
  "Only " +:+ Py.str_int (Z.of_nat n) +:+ " stills found. Recommended: 8-12".

Definition no_stills_folder : string := "No production stills folder found".

Definition check_stills (env : Env) (fs : FS) (self : EPKGenerator)
  : list string :=
  if exists_ fs (stills_dir self) then
    let stills := glob_images fs (stills_dir self) in
    ((if bool_decide (length stills < 8)
      then [few_stills_warning (length stills)] else [])
     ++ (if PIL_AVAILABLE env && negb (bool_decide (stills = []))
         then sample_stills fs (take 3 stills) else []))%list
  else [no_stills_folder].

Definition contact_required : string := "Contact email required".

Definition check_contact (cfg : Config) : list string :=
  if Py.truthy (contact cfg !! "email") then [] else [contact_required].

Definition check_synopsis (meta : dict) : list string :=
  let synopsis := Py.get meta "synopsis" "" in
  if negb (synopsis =? "")%string && bool_decide (Py.len synopsis < 200)%Z
  then ["Synopsis is short (" +:+ Py.str_int (Py.len synopsis) +:+
        " chars). Recommended: 200-400 words"]
  else [].

Definition validate_assets (env : Env) (fs : FS) (self : EPKGenerator)
  : ValidationResult :=
  let meta := metadata (config self) in
  let errors :=
    (check_required meta ++ fst (check_poster env fs self)
     ++ check_contact (config self))%list in
  let warnings :=
    (snd (check_poster env fs self) ++ check_stills env fs self
     ++ check_synopsis meta)%list in
  {| is_valid := bool_decide (length errors = 0);
     errors := errors; warnings := warnings |}.

(** ** HTML generation *)

(** *** Asset references

    The branch on [_for_pdf] that the cover, the team, the gallery and the
    downloads each write out for the file they refer to: an absolute file
    URI for PDF rendering, a path relative to [output/html] otherwise. *)
Definition asset_ref (fs : FS) (self : EPKGenerator) (p : Path.t)
  : result string :=
  if for_pdf self
  then Path.as_uri (Path.resolve (cwd fs) p)
  else rel ← Path.relative_to p (project_dir self);
       Ok (Path.str (Path.join (Path.of_str "../../") rel)).

(** *** Cover *)

(** [poster_path]: the reference to the first poster, if there is one. *)
Definition cover_poster_path (fs : FS) (self : EPKGenerator)
  : result (option string) :=
  let poster_dir := posters_dir self in
  if exists_ fs poster_dir then
    match glob_images fs poster_dir with
    | poster :: _ => r ← asset_ref fs self poster; Ok (Some r)
    | [] => Ok None
    end
  else Ok None.

Definition laurel (award : dict) : string :=
  Py.cat
    [Py.lit (Py.lines
      ["";
       "                <div class=`laurel`>";
       "                    <span class=`laurel-title`>"]);
     Py.get award "award" "";
     Py.lines
      ["</span>";
       "                    "];
     Py.get award "festival_name" "";
     " ";
     Py.get award "year" "";
     Py.lines
      ["";
       "                </div>";
       "                "]].

(** [laurels_html]: shown on the cover for HTML only, not for PDF. *)
Definition cover_laurels_html (self : EPKGenerator) : string :=
  let awards := take 4 (awards (config self)) in
  if negb (bool_decide (awards = [])) && negb (for_pdf self)
  then Py.lit "<div class=`laurels`>" +:+ Py.cat (laurel <$> awards) +:+ "</div>"
  else "".

Definition cover_html (self : EPKGenerator) (poster_path : option string)
  (laurels_html : string) : string :=
  let meta := metadata (config self) in
  let poster_html :=
    match poster_path with
    | Some p => Py.cat [Py.lit "<img src=`"; p; Py.lit "` alt=`Poster`>"]
    | None => ""
    end in
  let title_margin := if for_pdf self then "margin-bottom: 10px;" else "" in
  let tagline_margin := if for_pdf self then "margin-bottom: 15px;" else "" in
  let meta_margin := if for_pdf self then "margin-top: 10px;" else "" in
  Py.cat
    [Py.lit (Py.lines
      ["";
       "        <div class=`cover`>";
       "            <div class=`cover-content`>";
       "                <div class=`poster-container`>";
       "                    "]);
     poster_html;
     Py.lit (Py.lines
      ["";
       "                </div>";
       "                <h1 class=`film-title` style=`"]);
     title_margin;
     Py.lit "`>";
     Py.get meta "title" "";
     Py.lines
      ["</h1>";
       "                "];
     (if Py.truthy (meta !! "tagline")
      then Py.cat [Py.lit "<p class=`tagline` style=`"; tagline_margin;
                   Py.lit "`>"; Py.get meta "tagline" "None"; "</p>"]
      else "");
     Py.lit (Py.lines
      ["";
       "                <p class=`film-meta` style=`"]);
     meta_margin;
     Py.lit (Py.lines
      ["`>";
       "                    "]);
     Py.get meta "genre" "";
     " | ";
     Py.get meta "runtime" "";
     " | ";
     Py.get meta "rating" "NR";
     Py.lines
      ["";
       "                </p>";
       "                "];
     laurels_html;
     Py.lines
      ["";
       "            </div>";
       "        </div>";
       "        "]].

Definition _generate_cover (fs : FS) (self : EPKGenerator) : result string :=
  poster_path ← cover_poster_path fs self;
  Ok (cover_html self poster_path (cover_laurels_html self)).

(** *** Synopsis *)

Definition _format_paragraphs (text : string) : string :=
  let paragraphs :=
    List.filter (fun p => negb (p =? "")%string)
      (Py.strip <$> Py.split (Py.nl +:+ Py.nl) text) in
  Py.cat ((fun p => Py.cat [Py.lit "<p style=`margin-bottom: 20px;`>"; p; "</p>"])
          <$> paragraphs).

Definition _generate_synopsis (self : EPKGenerator) : string :=
  let meta := metadata (config self) in
  Py.cat
    [Py.lit (Py.lines
      ["";
       "        <div class=`section`>";
       "            <h2>Synopsis</h2>";
       "            <p class=`logline`>"]);
     Py.get meta "logline" "";
     Py.lit (Py.lines
      ["</p>";
       "            <div class=`synopsis-text`>";
       "                "]);
     _format_paragraphs (Py.get meta "synopsis" "");
     Py.lines
      ["";
       "            </div>";
       "        </div>";
       "        "]].

(** *** Reviews *)

(** The star of the ratings: three characters in the source. *)
Definition star : string := "â˜…".

(** [rating_html]: one star per unit of [int(rating)]. *)
Definition review_rating_html (fs : FS) (review : dict) : result string :=
  if Py.truthy (review !! "rating")
  then n ← Py.int (Py.get review "rating" "0");
       stars ← Py.repeat (memory fs) 3 star n;
       Ok (Py.cat [Py.lit "<div class=`review-rating`>"; stars; "</div>"])
  else Ok "".

Definition review_card (fs : FS) (review : dict) : result string :=
  rating_html ← review_rating_html fs review;
  Ok (Py.cat
    [Py.lit (Py.lines
      ["";
       "            <div class=`review-card`>";
       "                "]);
     rating_html;
     Py.lit (Py.lines
      ["";
       "                <p class=`review-quote`>`"]);
     Py.get review "quote" "";
     Py.lit (Py.lines
      ["`</p>";
       "                <p class=`review-source`>â€” "]);
     Py.get review "source" "";
     Py.lines
      ["</p>";
       "            </div>";
       "            "]]).

Definition _generate_reviews (fs : FS) (self : EPKGenerator)
  : result string :=
  let reviews := reviews (config self) in
  if bool_decide (reviews = []) then Ok ""
  else
    cards ← mapM (review_card fs) reviews;
    Ok (Py.cat
      [Py.lit (Py.lines
        ["";
         "        <div class=`section reviews`>";
         "            <h2>Press & Reviews</h2>";
         "            <div class=`review-grid`>";
         "                "]);
       Py.cat cards;
       Py.lines
        ["";
         "            </div>";
         "        </div>";
         "        "]]).

(** *** Festivals and awards *)

Definition festival_item (fest : dict) : string :=
  let selection :=
    if Py.truthy (fest !! "selection_type")
    then " - " +:+ Py.get fest "selection_type" "" else "" in
  Py.cat
    [Py.lit (Py.lines
      ["";
       "                <li style=`padding: 15px 0; border-bottom: 1px solid #E5E7EB; font-size: 1.1rem;`>";
       "                    <strong>"]);
     Py.get fest "festival_name" "";
     "</strong> ";
     Py.get fest "year" "";
     selection;
     Py.lines
      ["";
       "                </li>";
       "                "]].

Definition festivals_content (self : EPKGenerator) : string :=
  let festivals := festivals (config self) in
  let awards := awards (config self) in
  (if bool_decide (awards = []) then ""
   else Py.cat
     [Py.lit "<h3 style=`text-align: center; margin-bottom: 30px;`>Awards</h3>";
      Py.lit "<div class=`laurels` style=`margin-bottom: 50px;`>";
      Py.cat (laurel <$> awards);
      "</div>"])
  +:+
  (if bool_decide (festivals = []) then ""
   else Py.cat
     [Py.lit "<h3 style=`text-align: center; margin-bottom: 20px;`>Festival Screenings</h3>";
      Py.lit "<div style=`max-width: 800px; margin: 0 auto;`><ul style=`list-style: none; padding: 0;`>";
      Py.cat (festival_item <$> festivals);
      "</ul></div>"]).

Definition _generate_festivals (self : EPKGenerator) : string :=
  let festivals := festivals (config self) in
  let awards := awards (config self) in
  if bool_decide (festivals = []) && bool_decide (awards = []) then ""
  else
    let content := festivals_content self in
    if (content =? "")%string then ""
    else Py.cat
      [Py.lit (Py.lines
        ["";
         "        <div class=`section`>";
         "            <div style=`page-break-inside: avoid;`>";
         "                <h2>Festivals & Awards</h2>";
         "                "]);
       content;
       Py.lines
        ["";
         "            </div>";
         "        </div>";
         "        "]].

(** *** Press coverage *)

Definition press_item (item : dict) : string :=
  let url_html :=
    if Py.truthy (item !! "url")
    then Py.cat [Py.lit "<a href=`"; Py.get item "url" "";
                 Py.lit "` target=`_blank` style=`color: inherit; text-decoration: none; border-bottom: 2px solid currentColor;`>Read Article â†’</a>"]
    else "" in
  Py.cat
    [Py.lit (Py.lines
      ["";
       "            <div style=`background: #F9FAFB; padding: 25px; border-radius: 8px; border-left: 4px solid #3B82F6; margin-bottom: 20px;`>";
       "                <div style=`font-size: 0.9rem; color: #6B7280; margin-bottom: 10px; text-transform: uppercase;`>";
       "                    "]);
     Py.get item "publication" "";
     " â€¢ ";
     Py.get item "date" "";
     Py.lit (Py.lines
      ["";
       "                </div>";
       "                <h4 style=`font-size: 1.3rem; margin-bottom: 15px;`>"]);
     Py.get item "title" "";
     Py.lines
      ["</h4>";
       "                "];
     (if Py.truthy (item !! "excerpt")
      then Py.cat [Py.lit "<p style=`margin-bottom: 15px; line-height: 1.6;`>";
                   Py.get item "excerpt" ""; "</p>"]
      else "");
     Py.lines
      ["";
       "                "];
     url_html;
     Py.lines
      ["";
       "            </div>";
       "            "]].

Definition _generate_press (self : EPKGenerator) : string :=
  let press := press_coverage (config self) in
  if bool_decide (press = []) then ""
  else Py.cat
    [Py.lit (Py.lines
      ["";
       "        <div class=`section`>";
       "            <h2>Press Coverage</h2>";
       "            <div style=`max-width: 900px; margin: 0 auto;`>";
       "                "]);
     Py.cat (press_item <$> press);
     Py.lines
      ["";
       "            </div>";
       "        </div>";
       "        "]].

(** *** Team *)

(** The reference to a member's photo, when one is configured and the
    file exists. *)
Definition team_photo_path (fs : FS) (self : EPKGenerator) (member : dict)
  : result (option string) :=
  if Py.truthy (member !! "photo") then
    let photo_path := Path.div (project_dir self) (Py.get member "photo" "") in
    if exists_ fs photo_path
    then r ← asset_ref fs self photo_path; Ok (Some r)
    else Ok None
  else Ok None.

Definition team_member_html (member : dict) (photo : option string) : string :=
  let photo_html :=
    match photo with
    | Some rel_path =>
        Py.cat [Py.lit "<img src=`"; rel_path; Py.lit "` alt=`";
                Py.get member "name" "None"; Py.lit "` class=`team-photo`>"]
    | None => ""
    end in
  Py.cat
    [Py.lit (Py.lines
      ["";
       "            <div class=`team-member`>";
       "                "]);
     photo_html;
     Py.lit (Py.lines
      ["";
       "                <h3 class=`member-name`>"]);
     Py.get member "name" "";
     Py.lit (Py.lines
      ["</h3>";
       "                <p class=`member-role`>"]);
     Py.get member "role" "";
     Py.lines
      ["</p>";
       "                "];
     (if Py.truthy (member !! "bio")
      then Py.cat [Py.lit "<p class=`member-bio`>"; Py.get member "bio" ""; "</p>"]
      else "");
     Py.lines
      ["";
       "            </div>";
       "            "]].

Definition team_html (members : string) : string :=
  Py.cat
    [Py.lit (Py.lines
      ["";
       "        <div class=`section`>";
       "            <div style=`page-break-inside: avoid;`>";
       "                <h2>Cast & Crew</h2>";
       "                <div class=`team-grid`>";
       "                    "]);
     members;
     Py.lines
      ["";
       "                </div>";
       "            </div>";
       "        </div>";
       "        "]].

Definition _generate_team (fs : FS) (self : EPKGenerator) : result string :=
  let team := team (config self) in
  if bool_decide (team = []) then Ok ""
  else
    members ← mapM (fun member =>
                 photo ← team_photo_path fs self member;
                 Ok (team_member_html member photo)) team;
    Ok (team_html (Py.cat members)).

(** *** Distribution *)

Definition distribution_content (dist : Distribution) : string :=
  let text := dist_text dist in
  let platforms := default [] (dist_platforms dist) in
  Py.cat
    [Py.lit "<div style=`max-width: 800px; margin: 0 auto;`>";
     (if Py.truthy (text !! "theatrical_release")
         || Py.truthy (text !! "digital_release")
      then Py.cat
        [Py.lit "<div style=`background: linear-gradient(135deg, #667EEA 0%, #764BA2 100%); color: white; padding: 40px; border-radius: 12px; text-align: center; margin-bottom: 30px;`>";
         (if Py.truthy (text !! "theatrical_release")
          then Py.cat
            [Py.lit "<div style=`font-size: 1.5rem; font-weight: 700; margin-bottom: 10px;`>THEATRICAL RELEASE</div>";
             Py.lit "<div style=`font-size: 2rem; margin-bottom: 20px;`>";
             Py.get text "theatrical_release" "";
             "</div>"]
          else "");
         (if Py.truthy (text !! "digital_release")
          then Py.cat
            [Py.lit "<div style=`font-size: 1.5rem; font-weight: 700; margin-bottom: 10px;`>DIGITAL RELEASE</div>";
             Py.lit "<div style=`font-size: 2rem;`>";
             Py.get text "digital_release" "";
             "</div>"]
          else "");
         "</div>"]
      else "");
     (if bool_decide (platforms = []) then ""
      else Py.cat
        [Py.lit "<div style=`text-align: center; margin-bottom: 30px;`>";
         Py.lit "<h3 style=`font-size: 1.5rem; margin-bottom: 20px;`>Available On</h3>";
         Py.lit "<div style=`display: flex; flex-wrap: wrap; gap: 15px; justify-content: center;`>";
         Py.cat ((fun platform =>
                    Py.cat [Py.lit "<div style=`background: #1F2937; color: white; padding: 15px 30px; border-radius: 8px; font-weight: 600;`>";
                            platform; "</div>"]) <$> platforms);
         "</div></div>"]);
     "</div>"].

Definition _generate_distribution (self : EPKGenerator) : string :=
  let dist := distribution (config self) in
  if dist_is_empty dist then ""
  else Py.cat
    [Py.lit (Py.lines
      ["";
       "        <div class=`section`>";
       "            <h2>Distribution & Availability</h2>";
       "            "]);
     distribution_content dist;
     Py.lines
      ["";
       "        </div>";
       "        "]].

(** *** Technical information *)

Definition spec_row (spec : string * string) : string :=
  let '(label, value) := spec in
  if (value =? "")%string then ""
  else Py.cat
    [Py.lit (Py.lines
      ["";
       "                <div class=`spec-row`>";
       "                    <span class=`spec-label`>"]);
     label;
     Py.lit (Py.lines
      ["</span>";
       "                    <span class=`spec-value`>"]);
     value;
     Py.lines
      ["</span>";
       "                </div>";
       "                "]].

Definition _generate_technical (self : EPKGenerator) : string :=
  let meta := metadata (config self) in
  let tech := technical (config self) in
  let specs :=
    [("Runtime", Py.get meta "runtime" "");
     ("Genre", Py.get meta "genre" "");
     ("Rating", Py.get meta "rating" "");
     ("Language", Py.get meta "language" "");
     ("Country", Py.get meta "country" "");
     ("Release Date", Py.get meta "release_date" "");
     ("Aspect Ratio", Py.get tech "aspect_ratio" "");
     ("Sound", Py.get tech "sound" "");
     ("Color", Py.get tech "color" "")] in
  Py.cat
    [Py.lit (Py.lines
      ["";
       "        <div class=`section`>";
       "            <h2>Technical Information</h2>";
       "            <div class=`tech-specs`>";
       "                "]);
     Py.cat (spec_row <$> specs);
     Py.lines
      ["";
       "            </div>";
       "        </div>";
       "        "]].

(** *** Gallery *)

(** The order of paths: component by component, characters by code. *)
Fixpoint parts_leb (a b : list string) : bool :=
  match a, b with
  | [], _ => true
  | _ :: _, [] => false
  | x :: a', y :: b' =>
      match String.compare x y with
      | Lt => true
      | Gt => false
      | Eq => parts_leb a' b'
      end
  end.

Definition path_le (p q : Path.t) : Prop :=
  parts_leb (Path.root p :: Path.parts p) (Path.root q :: Path.parts q).

#[global] Instance path_le_dec : RelDecision path_le.
Proof. intros p q. unfold path_le. apply _. Defined.

(** [sorted(stills_dir.glob("*.[jp][pn][g]"))[:12]] *)
Definition gallery_stills (fs : FS) (self : EPKGenerator) : list Path.t :=
  take 12 (merge_sort path_le (glob_images fs (stills_dir self))).

(** The references to the stills shown. *)
Definition gallery_paths (fs : FS) (self : EPKGenerator)
  : result (list string) :=
  if exists_ fs (stills_dir self)
  then mapM (asset_ref fs self) (gallery_stills fs self)
  else Ok [].

Definition still_img (rel_path : string) : string :=
  Py.cat [Py.lit "<img src=`"; rel_path; Py.lit "` alt=`Still` class=`still-img`>"].

Definition gallery_html (gallery : string) : string :=
  Py.cat
    [Py.lit (Py.lines
      ["";
       "        <div class=`section`>";
       "            <h2>Production Stills</h2>";
       "            <div class=`stills-gallery`>";
       "                "]);
     gallery;
     Py.lines
      ["";
       "            </div>";
       "        </div>";
       "        "]].

Definition _generate_gallery (fs : FS) (self : EPKGenerator) : result string :=
  if negb (exists_ fs (stills_dir self)) then Ok ""
  else if bool_decide (gallery_stills fs self = []) then Ok ""
  else
    paths ← gallery_paths fs self;
    Ok (gallery_html (Py.cat (still_img <$> paths))).

(** *** Downloads *)

Definition download_files (fs : FS) (self : EPKGenerator) : list Path.t :=
  glob_all fs (downloads_dir self).

(** The references to the files offered for download. *)
Definition download_paths (fs : FS) (self : EPKGenerator)
  : result (list string) :=
  if exists_ fs (downloads_dir self)
  then mapM (asset_ref fs self) (download_files fs self)
  else Ok [].

Definition download_icon (ext : string) : string :=
  let kind := String.substring 1 (String.length ext - 1) ext in
  if (kind =? "jpg")%string then "ðŸ–¼ï¸"
  else if (kind =? "png")%string then "ðŸ–¼ï¸"
  else if (kind =? "pdf")%string then "ðŸ“„"
  else if (kind =? "mp4")%string then "ðŸŽ¬"
  else if (kind =? "zip")%string then "ðŸ“¦"
  else "ðŸ“Ž".

Definition download_item (fs : FS) (file : Path.t) (rel_path : string)
  : string :=
  let icon := download_icon (Py.lower (Path.suffix file)) in
  Py.cat
    [Py.lit (Py.lines
      ["";
       "            <a href=`"]);
     rel_path;
     Py.lit (Py.lines
      ["` download style=`display: flex; align-items: center; padding: 20px; background: #F9FAFB; border-radius: 8px; margin-bottom: 15px; text-decoration: none; color: inherit;`>";
       "                <span style=`font-size: 2rem; margin-right: 20px;`>"]);
     icon;
     Py.lit (Py.lines
      ["</span>";
       "                <div style=`flex: 1;`>";
       "                    <div style=`font-weight: 600; font-size: 1.1rem; margin-bottom: 5px;`>"]);
     Path.name file;
     Py.lit (Py.lines
      ["</div>";
       "                    <div style=`font-size: 0.9rem; color: #6B7280;`>"]);
     Py.format_mb (st_size fs file);
     Py.lit (Py.lines
      [" MB</div>";
       "                </div>";
       "                <span style=`font-size: 1.5rem;`>â¬‡ï¸</span>";
       "            </a>";
       "            "])].

Definition downloads_html (items : string) : string :=
  Py.cat
    [Py.lit (Py.lines
      ["";
       "        <div class=`section`>";
       "            <h2>Download Press Materials</h2>";
       "            <div style=`max-width: 700px; margin: 0 auto;`>";
       "                "]);
     items;
     Py.lines
      ["";
       "            </div>";
       "        </div>";
       "        "]].

Definition _generate_downloads (fs : FS) (self : EPKGenerator)
  : result string :=
  if negb (exists_ fs (downloads_dir self)) then Ok ""
  else if bool_decide (download_files fs self = []) then Ok ""
  else
    paths ← download_paths fs self;
    Ok (downloads_html
          (Py.cat (zip_with (download_item fs) (download_files fs self) paths))).

(** *** Contact *)

Definition _generate_contact (self : EPKGenerator) : string :=
  let contact := contact (config self) in
  Py.cat
    [Py.lit (Py.lines
      ["";
       "        <div class=`section contact`>";
       "            <h2>Contact</h2>";
       "            <div class=`contact-info`>";
       "                <p><strong>Distribution:</strong> "]);
     Py.get contact "distribution_company" "Filmhub";
     Py.lines
      ["</p>";
       "                "];
     (if Py.truthy (contact !! "name")
      then Py.cat ["<p><strong>Contact:</strong> "; Py.get contact "name" "";
                   "</p>"]
      else "");
     Py.lit (Py.lines
      ["";
       "                <p><strong>Email:</strong> <a href=`mailto:"]);
     Py.get contact "email" "";
     Py.lit "` class=`contact-link`>";
     Py.get contact "email" "";
     Py.lines
      ["</a></p>";
       "                "];
     (if Py.truthy (contact !! "phone")
      then Py.cat ["<p><strong>Phone:</strong> "; Py.get contact "phone" "";
                   "</p>"]
      else "");
     Py.lines
      ["";
       "                "];
     (if Py.truthy (contact !! "website")
      then Py.cat [Py.lit "<p><strong>Website:</strong> <a href=`";
                   Py.get contact "website" "";
                   Py.lit "` class=`contact-link` target=`_blank`>";
                   Py.get contact "website" ""; "</a></p>"]
      else "");
     Py.lines
      ["";
       "            </div>";
       "        </div>";
       "        "]].

(** *** Theme *)

Record Colors := { primary : string; secondary : string; accent : string }.

(** [GENRE_COLORS], in the order the dictionary is written. *)
Definition GENRE_COLORS : list (string * Colors) :=
  [("horror", {| primary := "#8B0000"; secondary := "#2C2C2C"; accent := "#FF4444" |});
   ("sci-fi", {| primary := "#1E3A8A"; secondary := "#0F172A"; accent := "#60A5FA" |});
   ("fantasy", {| primary := "#7C3AED"; secondary := "#1E1B4B"; accent := "#A78BFA" |});
   ("comedy", {| primary := "#F59E0B"; secondary := "#78350F"; accent := "#FBBF24" |});
   ("drama", {| primary := "#374151"; secondary := "#1F2937"; accent := "#9CA3AF" |});
   ("action", {| primary := "#DC2626"; secondary := "#18181B"; accent := "#EF4444" |});
   ("documentary", {| primary := "#059669"; secondary := "#064E3B"; accent := "#10B981" |});
   ("romance", {| primary := "#DB2777"; secondary := "#831843"; accent := "#F472B6" |});
   ("thriller", {| primary := "#4B5563"; secondary := "#111827"; accent := "#6B7280" |})].

Definition DEFAULT_COLORS : Colors :=
  {| primary := "#2563EB"; secondary := "#1E293B"; accent := "#3B82F6" |}.

(** The loop of [_get_colors_for_genre] over a table: the colours of the
    first key found in [genre]. *)
Fixpoint first_match (table : list (string * Colors)) (genre : string)
  : option Colors :=
  match table with
  | [] => None
  | (key, colors) :: rest =>
      if Py.contains key genre then Some colors else first_match rest genre
  end.

Definition _get_colors_for_genre (genre : string) : Colors :=
  default DEFAULT_COLORS (first_match GENRE_COLORS genre).

(** The colours [generate_html] hands to the style sheet. *)
Definition theme (self : EPKGenerator) : Colors :=
  _get_colors_for_genre (Py.lower (Py.get (metadata (config self)) "genre" "")).

Definition _generate_css (colors : Colors) : string :=
  Py.cat
    [Py.lines
      ["";
       "* {";
       "    margin: 0;";
       "    padding: 0;";
       "    box-sizing: border-box;";
       "}";
       "";
       "body {";
       "    font-family: -apple-system, BlinkMacSystemFont, 'Segoe UI', Roboto, 'Helvetica Neue', Arial, sans-serif;";
       "    line-height: 1.6;";
       "    color: #1F2937;";
       "    background: #F9FAFB;";
       "}";
       "";
       ".container {";
       "    max-width: 1200px;";
       "    margin: 0 auto;";
       "}";
       "";
       ".section {";
       "    padding: 40px 20px;";
       "    background: white;";
       "    margin-bottom: 2px;";
       "}";
       "";
       "/* Cover Section */";
       ".cover {";
       "    min-height: 500px;";
       "    display: flex;";
       "    align-items: center;";
       "    justify-content: center;";
       "    background: linear-gradient(135deg, "];
     secondary colors;
     " 0%, ";
     primary colors;
     Py.lines
      [" 100%);";
       "    color: white;";
       "    text-align: center;";
       "    padding: 40px 20px;";
       "    page-break-inside: avoid;";
       "}";
       "";
       ".cover-content {";
       "    max-width: 900px;";
       "    page-break-inside: avoid;";
       "}";
       "";
       ".poster-container {";
       "    max-width: 400px;";
       "    margin: 0 auto 20px;";
       "    page-break-inside: avoid;";
       "    page-break-after: avoid;";
       "}";
       "";
       ".poster-container img {";
       "    width: 100%;";
       "    height: auto;";
       "    border-radius: 8px;";
       "    display: block;";
       "}";
       "";
       ".film-title {";
       "    font-size: 3.5rem;";
       "    font-weight: 800;";
       "    margin-bottom: 15px;";
       "    text-transform: uppercase;";
       "    letter-spacing: -1px;";
       "    line-height: 1.1;";
       "    page-break-before: avoid;";
       "    page-break-after: avoid;";
       "}";
       "";
       ".tagline {";
       "    font-size: 1.3rem;";
       "    margin-bottom: 20px;";
       "    opacity: 0.9;";
       "    font-style: italic;";
       "    page-break-before: avoid;";
       "}";
       "";
       ".film-meta {";
       "    font-size: 1.1rem;";
       "    margin-top: 15px;";
       "    opacity: 0.9;";
       "    page-break-before: avoid;";
       "}";
       "";
       ".laurels {";
       "    display: flex;";
       "    flex-wrap: wrap;";
       "    justify-content: center;";
       "    margin-top: 40px;";
       "}";
       "";
       ".laurel {";
       "    background: rgba(255, 255, 255, 0.1);";
       "    padding: 15px 25px;";
       "    border-radius: 8px;";
       "    font-size: 0.9rem;";
       "    border: 1px solid rgba(255, 255, 255, 0.2);";
       "    margin: 10px;";
       "}";
       "";
       ".laurel-title {";
       "    font-weight: 700;";
       "    display: block;";
       "    margin-bottom: 5px;";
       "}";
       "";
       "/* Typography */";
       "h2 {";
       "    font-size: 2.5rem;";
       "    margin-bottom: 20px;";
       "    color: "];
     primary colors;
     Py.lines
      [";";
       "    text-align: center;";
       "    font-weight: 700;";
       "}";
       "";
       "h3 {";
       "    font-size: 1.8rem;";
       "    color: "];
     primary colors;
     Py.lines
      [";";
       "    margin-bottom: 20px;";
       "}";
       "";
       ".logline {";
       "    font-size: 1.3rem;";
       "    font-weight: 600;";
       "    text-align: center;";
       "    max-width: 800px;";
       "    margin: 0 auto 30px;";
       "    color: "];
     primary colors;
     Py.lines
      [";";
       "    line-height: 1.8;";
       "}";
       "";
       ".synopsis-text {";
       "    font-size: 1.1rem;";
       "    max-width: 800px;";
       "    margin: 0 auto;";
       "    line-height: 1.9;";
       "    text-align: justify;";
       "}";
       "";
       "/* Reviews Section */";
       ".reviews {";
       "    background: "];
     secondary colors;
     Py.lines
      [";";
       "    color: white;";
       "}";
       "";
       ".reviews h2 {";
       "    color: white;";
       "}";
       "";
       ".review-grid {";
       "    max-width: 1000px;";
       "    margin: 0 auto;";
       "}";
       "";
       ".review-card {";
       "    background: rgba(255, 255, 255, 0.05);";
       "    padding: 30px;";
       "    border-radius: 8px;";
       "    border-left: 4px solid "];
     accent colors;
     Py.lines
      [";";
       "    margin-bottom: 20px;";
       "}";
       "";
       ".review-quote {";
       "    font-size: 1.2rem;";
       "    font-style: italic;";
       "    margin-bottom: 15px;";
       "    line-height: 1.6;";
       "}";
       "";
       ".review-source {";
       "    font-weight: 600;";
       "    font-size: 1rem;";
       "    opacity: 0.9;";
       "}";
       "";
       ".review-rating {";
       "    color: "];
     accent colors;
     Py.lines
      [";";
       "    margin-bottom: 10px;";
       "    font-size: 1.1rem;";
       "}";
       "";
       "/* Team Section */";
       ".team-grid {";
       "    max-width: 800px;";
       "    margin: 0 auto;";
       "    display: flex;";
       "    flex-wrap: wrap;";
       "    justify-content: center;";
       "    gap: 40px 60px;";
       "    text-align: center;";
       "    margin-top: 0;";
       "}";
       "";
       ".team-member {";
       "    width: 280px;";
       "    flex-shrink: 0;";
       "    display: flex;";
       "    flex-direction: column;";
       "    align-items: center;";
       "}";
       "";
       ".team-photo {";
       "    width: 200px;";
       "    height: 200px;";
       "    border-radius: 50%;";
       "    object-fit: cover;";
       "    margin: 0 auto 20px;";
       "    display: block;";
       "    border: 4px solid "];
     accent colors;
     Py.lines
      [";";
       "    object-position: center;";
       "}";
       "";
       ".member-name {";
       "    font-size: 1.3rem;";
       "    font-weight: 700;";
       "    margin-bottom: 5px;";
       "    color: "];
     primary colors;
     Py.lines
      [";";
       "}";
       "";
       ".member-role {";
       "    font-size: 1rem;";
       "    color: #6B7280;";
       "    margin-bottom: 15px;";
       "    text-transform: uppercase;";
       "    letter-spacing: 1px;";
       "    font-weight: 600;";
       "}";
       "";
       ".member-bio {";
       "    font-size: 0.95rem;";
       "    line-height: 1.6;";
       "    text-align: left;";
       "    color: #4B5563;";
       "}";
       "";
       "/* Gallery */";
       ".stills-gallery {";
       "    margin: 0 -10px;";
       "}";
       "";
       ".still-img {";
       "    width: 32%;";
       "    height: 250px;";
       "    object-fit: cover;";
       "    border-radius: 8px;";
       "    margin: 10px 0.5%;";
       "    display: inline-block;";
       "    vertical-align: top;";
       "}";
       "";
       "/* Technical Specs */";
       ".tech-specs {";
       "    background: #F3F4F6;";
       "    padding: 30px;";
       "    border-radius: 8px;";
       "    max-width: 700px;";
       "    margin: 0 auto;";
       "}";
       "";
       ".spec-row {";
       "    display: flex;";
       "    justify-content: space-between;";
       "    padding: 15px 0;";
       "    border-bottom: 1px solid #D1D5DB;";
       "}";
       "";
       ".spec-row:last-child {";
       "    border-bottom: none;";
       "}";
       "";
       ".spec-label {";
       "    font-weight: 600;";
       "    color: "];
     primary colors;
     Py.lines
      [";";
       "}";
       "";
       ".spec-value {";
       "    color: #374151;";
       "}";
       "";
       "/* Contact Section */";
       ".contact {";
       "    background: "];
     primary colors;
     Py.lines
      [";";
       "    color: white;";
       "    text-align: center;";
       "}";
       "";
       ".contact h2 {";
       "    color: white;";
       "}";
       "";
       ".contact-info {";
       "    font-size: 1.2rem;";
       "    margin: 20px 0;";
       "}";
       "";
       ".contact-info p {";
       "    margin: 10px 0;";
       "}";
       "";
       ".contact-link {";
       "    color: white;";
       "    text-decoration: none;";
       "    border-bottom: 2px solid "];
     accent colors;
     Py.lines
      [";";
       "    padding-bottom: 2px;";
       "}";
       "";
       ".contact-link:hover {";
       "    opacity: 0.8;";
       "}";
       "";
       "/* Print Styles */";
       "@media print {";
       "    .cover {";
       "        page-break-after: always;";
       "    }";
       "    ";
       "    .section {";
       "        page-break-inside: avoid;";
       "    }";
       "}";
       ""]].

(** *** The document *)

Definition set_for_pdf (self : EPKGenerator) (flag : bool) : EPKGenerator :=
  {| project_dir := project_dir self; config := config self;
     optimize_images := optimize_images self; _for_pdf := Some flag |}.

(** The eleven sections, in the order the document lists them. *)
Definition sections (fs : FS) (self : EPKGenerator) : list (result string) :=
  [_generate_cover fs self;
   Ok (_generate_synopsis self);
   _generate_reviews fs self;
   Ok (_generate_festivals self);
   Ok (_generate_press self);
   _generate_team fs self;
   Ok (_generate_distribution self);
   Ok (_generate_technical self);
   _generate_gallery fs self;
   _generate_downloads fs self;
   Ok (_generate_contact self)].

Definition document_head (self : EPKGenerator) : string :=
  let meta := metadata (config self) in
  Py.cat
    [Py.lit (Py.lines
      ["<!DOCTYPE html>";
       "<html lang=`en`>";
       "<head>";
       "    <meta charset=`UTF-8`>";
       "    <meta name=`viewport` content=`width=device-width, initial-scale=1.0`>";
       "    <title>"]);
     Py.get meta "title" "Film";
     Py.lit (Py.lines
      [" - Electronic Press Kit</title>";
       "    <meta name=`description` content=`"]);
     Py.get meta "logline" "";
     Py.lit (Py.lines
      ["`>";
       "    <style>"]);
     _generate_css (theme self);
     Py.lit (Py.lines
      ["</style>";
       "</head>";
       "<body>";
       "    <div class=`container`>";
       "        "])].

Definition section_separator : string :=
  Py.lines
      ["";
       "        "].

Definition document_tail : string :=
  Py.lines
      ["";
       "    </div>";
       "</body>";
       "</html>"].

(** The document around its sections. *)
Definition document (self : EPKGenerator) (parts : list string) : string :=
  Py.cat [document_head self; Py.join section_separator parts; document_tail].

(** The text of the document; [self] already holds the [_for_pdf] flag.
    The sections are evaluated in order, so the first exception wins. *)
Definition render_html (fs : FS) (self : EPKGenerator) : result string :=
  parts ← mapM id (sections fs self);
  Ok (document self parts).

(** [generate_html]: the generator afterwards, the path written and the
    text written there. *)
Definition generate_html (fs : FS) (self : EPKGenerator)
  (output_name : string) (for_pdf : bool)
  : result (EPKGenerator * Path.t * string) :=
  let self := set_for_pdf self for_pdf in
  html ← render_html fs self;
  let output_path := Path.div (Path.div (output_dir self) "html") output_name in
  Ok (self, output_path, html).

(** ** PDF generation *)

(** [_generate_pdf_playwright] and [_generate_pdf_weasyprint]: both render
    the HTML (the text of [html_file] when one is passed, a fresh
    rendering for PDF otherwise) and catch every exception. *)
Definition _generate_pdf_with (renderer : string → result unit) (fs : FS)
  (self : EPKGenerator) (html_file : option string) (output_name : string)
  : EPKGenerator * option Path.t :=
  let generated :=
    match html_file with
    | Some text => Ok (self, text)
    | None =>
        '(self', _, text) ← generate_html fs self "temp_for_pdf.html" true;
        Ok (self', text)
    end in
  match generated with
  | Raise _ => (set_for_pdf self true, None)
  | Ok (self', text) =>
      let output_path := Path.div (Path.div (output_dir self') "pdf") output_name in
      match renderer text with
      | Ok _ => (self', Some output_path)
      | Raise _ => (self', None)
      end
  end.

Definition generate_pdf (env : Env) (fs : FS) (self : EPKGenerator)
  (html_file : option string) (output_name : string) (use_playwright : bool)
  : EPKGenerator * option Path.t :=
  if use_playwright && PLAYWRIGHT_AVAILABLE env
  then _generate_pdf_with (playwright_pdf env) fs self html_file output_name
  else if WEASYPRINT_AVAILABLE env
  then _generate_pdf_with (weasyprint_pdf env) fs self html_file output_name
  else (self, None).

(** ** Batch processing *)

(** One entry of [BatchProcessor.results]. *)
Record FilmResult := {
  film : string;
  success : bool;
  html_path : option string;
  pdf_path : option string;
  film_errors : list string;
  film_warnings : list string;
}.

Record BatchProcessor := {
  root_dir : Path.t;
  results : list FilmResult;
}.

Definition BatchProcessor_init (root : string) : BatchProcessor :=
  {| root_dir := Path.of_str root; results := [] |}.

Definition find_projects (fs : FS) (self : BatchProcessor) : list Path.t :=
  List.filter
    (fun item => is_dir fs item && exists_ fs (Path.div item "film_config.json"))
    (Path.div (root_dir self) <$> iterdir fs (root_dir self)).

Definition _process_single (env : Env) (fs : FS) (project_dir : Path.t)
  : FilmResult :=
  let failed errors warnings :=
    {| film := Path.name project_dir; success := false; html_path := None;
       pdf_path := None; film_errors := errors; film_warnings := warnings |} in
  let epk := EPKGenerator_init env project_dir true in
  match load_config fs epk (Path.div project_dir "film_config.json") with
  | Raise e => failed [exn_str e] []
  | Ok epk =>
      let validation := validate_assets env fs epk in
      if negb (is_valid validation)
      then failed (errors validation) (warnings validation)
      else
        match generate_html fs epk "index.html" false with
        | Raise e =>
            failed (errors validation ++ [exn_str e])%list (warnings validation)
        | Ok (epk, path, _) =>
            let '(_, pdf) := generate_pdf env fs epk None "epk.pdf" true in
            {| film := Path.name project_dir; success := true;
               html_path := Some (Path.str path);
               pdf_path := Path.str <$> pdf;
               film_errors := errors validation;
               film_warnings := warnings validation |}
        end
  end.

(** The figures [_print_summary] logs. *)
Record Summary := { total : nat; successful : nat; failed : nat }.

Definition _print_summary (self : BatchProcessor) : Summary :=
  let total := length (results self) in
  let successful := length (List.filter success (results self)) in
  {| total := total; successful := successful; failed := total - successful |}.

(** [process_all]: the processor afterwards and the list returned. *)
Definition process_all (env : Env) (fs : FS) (self : BatchProcessor)
  : BatchProcessor * list FilmResult :=
  let projects := find_projects fs self in
  if bool_decide (projects = []) then (self, [])
  else
    let self' :=
      {| root_dir := root_dir self;
         results := (results self ++ (_process_single env fs <$> projects))%list |} in
    (self', results self').

(** ** Vocabulary of the properties *)

Definition is_ok {A} (r : result A) : bool :=
  match r with Ok _ => true | Raise _ => false end.

(** [k] occurs in [s]. *)
Definition is_substring (k s : string) : Prop :=
  ∃ pre post, s = pre +:+ k +:+ post.

(** Every asset reference the document carries: the poster of the cover,
    the photos of the team, the stills of the gallery and the files of the
    downloads, each computed by the function its section calls. *)
Definition asset_refs (fs : FS) (self : EPKGenerator) : result (list string) :=
  poster ← cover_poster_path fs self;
  photos ← mapM (team_photo_path fs self) (team (config self));
  stills ← gallery_paths fs self;
  files ← download_paths fs self;
  Ok (option_list poster ++ omap id photos ++ stills ++ files)%list.

(** [r] is a reference of the text [html]: it occurs there and it is what
    [asset_ref] makes of some file. *)
Definition emitted_reference (fs : FS) (self : EPKGenerator) (html r : string)
  : Prop :=
  is_substring r html ∧ ∃ p, asset_ref fs self p = Ok r.

(** The generator with the awards taken out of its configuration. *)
Definition without_awards (self : EPKGenerator) : EPKGenerator :=
  let c := config self in
  {| project_dir := project_dir self;
     config := {| metadata := metadata c; team := team c; awards := [];
                  festivals := festivals c; reviews := reviews c;
                  press_coverage := press_coverage c;
                  distribution := distribution c; technical := technical c;
                  contact := contact c |};
     optimize_images := optimize_images self; _for_pdf := _for_pdf self |}.

(** The block of laurels the cover shows: the first four awards. *)
Definition laurels_block (self : EPKGenerator) : string :=
  Py.lit "<div class=`laurels`>"
  +:+ Py.cat (laurel <$> take 4 (awards (config self))) +:+ "</div>".

(** What the cover shows of one award: its title in its tag, and the
    festival with the year. *)
Definition laurel_title (award : dict) : string :=
  Py.lit "<span class=`laurel-title`>" +:+ Py.get award "award" ""
  +:+ "</span>".

Definition laurel_festival (award : dict) : string :=
  Py.get award "festival_name" "" +:+ " " +:+ Py.get award "year" "".

(** The generator [_process_single] works with: the configuration of the
    project loaded, or the exception of the loading. *)
Definition loaded (env : Env) (fs : FS) (dir : Path.t) : result EPKGenerator :=
  load_config fs (EPKGenerator_init env dir true)
    (Path.div dir "film_config.json").

(** The configuration of the project loads and has no contact email. *)
Definition lacks_contact_email (env : Env) (fs : FS) (dir : Path.t) : bool :=
  match loaded env fs dir with
  | Ok epk => negb (Py.truthy (contact (config epk) !! "email"))
  | Raise _ => false
  end.

(** The project is sound: its configuration loads, its validation finds
    no error and its HTML is generated. *)
Definition project_is_sound (env : Env) (fs : FS) (dir : Path.t) : bool :=
  match loaded env fs dir with
  | Ok epk =>
      bool_decide (errors (validate_assets env fs epk) = [])
      && is_ok (generate_html fs epk "index.html" false)
  | Raise _ => false
  end.

(** An absolute file URI: the scheme, an empty authority, a path from the
    root. *)
Definition is_file_uri (r : string) : bool := String.prefix "file:///" r.

(** A URI scheme at the head of [r]: a letter, then letters, digits,
    [+], [-] or [.], then a colon. *)
Definition is_alpha (c : ascii) : bool :=
  let n := Py.code c in
  ((65 <=? n) && (n <=? 90) || (97 <=? n) && (n <=? 122))%N.

Fixpoint scheme_rest (s : string) : bool :=
  match s with
  | "" => false
  | String c s' =>
      let n := Py.code c in
      if (n =? 58)%N then true
      else if (is_alpha c || (48 <=? n) && (n <=? 57)
               || (n =? 43) || (n =? 45) || (n =? 46))%N
      then scheme_rest s' else false
  end.

Definition has_scheme (r : string) : bool :=
  match r with
  | String c s => is_alpha c && scheme_rest s
  | "" => false
  end.

(** A relative path: no scheme and no leading slash. *)
Definition is_relative_path (r : string) : bool :=
  negb (has_scheme r) && negb (String.prefix "/" r).

(** The warnings about a still of low resolution. *)
Definition is_still_warning (w : string) : bool := String.prefix "Still '" w.

(** The errors about a required field. *)
Definition is_required_field_error (e : string) : bool :=
  String.prefix "Missing required field: " e.

(** A still is of low resolution when it opens and is less than 1280
    wide. *)
Definition still_is_low (fs : FS) (still : Path.t) : bool :=
  match image_open fs still with
  | Picture w _ => bool_decide (w < 1280)%Z
  | Unreadable _ => false
  end.

(** The first poster is of low resolution, or cannot be read. *)
Definition poster_is_poor (fs : FS) (self : EPKGenerator) : bool :=
  match glob_images fs (posters_dir self) with
  | poster :: _ =>
      match image_open fs poster with
      | Picture w h => bool_decide (w < 1000 ∨ h < 1500)%Z
      | Unreadable _ => true
      end
  | [] => false
  end.

(** A still is correctly sized when it opens and is at least 1280 wide. *)
Definition still_is_sized (fs : FS) (still : Path.t) : bool :=
  match image_open fs still with
  | Picture w _ => bool_decide (1280 ≤ w)%Z
  | Unreadable _ => false
  end.

(** A complete project: the five required fields, a poster, eight or more
    correctly sized stills and a contact email. *)
Definition complete_project (fs : FS) (self : EPKGenerator) : bool :=
  forallb (fun fl => Py.truthy (metadata (config self) !! fl.1)) required_fields
  && exists_ fs (posters_dir self)
  && negb (bool_decide (glob_images fs (posters_dir self) = []))
  && exists_ fs (stills_dir self)
  && bool_decide (8 ≤ length (glob_images fs (stills_dir self)))%nat
  && forallb (still_is_sized fs) (glob_images fs (stills_dir self))
  && Py.truthy (contact (config self) !! "email").

(** The validation of a complete project as the specification words it:
    no error, and no warning unless the synopsis is short. *)
Definition warnings_only_for_short_synopsis : Prop :=
  ∀ env fs self,
    complete_project fs self = true →
    let r := validate_assets env fs self in
    is_valid r = true ∧ errors r = [] ∧
    (warnings r ≠ [] →
     (Py.len (Py.get (metadata (config self)) "synopsis" "") < 200)%Z).

(** ** A sample batch

    Three projects under [films], each with a poster and eight stills;
    [alpha] also has a press kit to download and a photo of its director.
    The poster picture, the contact of [beta] and the reviews of [gamma]
    are left open. *)

Definition demo_synopsis : string :=
  Py.cat (replicate 6 "A crew of divers maps a drowned city. ").

Definition demo_metadata : dict :=
  list_to_map
    [("title", "Tides"); ("logline", "The sea keeps what it takes.");
     ("synopsis", demo_synopsis); ("genre", "Sci-Fi Thriller");
     ("runtime", "90 minutes")].

Definition demo_award : dict :=
  list_to_map
    [("festival_name", "Sundance Film Festival");
     ("award", "Jury Award - Best Feature"); ("year", "2025")].

Definition demo_config (team awards reviews : list dict) (contact : dict)
  : Config :=
  {| metadata := demo_metadata; team := team; awards := awards;
     festivals := []; reviews := reviews; press_coverage := [];
     distribution := {| dist_text := ∅; dist_platforms := None;
                        dist_territories := None |};
     technical := ∅; contact := contact |}.

Definition demo_contact : dict := list_to_map [("email", "press@tides.example")].

Definition demo_director : dict :=
  list_to_map
    [("name", "Ada Marsh"); ("role", "Director");
     ("photo", "assets/images/crew/director.jpg")].

Definition demo_stills : list string :=
  ["s1.jpg"; "s2.jpg"; "s3.jpg"; "s4.jpg"; "s5.png"; "s6.png"; "s7.png";
   "s8.png"].

Definition demo_fs (poster : Image) (beta_contact : dict)
  (gamma_reviews : list dict) : FS :=
  let under (suffix : string) (p : Path.t) : bool :=
    bool_decide (Path.str p ∈
      ["films/alpha" +:+ suffix; "films/beta" +:+ suffix;
       "films/gamma" +:+ suffix]) in
  {| cwd := ["srv"];
     exists_ p :=
       under "" p || under "/film_config.json" p
       || under "/assets/images/posters" p || under "/assets/images/stills" p
       || bool_decide (Path.str p ∈
            ["films"; "films/alpha/assets/downloads";
             "films/alpha/assets/images/crew/director.jpg"]);
     is_dir p := under "" p;
     iterdir p :=
       if under "/assets/images/posters" p then ["poster.jpg"; "notes.txt"]
       else if under "/assets/images/stills" p then demo_stills
       else if bool_decide (Path.str p = "films/alpha/assets/downloads")
       then ["presskit.zip"]
       else if bool_decide (Path.str p = "films")
       then ["alpha"; "beta"; "gamma"; "README.md"]
       else [];
     st_size _ := 3670016%Z;
     image_open p :=
       if bool_decide (Path.name p = "poster.jpg") then poster
       else Picture 1920 1080;
     load_json p :=
       if bool_decide (Path.str p = "films/alpha/film_config.json")
       then Ok (demo_config [demo_director] [demo_award] [] demo_contact)
       else if bool_decide (Path.str p = "films/beta/film_config.json")
       then Ok (demo_config [] [] [] beta_contact)
       else if bool_decide (Path.str p = "films/gamma/film_config.json")
       then Ok (demo_config [] [] gamma_reviews demo_contact)
       else Raise (ValueError "Expecting value: line 1 column 1 (char 0)");
     memory := 2 ^ 30 |}.

Definition demo_env : Env :=
  {| PIL_AVAILABLE := true; PLAYWRIGHT_AVAILABLE := false;
     WEASYPRINT_AVAILABLE := false;
     playwright_pdf _ := Ok (); weasyprint_pdf _ := Ok () |}.

Definition good_poster : Image := Picture 2000 3000.

(** The generator of a sample project, its configuration loaded. *)
Definition demo_generator (name : string) (cfg : Config) : EPKGenerator :=
  {| project_dir := Path.div (Path.of_str "films") name; config := cfg;
     optimize_images := true; _for_pdf := None |}.

Definition alpha : EPKGenerator :=
  demo_generator "alpha" (demo_config [demo_director] [demo_award] [] demo_contact).

(** A review rated with a decimal fraction. *)
Definition half_star_review : dict :=
  list_to_map
    [("quote", "A masterpiece of modern cinema");
     ("source", "The Hollywood Reporter"); ("rating", "4.5")].

Definition gamma (reviews : list dict) : EPKGenerator :=
  demo_generator "gamma" (demo_config [] [] reviews demo_contact).

(** * The API ([api/main.py])

    The handlers that only read the project and the registry, and the
    loop of [create_project] that associates the uploaded team photos.
    The handlers that write or delete files ([create_project] as a whole,
    the downloads, [delete_project]) are left out. *)

(** ** The team photos of [create_project] *)

(** [s.replace(' ', '_')], character by character. *)
Definition underscore (c : ascii) : ascii :=
  if (Py.code c =? 32)%N then "_"%char else c.

(** [photo.filename.lower().startswith(
       member.get('name', '').lower().replace(' ', '_'))] *)
Definition photo_matches (filename : string) (member : dict) : bool :=
  String.prefix
    (Py.map_chars underscore (Py.lower (Py.get member "name" "")))
    (Py.lower filename).

(** [f"assets/images/crew/{photo.filename}"] *)
Definition crew_photo (filename : string) : string :=
  "assets/images/crew/" +:+ filename.

(** The loop over the members, for one uploaded photo: every member the
    file name matches gets the photo. *)
Definition associate_photo (team : list dict) (filename : string) : list dict :=
  (fun member =>
     if photo_matches filename member
     then <["photo" := crew_photo filename]> member else member) <$> team.

(** The loop over the uploaded photos, in the order uploaded. *)
Definition associate_photos (team : list dict) (filenames : list string)
  : list dict :=
  foldl associate_photo team filenames.

(** ** The handlers *)

(** The [detail] of an [HTTPException]: a text, or the dictionary that
    [generate_epk] builds when the validation fails. *)
Inductive detail :=
  | Text (s : string)
  | ValidationFailed (message : string) (errors : list string).

(** What the body of a handler raises. *)
Inductive raised :=
  | HTTPException (status_code : Z) (d : detail)
  | Exception (e : exn).

(** The outcome of a handler: it returns or it raises. *)
Inductive attempt (A : Type) :=
  | Return (a : A)
  | Raised (r : raised).
Arguments Return {A} a.
Arguments Raised {A} r.

#[global] Instance attempt_bind : MBind attempt := λ A B k r,
  match r with
  | Return a => k a
  | Raised r => Raised r
  end.

(** A call into [epk_core] from a handler. *)
Definition lift {A} (r : result A) : attempt A :=
  match r with
  | Ok a => Return a
  | Raise e => Raised (Exception e)
  end.

(** What the handlers read of the module and of the framework: the
    directory of the projects, and [str(e)] for an [HTTPException]. *)
Record Api := {
  PROJECTS_DIR : Path.t;
  http_exception_str : Z → detail → string;
}.

(** [str(e)] *)
Definition raised_str (api : Api) (r : raised) : string :=
  match r with
  | HTTPException status_code d => http_exception_str api status_code d
  | Exception e => exn_str e
  end.

(** [assets_saved]: the names of the files uploaded, by kind. *)
Record Assets := {
  saved_poster : option string;
  saved_stills : option (list string);
  saved_team_photos : option (list string);
}.

(** One entry of [active_projects]. *)
Record Project := {
  created_at : string;
  film_title : string;
  status : string;
  assets : Assets;
  generated_at : option string;
}.

Record ProjectResponse := {
  response_project_id : string;
  response_status : string;
  message : string;
  validation : option ValidationResult;
  download_urls : option (list (string * string));
}.

(** [validate_project]: the [try] block, then the handler around it,
    whose one [except] clause catches every exception, an
    [HTTPException] of the block included. *)
Definition validate_project_try (api : Api) (env : Env) (fs : FS)
  (project_id : string) : attempt (string * ValidationResult) :=
  let project_dir := Path.div (PROJECTS_DIR api) project_id in
  if negb (exists_ fs project_dir)
  then Raised (HTTPException 404 (Text "Project not found"))
  else
    let config_file := Path.div project_dir "film_config.json" in
    let epk := EPKGenerator_init env (Path.of_str (Path.str project_dir)) true in
    epk ← lift (load_config fs epk (Path.of_str (Path.str config_file)));
    Return (project_id, validate_assets env fs epk).

Definition validate_project (api : Api) (env : Env) (fs : FS)
  (project_id : string) : attempt (string * ValidationResult) :=
  match validate_project_try api env fs project_id with
  | Return r => Return r
  | Raised e => Raised (HTTPException 500 (Text (raised_str api e)))
  end.

Definition pdf_unavailable : string :=
  "PDF generation not available on Vercel. Use your browser's 'Print to PDF' feature on the HTML version.".

(** [generate_epk]: the [try] block, which returns the registry as it
    leaves it and the response; [now] is [datetime.now().isoformat()]. *)
Definition generate_epk_try (api : Api) (env : Env) (fs : FS)
  (active_projects : gmap string Project) (now : string)
  (project_id : string) (generate_pdf : bool)
  : attempt (gmap string Project * ProjectResponse) :=
  let project_dir := Path.div (PROJECTS_DIR api) project_id in
  if negb (exists_ fs project_dir)
  then Raised (HTTPException 404 (Text "Project not found"))
  else
    let config_file := Path.div project_dir "film_config.json" in
    if negb (exists_ fs config_file)
    then Raised (HTTPException 400 (Text "Configuration file not found"))
    else
      let epk := EPKGenerator_init env (Path.of_str (Path.str project_dir)) true in
      epk ← lift (load_config fs epk (Path.of_str (Path.str config_file)));
      let validation := validate_assets env fs epk in
      if negb (is_valid validation)
      then Raised (HTTPException 400
                     (ValidationFailed "Validation failed" (errors validation)))
      else
        _ ← lift (generate_html fs epk "index.html" false);
        let pdf_note := if generate_pdf then Some pdf_unavailable else None in
        let active_projects :=
          match active_projects !! project_id with
          | Some p =>
              <[project_id := {| created_at := created_at p;
                                 film_title := film_title p;
                                 status := "generated";
                                 assets := assets p;
                                 generated_at := Some now |}]> active_projects
          | None => active_projects
          end in
        let download_urls :=
          [("html", "/api/projects/" +:+ project_id +:+ "/download/html")] in
        let response_message :=
          "EPK generated successfully (HTML only)" +:+
          (if Py.truthy pdf_note then ". " +:+ default "" pdf_note else "") in
        Return (active_projects,
                {| response_project_id := project_id;
                   response_status := "generated";
                   message := response_message;
                   validation := None;
                   download_urls := Some download_urls |}).

(** The handler around the block: an [HTTPException] is raised again as
    it is, any other exception becomes a 500.  The registry is changed
    only by a block that returns. *)
Definition generate_epk (api : Api) (env : Env) (fs : FS)
  (active_projects : gmap string Project) (now : string)
  (project_id : string) (generate_pdf : bool)
  : gmap string Project * attempt ProjectResponse :=
  match generate_epk_try api env fs active_projects now project_id
          generate_pdf with
  | Return (active_projects, response) => (active_projects, Return response)
  | Raised (HTTPException status_code d) =>
      (active_projects, Raised (HTTPException status_code d))
  | Raised (Exception e) =>
      (active_projects, Raised (HTTPException 500 (Text (exn_str e))))
  end.

(** * Further vocabulary *)

(** The renderer [generate_pdf] chooses, if any. *)
Definition pdf_backend (env : Env) (use_playwright : bool)
  : option (string → result unit) :=
  if use_playwright && PLAYWRIGHT_AVAILABLE env then Some (playwright_pdf env)
  else if WEASYPRINT_AVAILABLE env then Some (weasyprint_pdf env)
  else None.

(** Every error message of the validation, in the order of the rules. *)
Definition all_errors : list string :=
  ((missing_field_error ∘ snd <$> required_fields)
   ++ [poster_required; contact_required])%list.

(** The generator with other awards. *)
Definition with_awards (self : EPKGenerator) (l : list dict) : EPKGenerator :=
  let c := config self in
  {| project_dir := project_dir self;
     config := {| metadata := metadata c; team := team c; awards := l;
                  festivals := festivals c; reviews := reviews c;
                  press_coverage := press_coverage c;
                  distribution := distribution c; technical := technical c;
                  contact := contact c |};
     optimize_images := optimize_images self; _for_pdf := _for_pdf self |}.

(** The endings the pattern of [glob_images] accepts, and some it does
    not. *)
Definition image_suffixes : list string := [".jpg"; ".jng"; ".ppg"; ".png"].
Definition other_suffixes : list string :=
  [".jpeg"; ".JPG"; ".JPEG"; ".PNG"; ".gif"; ".webp"].
Definition ends_with (suffixes : list string) (name : string) : Prop :=
  ∃ stem ext, name = stem +:+ ext ∧ ext ∈ suffixes.

(** A text of white space only. *)
Definition all_space (s : string) : bool := forallb Py.is_space (Py.chars s).

(** One paragraph of [_format_paragraphs]. *)
Definition paragraph (p : string) : string :=
  Py.cat [Py.lit "<p style=`margin-bottom: 20px;`>"; p; "</p>"].

(** The file system with other pictures. *)
Definition with_image_open (fs : FS) (open : Path.t → Image) : FS :=
  {| cwd := cwd fs; exists_ := exists_ fs; is_dir := is_dir fs;
     iterdir := iterdir fs; st_size := st_size fs; image_open := open;
     load_json := load_json fs; memory := memory fs |}.

(** Two machines with the same memory that answer alike for every
    absolute path, whatever their working directories and whatever they
    answer for relative paths: such are a machine seen by two processes
    started in different directories. *)
Definition same_tree (fs fs' : FS) : Prop :=
  memory fs' = memory fs
  ∧ ∀ p, Path.root p ≠ "" →
      exists_ fs' p = exists_ fs p
      ∧ iterdir fs' p = iterdir fs p
      ∧ st_size fs' p = st_size fs p.

(** The uploads that match a member, and the member after the uploads:
    with the last of them as its photo. *)
Definition matching_photos (filenames : list string) (member : dict)
  : list string :=
  List.filter (fun filename => photo_matches filename member) filenames.

Definition associated (filenames : list string) (member : dict) : dict :=
  match last (matching_photos filenames member) with
  | Some filename => <["photo" := crew_photo filename]> member
  | None => member
  end.

(** * Further samples *)

(** The sample file system and the sample project with an integer rating. *)
Definition sample_fs : FS := demo_fs good_poster demo_contact [].

(** The sample tree with five stills only; the second, the third and
    the fifth of them are 640 wide. *)
Definition sparse_fs : FS :=
  {| cwd := cwd sample_fs; exists_ := exists_ sample_fs;
     is_dir := is_dir sample_fs;
     iterdir p :=
       if bool_decide (Path.name p = "stills")
       then take 5 demo_stills else iterdir sample_fs p;
     st_size := st_size sample_fs;
     image_open p :=
       if bool_decide (Path.name p ∈ ["s2.jpg"; "s3.jpg"; "s5.png"])
       then Picture 640 480 else image_open sample_fs p;
     load_json := load_json sample_fs; memory := memory sample_fs |}.

(** A review rated beyond any machine index. *)
Definition huge_review : dict :=
  list_to_map
    [("quote", "Off the scale"); ("source", "The Daily Reel");
     ("rating", "99999999999999999999")].

(** A member whose photo is kept outside the project, the project that
    lists the member, and the sample file system with that photo. *)
Definition outsider : dict :=
  list_to_map
    [("name", "Ada Lime"); ("role", "Editor");
     ("photo", "/srv/shared/ada_lime.jpg")].

Definition outsourced : EPKGenerator :=
  demo_generator "alpha" (demo_config [outsider] [] [] demo_contact).

Definition shared_fs : FS :=
  {| cwd := cwd sample_fs;
     exists_ p :=
       exists_ sample_fs p
       || bool_decide (Path.str p = "/srv/shared/ada_lime.jpg");
     is_dir := is_dir sample_fs; iterdir := iterdir sample_fs;
     st_size := st_size sample_fs; image_open := image_open sample_fs;
     load_json := load_json sample_fs; memory := memory sample_fs |}.

(** The [distribution] object of the template that [get_config_template]
    of [api/main.py] serves, two blank dates and two empty lists, and
    [alpha] with that object for its distribution. *)
Definition template_distribution : Distribution :=
  {| dist_text :=
       list_to_map [("theatrical_release", ""); ("digital_release", "")];
     dist_platforms := Some []; dist_territories := Some [] |}.

Definition templated : EPKGenerator :=
  {| project_dir := project_dir alpha;
     config :=
       {| metadata := demo_metadata; team := [demo_director];
          awards := [demo_award]; festivals := []; reviews := [];
          press_coverage := []; distribution := template_distribution;
          technical := ∅; contact := demo_contact |};
     optimize_images := true; _for_pdf := None |}.

(** [alpha] with four awards. *)
Definition laureate : EPKGenerator :=
  demo_generator "alpha"
    (demo_config [demo_director]
       [demo_award; demo_award; demo_award; demo_award] [] demo_contact).

(** The sample batch mounted under [/srv], as a process started in
    [dir] sees it: a relative path is followed from [dir], an absolute
    one from the root, and what lies under [/srv] is the batch; any
    other path leads nowhere. *)
Definition mounted (dir : list string) (p : Path.t) : option Path.t :=
  match (match Path.root p with
         | "" => (dir ++ Path.parts p)%list
         | _ => Path.parts p
         end) with
  | "srv" :: rest => Some {| Path.root := ""; Path.parts := rest |}
  | _ => None
  end.

Definition hosted_fs (dir : list string) : FS :=
  {| cwd := dir;
     exists_ p := from_option (exists_ sample_fs) false (mounted dir p);
     is_dir p := from_option (is_dir sample_fs) false (mounted dir p);
     iterdir p := from_option (iterdir sample_fs) [] (mounted dir p);
     st_size p := from_option (st_size sample_fs) 0%Z (mounted dir p);
     image_open p :=
       from_option (image_open sample_fs)
         (Unreadable "cannot identify image file") (mounted dir p);
     load_json p :=
       from_option (load_json sample_fs)
         (Raise (ValueError "Expecting value: line 1 column 1 (char 0)"))
         (mounted dir p);
     memory := memory sample_fs |}.

(** [alpha] served from its absolute directory. *)
Definition hosted : EPKGenerator :=
  {| project_dir := Path.of_str "/srv/films/alpha"; config := config alpha;
     optimize_images := true; _for_pdf := None |}.

(** The sample file system with the posters saved under other endings. *)
Definition jpeg_fs : FS :=
  {| cwd := cwd sample_fs; exists_ := exists_ sample_fs;
     is_dir := is_dir sample_fs;
     iterdir p :=
       if bool_decide (Path.name p = "posters")
       then ["poster.jpeg"; "Poster.PNG"] else iterdir sample_fs p;
     st_size := st_size sample_fs; image_open := image_open sample_fs;
     load_json := load_json sample_fs; memory := memory sample_fs |}.

(** No image library; Chromium installed but failing, WeasyPrint working. *)
Definition plain_env : Env :=
  {| PIL_AVAILABLE := false; PLAYWRIGHT_AVAILABLE := false;
     WEASYPRINT_AVAILABLE := false;
     playwright_pdf _ := Ok (); weasyprint_pdf _ := Ok () |}.

Definition chromium_down : Env :=
  {| PIL_AVAILABLE := true; PLAYWRIGHT_AVAILABLE := true;
     WEASYPRINT_AVAILABLE := true;
     playwright_pdf _ := Raise (ValueError "BrowserType.launch: Executable doesn't exist");
     weasyprint_pdf _ := Ok () |}.

(** A team of two, the second without a name. *)
Definition jane : dict := list_to_map [("name", "Jane Doe"); ("role", "Director")].
Definition unnamed : dict := list_to_map [("role", "Producer")].

(** The API over the sample batch. *)
Definition demo_api : Api :=
  {| PROJECTS_DIR := Path.of_str "films";
     http_exception_str status_code d :=
       match d with
       | Text s => Py.str_int status_code +:+ ": " +:+ s
       | ValidationFailed m _ => Py.str_int status_code +:+ ": " +:+ m
       end |}.

(** * Properties *)

Local Arguments String.append : simpl nomatch.

(** ** The primitives on sample inputs *)

Example int_accepts_sign_space_underscore : Py.int " +1_2_3 " = Ok 123%Z.
Proof. reflexivity. Qed.

Example int_refuses_doubled_underscore : is_ok (Py.int "1__0") = false.
Proof. reflexivity. Qed.

Example repeat_negative : Py.repeat 100 2 "ab" (-2) = Ok "".
Proof. reflexivity. Qed.

Example split_on_blank_lines :
  Py.split (Py.nl +:+ Py.nl)
    (Py.lines ["one"; ""; "two"; ""; ""; "three"])
  = ["one"; "two"; Py.nl +:+ "three"].
Proof. reflexivity. Qed.

Example lower_genre : Py.lower "Sci-Fi THRILLER" = "sci-fi thriller".
Proof. reflexivity. Qed.

Example format_mb_ties_to_even :
  Py.format_mb <$> [0; 262144; 786432; 3670016]%Z = ["0.0"; "0.2"; "0.8"; "3.5"].
Proof. reflexivity. Qed.

Example glob_pattern :
  image_name <$> ["a.jpg"; "a.jpeg"; "a.png"; "a.JPG"; ".jpg"; "a.jng"; "jpg"]
  = [true; false; true; false; true; true; false].
Proof. reflexivity. Qed.

Example path_parts :
  Path.str <$> (Path.of_str <$> ["a//b/./c/"; "//a"; "///a"; ""; "../../"])
  = ["a/b/c"; "//a"; "/a"; "."; "../.."].
Proof. reflexivity. Qed.

Example path_join_absolute :
  Path.str (Path.div (Path.of_str "films/alpha") "/etc/passwd") = "/etc/passwd".
Proof. reflexivity. Qed.

Example path_outside_project :
  is_ok (Path.relative_to (Path.of_str "/etc/passwd") (Path.of_str "films/alpha"))
  = false.
Proof. reflexivity. Qed.

Example uri_is_quoted :
  Path.as_uri (Path.resolve ["srv"] (Path.of_str "films/my film/p.jpg"))
  = Ok "file:///srv/films/my%20film/p.jpg".
Proof. reflexivity. Qed.

Example reference_for_html :
  asset_ref (demo_fs good_poster demo_contact []) (set_for_pdf alpha false)
    (Path.div (posters_dir alpha) "poster.jpg")
  = Ok "../../assets/images/posters/poster.jpg".
Proof. reflexivity. Qed.

Example reference_for_pdf :
  asset_ref (demo_fs good_poster demo_contact []) (set_for_pdf alpha true)
    (Path.div (posters_dir alpha) "poster.jpg")
  = Ok "file:///srv/films/alpha/assets/images/posters/poster.jpg".
Proof. reflexivity. Qed.

Example alpha_is_valid :
  validate_assets demo_env (demo_fs good_poster demo_contact []) alpha
  = {| is_valid := true; errors := []; warnings := [] |}.
Proof. reflexivity. Qed.

Example small_poster_is_warned :
  warnings (validate_assets demo_env (demo_fs (Picture 500 500) demo_contact [])
              alpha)
  = ["Poster resolution low (500x500px). Recommended: 2000x3000px"].
Proof. reflexivity. Qed.

Example batch_of_three :
  film_errors <$>
    snd (process_all demo_env (demo_fs good_poster ∅ [half_star_review])
           (BatchProcessor_init "films"))
  = [[]; ["Contact email required"];
     ["invalid literal for int() with base 10: '4.5'"]].
Proof. vm_compute. reflexivity. Qed.

(** ** Strings *)

Section StringFacts.

Lemma str_app_nil_r (s : string) : s +:+ "" = s.
Proof. induction s; simpl; congruence. Qed.

Lemma str_app_assoc (a b c : string) : (a +:+ b) +:+ c = a +:+ b +:+ c.
Proof. induction a; simpl; congruence. Qed.

Lemma prefix_spec (p s : string) :
  String.prefix p s = true ↔ ∃ t, s = p +:+ t.
Proof.
  revert s. induction p as [|c p IH]; intros s.
  - destruct s; simpl; split; eauto.
  - destruct s as [|d s]; simpl.
    + split; [done|]. intros [t Ht]. discriminate.
    + destruct (ascii_dec c d) as [->|Hne].
      * rewrite IH. split; intros [t Ht]; exists t; [by rewrite Ht|].
        by injection Ht.
      * split; [done|]. intros [t Ht]. injection Ht. congruence.
Qed.

Lemma prefix_app (p t : string) : String.prefix p (p +:+ t) = true.
Proof. apply prefix_spec. eauto. Qed.

Lemma contains_spec (k s : string) :
  Py.contains k s = true ↔ is_substring k s.
Proof.
  induction s as [|c s IH].
  - cbn [Py.contains]. rewrite orb_false_r, prefix_spec. split.
    + intros [t Ht]. exists "", t. done.
    + intros ([|??] & post & H); [|discriminate]. eauto.
  - cbn [Py.contains]. rewrite orb_true_iff, IH, prefix_spec. split.
    + intros [[t Ht]|(pre & post & H)].
      * exists "", t. done.
      * exists (String c pre), post. simpl. by rewrite H.
    + intros ([|d pre] & post & H).
      * left. eauto.
      * right. injection H as _ H. by exists pre, post.
Qed.

Lemma map_chars_app (f : ascii → ascii) (a b : string) :
  Py.map_chars f (a +:+ b) = Py.map_chars f a +:+ Py.map_chars f b.
Proof. induction a; simpl; congruence. Qed.

Lemma is_substring_refl (s : string) : is_substring s s.
Proof. exists "", "". by rewrite str_app_nil_r. Qed.

Lemma is_substring_trans (a b c : string) :
  is_substring a b → is_substring b c → is_substring a c.
Proof.
  intros (p & q & ->) (p' & q' & ->).
  exists (p' +:+ p), (q +:+ q'). by rewrite !str_app_assoc.
Qed.

Lemma is_substring_app_l (k a b : string) :
  is_substring k a → is_substring k (a +:+ b).
Proof.
  intros (p & q & ->). exists p, (q +:+ b). by rewrite !str_app_assoc.
Qed.

Lemma is_substring_app_r (k a b : string) :
  is_substring k b → is_substring k (a +:+ b).
Proof.
  intros (p & q & ->). exists (a +:+ p), q. by rewrite !str_app_assoc.
Qed.

Lemma cat_cons (x : string) (l : list string) :
  Py.cat (x :: l) = x +:+ Py.cat l.
Proof.
  unfold Py.cat. destruct l; simpl; [by rewrite str_app_nil_r|done].
Qed.

Lemma cat_app (l k : list string) :
  Py.cat (l ++ k) = Py.cat l +:+ Py.cat k.
Proof.
  induction l as [|x l IH]; [done|].
  change ((x :: l) ++ k)%list with (x :: (l ++ k))%list.
  by rewrite !cat_cons, IH, str_app_assoc.
Qed.

Lemma is_substring_cat (x : string) (l : list string) :
  x ∈ l → is_substring x (Py.cat l).
Proof.
  induction 1 as [x l|x y l _ IH]; rewrite cat_cons.
  - apply is_substring_app_l, is_substring_refl.
  - by apply is_substring_app_r.
Qed.

End StringFacts.

(** ** Validation *)

Section Validation.

Context (env : Env) (fs : FS) (self : EPKGenerator).

Local Abbreviation meta := (metadata (config self)).
Local Abbreviation r := (validate_assets env fs self).

Lemma check_poster_errors :
  fst (check_poster env fs self) = [] ∨
  fst (check_poster env fs self) = [poster_required].
Proof. unfold check_poster. repeat case_match; simpl; auto. Qed.

Lemma check_contact_cases :
  check_contact (config self) = [] ∨
  check_contact (config self) = [contact_required].
Proof. unfold check_contact. case_match; auto. Qed.

Lemma required_field_errors_filter :
  List.filter is_required_field_error (errors r) = check_required meta.
Proof.
  unfold validate_assets. cbn [errors].
  rewrite !List.filter_app.
  destruct check_poster_errors as [-> | ->], check_contact_cases as [-> | ->];
    cbn [List.filter];
    replace (is_required_field_error poster_required) with false by reflexivity;
    replace (is_required_field_error contact_required) with false by reflexivity;
    rewrite ?List.app_nil_r.
  all: unfold check_required; cbn; repeat case_match; reflexivity.
Qed.

Lemma required_field_errors_count (field label : string) :
  (field, label) ∈ required_fields →
  count_occ string_dec (errors r) (missing_field_error label)
  = if Py.truthy (meta !! field) then 0 else 1.
Proof.
  intros Hin. unfold validate_assets. cbn [errors].
  rewrite !count_occ_app.
  unfold required_fields in Hin. set_unfold in Hin.
  assert (count_occ string_dec (fst (check_poster env fs self))
            (missing_field_error label) = 0) as ->.
  { destruct check_poster_errors as [-> | ->]; [done|].
    destruct_or!; simplify_eq; reflexivity. }
  assert (count_occ string_dec (check_contact (config self))
            (missing_field_error label) = 0) as ->.
  { destruct check_contact_cases as [-> | ->]; [done|].
    destruct_or!; simplify_eq; reflexivity. }
  rewrite !Nat.add_0_r.
  unfold check_required, required_fields. cbn [mbind list_bind app].
  destruct_or!; simplify_eq; repeat case_match; vm_compute; reflexivity.
Qed.

Lemma is_valid_no_errors : is_valid r = bool_decide (errors r = []).
Proof.
  unfold validate_assets. cbn [is_valid errors].
  apply bool_decide_ext. split; [apply nil_length_inv|by intros ->].
Qed.

(** C2: for a configuration whose metadata lacks any of the fields
    title, logline, synopsis, genre and runtime (the field is absent or
    empty, which is what [validate_assets] tests), the result carries
    exactly one error for each field that is missing and none for a
    field that is present; the errors about required fields are those
    of the missing fields, in the order of the table; and the result is
    not valid as soon as one field is missing. *)
Theorem required_fields_one_error_each :
  (∀ field label, (field, label) ∈ required_fields →
     count_occ string_dec (errors r) (missing_field_error label)
     = if Py.truthy (meta !! field) then 0 else 1)
  ∧ (∀ field, meta !! field = None → Py.truthy (meta !! field) = false)
  ∧ List.filter is_required_field_error (errors r)
    = (missing_field_error ∘ snd) <$>
      List.filter (fun fl => negb (Py.truthy (meta !! fl.1))) required_fields
  ∧ ((∃ field label, (field, label) ∈ required_fields
                     ∧ Py.truthy (meta !! field) = false)
     → is_valid r = false).
Proof.
  split; [exact required_field_errors_count|].
  split; [by intros field ->|].
  split.
  - rewrite required_field_errors_filter.
    unfold check_required, required_fields. cbn.
    repeat match goal with
           | |- context [Py.truthy ?o] => destruct (Py.truthy o)
           end; reflexivity.
  - intros (field & label & Hin & Hmiss).
    rewrite is_valid_no_errors. apply bool_decide_eq_false. intros Hnil.
    pose proof (required_field_errors_count field label Hin) as Hc.
    rewrite Hmiss, Hnil in Hc. discriminate.
Qed.

(** *** Stills *)

Lemma sample_stills_find (stills : list Path.t) :
  sample_stills fs stills =
    match List.find (still_is_low fs) stills with
    | Some still => [still_low_warning still]
    | None => []
    end.
Proof.
  induction stills as [|s l IH]; [done|].
  cbn [sample_stills List.find]. unfold still_is_low at 1.
  destruct (image_open fs s); [|done].
  case_bool_decide; done.
Qed.

Lemma poster_warnings_not_still :
  List.filter is_still_warning (snd (check_poster env fs self)) = [].
Proof. unfold check_poster. repeat case_match; reflexivity. Qed.

Lemma synopsis_warnings_not_still :
  List.filter is_still_warning (check_synopsis meta) = [].
Proof. unfold check_synopsis. case_match; reflexivity. Qed.

Lemma still_warnings_filter :
  exists_ fs (stills_dir self) = true →
  List.filter is_still_warning (warnings r) =
    if PIL_AVAILABLE env then
      match List.find (still_is_low fs)
              (take 3 (glob_images fs (stills_dir self))) with
      | Some still => [still_low_warning still]
      | None => []
      end
    else [].
Proof.
  intros Hex. unfold validate_assets. cbn [warnings].
  rewrite !List.filter_app, poster_warnings_not_still,
    synopsis_warnings_not_still, List.app_nil_r. cbn [app].
  unfold check_stills. rewrite Hex, List.filter_app.
  assert (∀ n b, List.filter is_still_warning
            (if b : bool then [few_stills_warning n] else []) = []) as Hfew.
  { intros n []; reflexivity. }
  rewrite Hfew. cbn [app].
  destruct (PIL_AVAILABLE env); [|done]. cbn [andb].
  case_bool_decide as Hnil; cbn [negb].
  - by rewrite Hnil.
  - rewrite sample_stills_find. case_match; [|done].
    cbn [List.filter]. unfold is_still_warning, still_low_warning.
    by rewrite prefix_app.
Qed.

(** C6: when the stills directory exists, fewer than eight stills give
    the warning that counts them; the warnings about a still of low
    resolution are decided by the first three stills alone, there is at
    most one of them, and it names the first of the three that is less
    than 1280 wide. *)
Theorem stills_rule :
  exists_ fs (stills_dir self) = true →
  let stills := glob_images fs (stills_dir self) in
  (length stills < 8 → few_stills_warning (length stills) ∈ warnings r)
  ∧ (length (List.filter is_still_warning (warnings r)) ≤ 1)%nat
  ∧ List.filter is_still_warning (warnings r) =
      (if PIL_AVAILABLE env then
         match List.find (still_is_low fs) (take 3 stills) with
         | Some still => [still_low_warning still]
         | None => []
         end
       else []).
Proof.
  intros Hex stills. split; [|split].
  - intros Hfew. unfold validate_assets. cbn [warnings].
    unfold check_stills. rewrite Hex. fold stills.
    rewrite bool_decide_eq_true_2 by done. set_solver.
  - rewrite still_warnings_filter by done.
    repeat case_match; simpl; lia.
  - by apply still_warnings_filter.
Qed.

(** *** A complete project *)

Lemma find_low_none (stills : list Path.t) :
  forallb (still_is_sized fs) stills = true →
  List.find (still_is_low fs) stills = None.
Proof.
  induction stills as [|s l IH]; [done|].
  cbn [forallb List.find]. intros [Hs Hl]%andb_prop.
  rewrite IH by done.
  unfold still_is_sized in Hs. unfold still_is_low.
  destruct (image_open fs s); [|done].
  apply bool_decide_eq_true in Hs. by rewrite bool_decide_eq_false_2 by lia.
Qed.

Lemma forallb_take {A} (f : A → bool) (n : nat) (l : list A) :
  forallb f l = true → forallb f (take n l) = true.
Proof.
  revert n. induction l as [|a l IH]; intros [|n]; try done.
  cbn [take forallb]. intros [-> ?]%andb_prop. by apply IH.
Qed.

(** C3, amended: a complete project is valid and has no error, and it
    has a warning only if its synopsis is shorter than 200 characters or
    its first poster, the image library being there, is smaller than
    1000 by 1500 or cannot be read. *)
Theorem complete_project_is_valid :
  complete_project fs self = true →
  is_valid r = true ∧ errors r = [] ∧
  (warnings r ≠ [] →
   (Py.len (Py.get meta "synopsis" "") < 200)%Z
   ∨ (PIL_AVAILABLE env = true ∧ poster_is_poor fs self = true)).
Proof.
  unfold complete_project. rewrite !andb_true_iff.
  intros ((((((Hreq & Hpd) & Hposter) & Hsd) & Hcount) & Hsized) & Hmail).
  apply negb_true_iff in Hposter.
  apply bool_decide_eq_true in Hcount.
  assert (errors r = []) as Herr.
  { unfold validate_assets. cbn [errors].
    unfold check_poster, check_contact. rewrite Hpd, Hposter, Hmail.
    cbn [negb orb]. rewrite !List.app_nil_r.
    unfold required_fields in Hreq. cbn [forallb fst] in Hreq.
    rewrite !andb_true_iff in Hreq.
    destruct Hreq as (H1 & H2 & H3 & H4 & H5 & _).
    unfold check_required, required_fields. cbn [mbind list_bind app].
    rewrite H1, H2, H3, H4, H5. repeat case_match; reflexivity. }
  split; [by rewrite is_valid_no_errors, Herr|]. split; [done|].
  intros Hwarn.
  destruct (decide (Py.len (Py.get meta "synopsis" "") < 200)%Z)
    as [|Hlong]; [by left|right].
  unfold validate_assets in Hwarn. cbn [warnings] in Hwarn.
  assert (check_stills env fs self = []) as Hstills.
  { unfold check_stills. rewrite Hsd.
    rewrite bool_decide_eq_false_2 by lia.
    rewrite sample_stills_find, find_low_none by by apply forallb_take.
    by destruct (_ && _). }
  assert (check_synopsis (metadata (config self)) = []) as Hsyn.
  { unfold check_synopsis. rewrite (bool_decide_eq_false_2 _ Hlong).
    by rewrite andb_false_r. }
  rewrite Hstills, Hsyn in Hwarn. cbn [app] in Hwarn.
  rewrite List.app_nil_r in Hwarn.
  unfold check_poster in Hwarn. rewrite Hpd, Hposter in Hwarn.
  cbn [negb orb] in Hwarn. unfold poster_is_poor.
  destruct (PIL_AVAILABLE env); [|done]. split; [done|].
  destruct (glob_images fs (posters_dir self)) as [|poster ?]; [done|].
  destruct (image_open fs poster); [|done].
  by case_bool_decide.
Qed.

End Validation.

(** A configuration without title and runtime: two errors, not valid. *)
Lemma required_fields_one_error_each_witness :
  is_valid
    (validate_assets demo_env (demo_fs good_poster demo_contact [])
       (demo_generator "alpha"
          {| metadata := delete "title" (delete "runtime" demo_metadata);
             team := []; awards := []; festivals := []; reviews := [];
             press_coverage := []; distribution := distribution empty_config;
             technical := ∅; contact := demo_contact |})) = false.
Proof.
  apply required_fields_one_error_each.
  exists "runtime", "Runtime". split; [|reflexivity].
  unfold required_fields. set_solver.
Defined.

(** The project [alpha] with five stills, of which the second, the
    third and the fifth are 640 wide: the warning that counts the stills,
    and one warning about a still, which names the second. *)
Lemma stills_rule_witness :
  let r := validate_assets demo_env sparse_fs alpha in
  "Only 5 stills found. Recommended: 8-12" ∈ warnings r
  ∧ (length (List.filter is_still_warning (warnings r)) ≤ 1)%nat
  ∧ List.filter is_still_warning (warnings r)
    = ["Still 's2.jpg' resolution low. Recommended: 1920x1080px"].
Proof.
  destruct (stills_rule demo_env sparse_fs alpha eq_refl)
    as (Hfew & Hone & Hlow).
  split; [|split].
  - apply Hfew. vm_compute. lia.
  - exact Hone.
  - exact Hlow.
Defined.

(** The sample project [alpha] is complete and valid. *)
Lemma complete_project_is_valid_witness :
  is_valid (validate_assets demo_env (demo_fs good_poster demo_contact [])
              alpha) = true.
Proof.
  apply (complete_project_is_valid demo_env
           (demo_fs good_poster demo_contact []) alpha).
  reflexivity.
Defined.

(** C3, as stated, fails: a complete project with a long synopsis whose
    poster is 500 by 500 gets the warning about the poster. *)
Lemma complete_project_poster_warning : ¬ warnings_only_for_short_synopsis.
Proof.
  intros H.
  destruct (H demo_env (demo_fs (Picture 500 500) demo_contact []) alpha)
    as (_ & _ & Hw); [reflexivity|].
  vm_compute in Hw.
  assert (Gt = Lt) as Habs by (apply Hw; discriminate).
  discriminate Habs.
Qed.

(** ** Theme selection *)

Section Theme.

Lemma first_match_some (table : list (string * Colors)) (genre : string)
  (colors : Colors) :
  first_match table genre = Some colors →
  ∃ i key, table !! i = Some (key, colors) ∧ is_substring key genre
           ∧ ∀ j key' colors', j < i → table !! j = Some (key', colors') →
               ¬ is_substring key' genre.
Proof.
  induction table as [|[k c] table IH]; [done|].
  cbn [first_match]. destruct (Py.contains k genre) eqn:Hk.
  - intros [= ->]. exists 0, k. split; [done|].
    split; [by apply contains_spec|]. intros; lia.
  - intros (i & key & Hi & Hsub & Hmin)%IH.
    exists (S i), key. split; [done|]. split; [done|].
    intros [|j] key' colors' Hj Hlook.
    + injection Hlook as <- <-. rewrite <- contains_spec. congruence.
    + apply (Hmin j key' colors'); [lia|done].
Qed.

Lemma first_match_none (table : list (string * Colors)) (genre : string) :
  first_match table genre = None →
  ∀ key colors, (key, colors) ∈ table → ¬ is_substring key genre.
Proof.
  induction table as [|[k c] table IH]; [set_solver|].
  cbn [first_match]. destruct (Py.contains k genre) eqn:Hk; [done|].
  intros Hnone key colors [[= -> ->]|Hin]%elem_of_cons.
  - rewrite <- contains_spec. congruence.
  - by apply (IH Hnone key colors).
Qed.

Lemma lower_substring (word genre : string) :
  is_substring word genre → is_substring (Py.lower word) (Py.lower genre).
Proof.
  intros (pre & post & ->). exists (Py.lower pre), (Py.lower post).
  unfold Py.lower. by rewrite !map_chars_app.
Qed.

Context (self : EPKGenerator).

Local Abbreviation genre := (Py.get (metadata (config self)) "genre" "").

(** C5: the theme is found by looking for the keys of the colour table
    in the genre put in lower case; the first entry of the table whose
    key occurs there gives the colours, and the default colours are
    used when no key occurs; a genre with the word horror in it,
    whatever the case of its letters, gets the colours of horror. *)
Theorem theme_first_match :
  (∀ i key colors,
     GENRE_COLORS !! i = Some (key, colors) →
     is_substring key (Py.lower genre) →
     (∀ j key' colors', j < i → GENRE_COLORS !! j = Some (key', colors') →
        ¬ is_substring key' (Py.lower genre)) →
     theme self = colors)
  ∧ ((∀ key colors, (key, colors) ∈ GENRE_COLORS →
        ¬ is_substring key (Py.lower genre)) →
     theme self = DEFAULT_COLORS)
  ∧ (∀ word, Py.lower word = "horror" → is_substring word genre →
     theme self = {| primary := "#8B0000"; secondary := "#2C2C2C";
                     accent := "#FF4444" |}).
Proof.
  unfold theme, _get_colors_for_genre.
  split; [|split].
  - intros i key colors Hi Hsub Hmin.
    destruct (first_match GENRE_COLORS (Py.lower genre)) as [c|] eqn:Hfm.
    + apply first_match_some in Hfm as (i' & key' & Hi' & Hsub' & Hmin').
      destruct (Nat.lt_trichotomy i i') as [Hlt|[->|Hgt]].
      * destruct (Hmin' i key colors Hlt Hi Hsub).
      * cbn. congruence.
      * destruct (Hmin i' key' c Hgt Hi' Hsub').
    + destruct (first_match_none _ _ Hfm key colors); [|done].
      by apply list_elem_of_lookup_2 with i.
  - intros Hnone.
    destruct (first_match GENRE_COLORS (Py.lower genre)) as [c|] eqn:Hfm;
      [|done].
    apply first_match_some in Hfm as (i & key & Hi & Hsub & _).
    destruct (Hnone key c); [|done]. by apply list_elem_of_lookup_2 with i.
  - intros word Hword Hsub%lower_substring. rewrite Hword in Hsub.
    apply contains_spec in Hsub.
    unfold GENRE_COLORS. cbn [first_match]. by rewrite Hsub.
Qed.

End Theme.

(** The genre Sci-Fi Thriller gets the colours of sci-fi, the second
    entry of the table, though thriller occurs in it too. *)
Lemma theme_first_match_witness :
  theme alpha = {| primary := "#1E3A8A"; secondary := "#0F172A";
                   accent := "#60A5FA" |}.
Proof.
  apply (proj1 (theme_first_match alpha) 1 "sci-fi").
  - reflexivity.
  - apply contains_spec. reflexivity.
  - intros [|j] key' colors' Hj Hlook; [|lia].
    injection Hlook as <- <-. rewrite <- contains_spec. by vm_compute.
Defined.

(** ** Rendering *)

Section Monad.
Context {A B : Type}.

Lemma mapM_cons (f : A → result B) (a : A) (l : list A) :
  mapM f (a :: l) = b ← f a; bs ← mapM f l; Ok (b :: bs).
Proof. reflexivity. Qed.

Lemma mapM_raises (f : A → result B) (l : list A) (a : A) :
  a ∈ l → raises (f a) → raises (mapM f l).
Proof.
  intros Hin [e He]. induction Hin as [a l|a a' l _ IH]; rewrite mapM_cons.
  - rewrite He. by exists e.
  - destruct (f a') as [b|e']; [|by exists e'].
    destruct (IH He) as [e2 He2]. rewrite He2. by exists e2.
Qed.

Lemma mapM_ok (f : A → result B) (l : list A) (bs : list B) :
  mapM f l = Ok bs → Forall2 (fun a b => f a = Ok b) l bs.
Proof.
  revert bs. induction l as [|a l IH]; intros bs.
  - intros [= <-]. constructor.
  - rewrite mapM_cons. destruct (f a) as [b|] eqn:Hb; [|done].
    cbn. destruct (mapM f l) as [bs'|]; [|done].
    intros [= <-]. constructor; auto.
Qed.

Lemma mapM_bind_ok {C} (f : A → result B) (g : A → B → C) (l : list A)
  (cs : list C) :
  mapM (fun a => b ← f a; Ok (g a b)) l = Ok cs →
  ∃ bs, mapM f l = Ok bs ∧ cs = zip_with g l bs.
Proof.
  revert cs. induction l as [|a l IH]; intros cs.
  - intros [= <-]. by exists [].
  - cbn [mapM]. destruct (f a) as [b|]; cbn; [|done].
    destruct (mapM (fun a => b ← f a; Ok (g a b)) l) as [cs'|]; cbn; [|done].
    destruct (IH cs' eq_refl) as (bs & -> & ->).
    intros [= <-]. by exists (b :: bs).
Qed.
End Monad.

Lemma not_ok_raises {A} (x : result A) : is_ok x = false → raises x.
Proof. destruct x as [|e]; [done|]. by exists e. Qed.

Lemma is_substring_join (sep x : string) (l : list string) :
  x ∈ l → is_substring x (Py.join sep l).
Proof.
  unfold Py.join.
  induction 1 as [x l|x y l Hin IH].
  - destruct l; cbn [String.concat]; [apply is_substring_refl|].
    apply is_substring_app_l, is_substring_refl.
  - destruct l as [|z l]; [by apply elem_of_nil in Hin|].
    cbn [String.concat]. by do 2 apply is_substring_app_r.
Qed.

Section Document.
Context (fs : FS) (self : EPKGenerator).

(** The document is there exactly when the five sections that can raise
    are there, and it is made of the eleven sections in their order. *)
Lemma render_html_ok (html : string) :
  render_html fs self = Ok html ↔
  ∃ cover reviews team gallery downloads,
    _generate_cover fs self = Ok cover
    ∧ _generate_reviews fs self = Ok reviews
    ∧ _generate_team fs self = Ok team
    ∧ _generate_gallery fs self = Ok gallery
    ∧ _generate_downloads fs self = Ok downloads
    ∧ html = document self
        [cover; _generate_synopsis self; reviews; _generate_festivals self;
         _generate_press self; team; _generate_distribution self;
         _generate_technical self; gallery; downloads; _generate_contact self].
Proof.
  unfold render_html, sections.
  destruct (_generate_cover fs self) as [cover|];
    destruct (_generate_reviews fs self) as [reviews|];
    destruct (_generate_team fs self) as [team|];
    destruct (_generate_gallery fs self) as [gallery|];
    destruct (_generate_downloads fs self) as [downloads|];
    cbn [mapM mbind result_bind mret result_ret id];
    try (split; [done|]; intros (?&?&?&?&?&?&?&?&?&?&?); discriminate).
  split.
  - intros [= <-]. by exists cover, reviews, team, gallery, downloads.
  - intros (?&?&?&?&?&?&?&?&?&?&->). by simplify_eq.
Qed.
End Document.

Section AssetRef.
Context (fs : FS) (self : EPKGenerator).

Lemma quote_slash (s : string) : Py.quote ("/" +:+ s) = "/" +:+ Py.quote s.
Proof. unfold Py.quote. simpl. by rewrite cat_cons. Qed.

Lemma asset_ref_pdf (p : Path.t) (r : string) :
  for_pdf self = true → asset_ref fs self p = Ok r →
  ∃ t, r = "file:///" +:+ t.
Proof.
  unfold asset_ref. intros -> [= <-].
  unfold Path.str, Path.resolve. cbn [Path.root Path.parts].
  rewrite quote_slash. by eexists.
Qed.

Lemma asset_ref_html (p : Path.t) (r : string) :
  for_pdf self = false → asset_ref fs self p = Ok r →
  ∃ t, r = "../.." +:+ t.
Proof.
  unfold asset_ref. intros ->.
  unfold Path.relative_to. case_match; [|done].
  intros [= <-]. unfold Path.join. cbn [Path.root Path.parts].
  change (Path.of_str "../../") with {| Path.root := ""; Path.parts := [".."; ".."] |}.
  cbn [Path.root Path.parts app]. unfold Path.str. cbn [Path.root Path.parts].
  unfold Py.join. destruct l as [|x l]; simpl; by eexists.
Qed.

Lemma asset_ref_mode (p : Path.t) (r : string) :
  asset_ref fs self p = Ok r →
  if for_pdf self
  then is_file_uri r = true ∧ is_relative_path r = false
  else is_relative_path r = true ∧ is_file_uri r = false.
Proof.
  intros Hr. destruct (for_pdf self) eqn:Hmode.
  - destruct (asset_ref_pdf p r Hmode Hr) as [t ->].
    split; [apply prefix_app|reflexivity].
  - destruct (asset_ref_html p r Hmode Hr) as [t ->]. split; reflexivity.
Qed.
End AssetRef.

Ltac elem_at n :=
  match n with
  | O => apply list_elem_of_here
  | S ?k => apply list_elem_of_further; elem_at k
  end.

Section References.
Context (fs : FS) (self : EPKGenerator).

Local Abbreviation follows_mode := (emitted_reference fs self).

Lemma cover_reference (cover : string) :
  _generate_cover fs self = Ok cover →
  ∃ poster, cover_poster_path fs self = Ok poster
            ∧ Forall (follows_mode cover) (option_list poster).
Proof.
  unfold _generate_cover.
  destruct (cover_poster_path fs self) as [poster|] eqn:Hposter; [|done].
  cbn [mbind result_bind]. intros [= <-]. exists poster. split; [done|].
  destruct poster as [r|]; [|constructor].
  apply Forall_singleton. split.
  - unfold cover_html.
    eapply is_substring_trans; [|apply is_substring_cat; elem_at 1].
    apply is_substring_cat. elem_at 1.
  - unfold cover_poster_path in Hposter.
    destruct (exists_ fs (posters_dir self)); [|done].
    destruct (glob_images fs (posters_dir self)) as [|p ?]; [done|].
    destruct (asset_ref fs self p) eqn:Hp; [|done].
    injection Hposter as <-. by exists p.
Qed.

Lemma follows_mode_weaken (part html r : string) :
  is_substring part html → follows_mode part r → follows_mode html r.
Proof. intros Hsub [Hr Hp]. split; [by eapply is_substring_trans|done]. Qed.

Lemma team_references (html : string) :
  _generate_team fs self = Ok html →
  ∃ photos, mapM (team_photo_path fs self) (team (config self)) = Ok photos
            ∧ Forall (follows_mode html) (omap id photos).
Proof.
  unfold _generate_team. case_bool_decide as Hteam.
  - intros _. rewrite Hteam. exists []. split; [done|constructor].
  - destruct (mapM _ (team (config self))) as [members|] eqn:Hm; [|done].
    cbn [mbind result_bind]. intros [= <-].
    apply mapM_bind_ok in Hm as (photos & Hphotos & ->).
    exists photos. split; [done|].
    apply Forall_forall. intros r (photo & Hin & Hsome)%list_elem_of_omap.
    cbn in Hsome. subst photo.
    apply list_elem_of_lookup_1 in Hin as [i Hi].
    pose proof (mapM_ok _ _ _ Hphotos) as Hall.
    destruct (Forall2_lookup_r _ _ _ _ _ Hall Hi) as (member & Hmember & Hpath).
    split.
    + unfold team_html.
      eapply is_substring_trans; [|apply is_substring_cat; elem_at 1].
      eapply is_substring_trans;
        [|apply is_substring_cat, list_elem_of_lookup_2 with i;
          rewrite lookup_zip_with, Hmember, Hi; reflexivity].
      unfold team_member_html.
      eapply is_substring_trans; [|apply is_substring_cat; elem_at 1].
      apply is_substring_cat. elem_at 1.
    + unfold team_photo_path in Hpath.
      destruct (Py.truthy (member !! "photo")); [|done].
      destruct (exists_ fs _); [|done].
      destruct (asset_ref fs self _) eqn:Hp; [|done].
      injection Hpath as <-. by eexists.
Qed.

Lemma mapM_asset_ref (files : list Path.t) (paths : list string) :
  mapM (asset_ref fs self) files = Ok paths →
  Forall (fun r => ∃ p, asset_ref fs self p = Ok r) paths.
Proof.
  intros Hall%mapM_ok. apply Forall_forall. intros r Hr.
  apply list_elem_of_lookup_1 in Hr as [i Hi].
  destruct (Forall2_lookup_r _ _ _ _ _ Hall Hi) as (p & _ & Hp). by exists p.
Qed.

Lemma gallery_references (html : string) :
  _generate_gallery fs self = Ok html →
  ∃ paths, gallery_paths fs self = Ok paths
           ∧ Forall (follows_mode html) paths.
Proof.
  unfold _generate_gallery, gallery_paths.
  destruct (exists_ fs (stills_dir self)); cbn [negb];
    [|intros _; exists []; split; [done|constructor]].
  case_bool_decide as Hnone.
  - intros _. rewrite Hnone. exists []. split; [done|constructor].
  - destruct (mapM _ (gallery_stills fs self)) as [paths|] eqn:Hpaths; [|done].
    cbn [mbind result_bind]. intros [= <-]. exists paths. split; [done|].
    pose proof (mapM_asset_ref _ _ Hpaths) as Hall.
    apply Forall_forall. intros r Hr. split.
    + unfold gallery_html.
      eapply is_substring_trans; [|apply is_substring_cat; elem_at 1].
      eapply is_substring_trans;
        [|apply is_substring_cat, list_elem_of_fmap_2, Hr].
      unfold still_img. apply is_substring_cat. elem_at 1.
    + by apply (proj1 (Forall_forall _ _) Hall).
Qed.

Lemma downloads_references (html : string) :
  _generate_downloads fs self = Ok html →
  ∃ paths, download_paths fs self = Ok paths
           ∧ Forall (follows_mode html) paths.
Proof.
  unfold _generate_downloads, download_paths.
  destruct (exists_ fs (downloads_dir self)); cbn [negb];
    [|intros _; exists []; split; [done|constructor]].
  case_bool_decide as Hnone.
  - intros _. rewrite Hnone. exists []. split; [done|constructor].
  - destruct (mapM _ (download_files fs self)) as [paths|] eqn:Hpaths; [|done].
    cbn [mbind result_bind]. intros [= <-]. exists paths. split; [done|].
    pose proof (mapM_asset_ref _ _ Hpaths) as Hall.
    pose proof (mapM_ok _ _ _ Hpaths) as Hfiles.
    apply Forall_forall. intros r Hr. split.
    + apply list_elem_of_lookup_1 in Hr as [i Hi].
      destruct (Forall2_lookup_r _ _ _ _ _ Hfiles Hi) as (file & Hfile & _).
      unfold downloads_html.
      eapply is_substring_trans; [|apply is_substring_cat; elem_at 1].
      eapply is_substring_trans;
        [|apply is_substring_cat, list_elem_of_lookup_2 with i;
          rewrite lookup_zip_with, Hfile, Hi; reflexivity].
      unfold download_item. apply is_substring_cat. elem_at 1.
    + by apply (proj1 (Forall_forall _ _) Hall).
Qed.

Lemma section_in_document (part : string) (parts : list string) :
  part ∈ parts → is_substring part (document self parts).
Proof.
  intros Hin. unfold document.
  eapply is_substring_trans; [|apply is_substring_cat; elem_at 1].
  by apply is_substring_join.
Qed.

Lemma document_references (html : string) :
  render_html fs self = Ok html →
  ∃ refs, asset_refs fs self = Ok refs ∧ Forall (follows_mode html) refs.
Proof.
  intros (cover & reviews & team & gallery & downloads & Hcover & _ & Hteam
          & Hgallery & Hdownloads & ->)%render_html_ok.
  apply cover_reference in Hcover as (poster & Hposter & Hrefs1).
  apply team_references in Hteam as (photos & Hphotos & Hrefs2).
  apply gallery_references in Hgallery as (stills & Hstills & Hrefs3).
  apply downloads_references in Hdownloads as (files & Hfiles & Hrefs4).
  exists (option_list poster ++ omap id photos ++ stills ++ files)%list.
  split.
  - unfold asset_refs. rewrite Hposter, Hphotos, Hstills, Hfiles. reflexivity.
  - repeat apply Forall_app_2;
      (eapply Forall_impl; [eassumption|]); intros r;
      apply follows_mode_weaken, section_in_document.
    + elem_at 0.
    + elem_at 5.
    + elem_at 8.
    + elem_at 9.
Qed.
End References.

(** C1: when [generate_html] returns, every asset reference of the
    document (the poster, the team photos, the stills and the files to
    download) occurs in the text written and follows the mode: for PDF it
    is an absolute file URI and not a relative path, for HTML it is a
    relative path and not a file URI. *)
Theorem asset_references_follow_mode (fs : FS) (self self' : EPKGenerator)
  (name : string) (pdf : bool) (path : Path.t) (html : string) :
  generate_html fs self name pdf = Ok (self', path, html) →
  ∃ refs, asset_refs fs self' = Ok refs ∧
    Forall (fun r =>
      is_substring r html ∧
      if pdf then is_file_uri r = true ∧ is_relative_path r = false
      else is_relative_path r = true ∧ is_file_uri r = false) refs.
Proof.
  unfold generate_html.
  destruct (render_html fs (set_for_pdf self pdf)) as [text|] eqn:Htext;
    [|done].
  cbn [mbind result_bind]. intros [= <- _ <-].
  apply document_references in Htext as (refs & Hrefs & Hall).
  exists refs. split; [done|].
  eapply Forall_impl; [exact Hall|].
  intros r [Hsub [p Hp]]. split; [done|].
  by apply asset_ref_mode in Hp.
Qed.

(** The references of the sample project [alpha], rendered for PDF. *)
Lemma asset_references_follow_mode_witness :
  ∃ self' path html,
    generate_html (demo_fs good_poster demo_contact []) alpha
      "temp_for_pdf.html" true = Ok (self', path, html) ∧
    ∃ refs, asset_refs (demo_fs good_poster demo_contact []) self' = Ok refs ∧
      Forall (fun r => is_substring r html ∧
                       is_file_uri r = true ∧ is_relative_path r = false) refs.
Proof.
  destruct (generate_html (demo_fs good_poster demo_contact []) alpha
              "temp_for_pdf.html" true) as [[[self' path] html]|] eqn:Hgen;
    [|by vm_compute in Hgen].
  exists self', path, html. split; [done|].
  exact (asset_references_follow_mode _ _ _ _ _ _ _ Hgen).
Defined.

Lemma app_not_empty (a b : string) : a ≠ "" → a +:+ b ≠ "".
Proof. by destruct a. Qed.

Ltac closed_not_empty :=
  let H := fresh in
  intros H; vm_compute in H; discriminate H.

Ltac cat_not_empty :=
  rewrite cat_cons; apply app_not_empty; closed_not_empty.

Section Emptiness.
Context (fs : FS) (self : EPKGenerator).

Lemma reviews_empty_iff (html : string) :
  _generate_reviews fs self = Ok html →
  (html = "" ↔ reviews (config self) = []).
Proof.
  unfold _generate_reviews. case_bool_decide as Hnil; [by intros [= <-]|].
  destruct (mapM (review_card fs) _); [|done]. cbn [mbind result_bind].
  intros [= <-]. split; [|done]. intros Hempty. exfalso. revert Hempty.
  cat_not_empty.
Qed.

Lemma team_empty_iff (html : string) :
  _generate_team fs self = Ok html → (html = "" ↔ team (config self) = []).
Proof.
  unfold _generate_team. case_bool_decide as Hnil; [by intros [= <-]|].
  destruct (mapM _ _); [|done]. cbn [mbind result_bind].
  intros [= <-]. split; [|done]. intros Hempty. exfalso. revert Hempty.
  unfold team_html. cat_not_empty.
Qed.

Lemma festivals_empty_iff :
  _generate_festivals self = ""
  ↔ festivals (config self) = [] ∧ awards (config self) = [].
Proof.
  unfold _generate_festivals.
  do 2 case_bool_decide; cbn [andb]; try (split; [|tauto]); try done.
  all: assert (festivals_content self ≠ "") as Hcontent
    by (unfold festivals_content;
        repeat case_bool_decide; try done;
        try (apply app_not_empty); try cat_not_empty;
        cbn [String.append]; cat_not_empty).
  all: destruct (String.eqb_spec (festivals_content self) ""); [done|].
  all: intros Hempty; exfalso; revert Hempty; cat_not_empty.
Qed.

Lemma press_empty_iff :
  _generate_press self = "" ↔ press_coverage (config self) = [].
Proof.
  unfold _generate_press. case_bool_decide; [done|].
  split; [|done]. intros Hempty. exfalso. revert Hempty. cat_not_empty.
Qed.

Lemma distribution_empty_iff :
  _generate_distribution self = ""
  ↔ distribution (config self) = distribution empty_config.
Proof.
  unfold _generate_distribution, dist_is_empty.
  case_bool_decide as Hd.
  - split; [|done]. intros _. destruct (distribution (config self)).
    cbn in Hd. destruct Hd as (-> & -> & ->). done.
  - split.
    + intros Hempty. exfalso. revert Hempty. cat_not_empty.
    + intros Heq. destruct Hd. by rewrite Heq.
Qed.

Lemma gallery_empty_iff (html : string) :
  _generate_gallery fs self = Ok html →
  (html = "" ↔ exists_ fs (stills_dir self) = false
              ∨ glob_images fs (stills_dir self) = []).
Proof.
  unfold _generate_gallery.
  destruct (exists_ fs (stills_dir self)); cbn [negb];
    [|intros [= <-]; tauto].
  assert (gallery_stills fs self = [] ↔ glob_images fs (stills_dir self) = [])
    as Hshown.
  { unfold gallery_stills. rewrite <- !length_zero_iff_nil, length_take.
    rewrite (merge_sort_Permutation path_le). lia. }
  case_bool_decide as Hnil.
  - intros [= <-]. rewrite <- Hshown. tauto.
  - destruct (gallery_paths fs self); [|done]. cbn [mbind result_bind].
    intros [= <-]. rewrite <- Hshown. split; [|intros [|]; done].
    intros Hempty. exfalso. revert Hempty. unfold gallery_html. cat_not_empty.
Qed.

Lemma downloads_empty_iff (html : string) :
  _generate_downloads fs self = Ok html →
  (html = "" ↔ exists_ fs (downloads_dir self) = false
              ∨ iterdir fs (downloads_dir self) = []).
Proof.
  unfold _generate_downloads.
  destruct (exists_ fs (downloads_dir self)); cbn [negb];
    [|intros [= <-]; tauto].
  assert (download_files fs self = [] ↔ iterdir fs (downloads_dir self) = [])
    as Hfiles.
  { unfold download_files, glob_all. split; [apply fmap_nil_inv|by intros ->]. }
  case_bool_decide as Hnil.
  - intros [= <-]. rewrite <- Hfiles. tauto.
  - destruct (download_paths fs self); [|done]. cbn [mbind result_bind].
    intros [= <-]. rewrite <- Hfiles. split; [|intros [|]; done].
    intros Hempty. exfalso. revert Hempty. unfold downloads_html.
    cat_not_empty.
Qed.

Lemma cover_not_empty (cover : string) :
  _generate_cover fs self = Ok cover → cover ≠ "".
Proof.
  unfold _generate_cover.
  destruct (cover_poster_path fs self); [|done]. cbn [mbind result_bind].
  intros [= <-]. unfold cover_html. cat_not_empty.
Qed.

Lemma synopsis_not_empty : _generate_synopsis self ≠ "".
Proof. unfold _generate_synopsis. cat_not_empty. Qed.

Lemma technical_not_empty : _generate_technical self ≠ "".
Proof. unfold _generate_technical. cat_not_empty. Qed.

Lemma contact_not_empty : _generate_contact self ≠ "".
Proof. unfold _generate_contact. cat_not_empty. Qed.

End Emptiness.

Section Sections.
Context (fs : FS).

Section Absent.
Context (self : EPKGenerator).

Lemma document_unfold (p1 p2 p3 p4 p5 p6 p7 p8 p9 p10 p11 : string) :
  document self [p1; p2; p3; p4; p5; p6; p7; p8; p9; p10; p11] =
  Py.cat [document_head self;
          p1; section_separator; p2; section_separator; p3; section_separator;
          p4; section_separator; p5; section_separator; p6; section_separator;
          p7; section_separator; p8; section_separator; p9; section_separator;
          p10; section_separator; p11;
          document_tail].
Proof.
  unfold document, Py.join. rewrite !cat_cons. cbn [String.concat].
  unfold Py.cat. cbn [String.concat]. rewrite !str_app_assoc, !str_app_nil_r.
  reflexivity.
Qed.

Lemma reviews_absent :
  reviews (config self) = [] → _generate_reviews fs self = Ok "".
Proof. unfold _generate_reviews. by intros ->. Qed.

Lemma team_absent :
  team (config self) = [] → _generate_team fs self = Ok "".
Proof. unfold _generate_team. by intros ->. Qed.

Lemma festivals_absent :
  festivals (config self) = [] → awards (config self) = [] →
  _generate_festivals self = "".
Proof. unfold _generate_festivals. by intros -> ->. Qed.

Lemma press_absent :
  press_coverage (config self) = [] → _generate_press self = "".
Proof. unfold _generate_press. by intros ->. Qed.

Lemma distribution_absent :
  distribution (config self) = distribution empty_config →
  _generate_distribution self = "".
Proof.
  unfold _generate_distribution, dist_is_empty. intros ->.
  by rewrite bool_decide_eq_true_2.
Qed.

End Absent.

Context (self : EPKGenerator).

(** C4: each of the sections for reviews, team, festivals and awards,
    press coverage and distribution is the empty string when its data is
    absent (for the distribution: when the object is missing or has no
    entry; an object whose entries are all blank is data, and its
    section is rendered).  The text that [generate_html] writes is the
    head of the document, then cover, synopsis, reviews, festivals and
    awards, press coverage, team, distribution, technical information,
    gallery, downloads and contact in that order, then the tail; in it
    the cover, the synopsis, the technical information and the contact
    are never empty, each of the five optional sections is empty only
    when its data is absent, and the gallery and the downloads are empty
    only when there is no still and no file to show. *)
Theorem sections_in_order (name : string) (pdf : bool) :
  let self' := set_for_pdf self pdf in
  (reviews (config self) = [] → _generate_reviews fs self' = Ok "")
  ∧ (team (config self) = [] → _generate_team fs self' = Ok "")
  ∧ (festivals (config self) = [] → awards (config self) = [] →
     _generate_festivals self' = "")
  ∧ (press_coverage (config self) = [] → _generate_press self' = "")
  ∧ (distribution (config self) = distribution empty_config →
     _generate_distribution self' = "")
  ∧ (∀ out,
       generate_html fs self name pdf = Ok out →
       ∃ cover reviews_html team_html gallery downloads,
         _generate_cover fs self' = Ok cover
         ∧ _generate_reviews fs self' = Ok reviews_html
         ∧ _generate_team fs self' = Ok team_html
         ∧ _generate_gallery fs self' = Ok gallery
         ∧ _generate_downloads fs self' = Ok downloads
         ∧ out =
           (self', Path.div (Path.div (output_dir self) "html") name,
            Py.cat
              [document_head self';
               cover; section_separator;
               _generate_synopsis self'; section_separator;
               reviews_html; section_separator;
               _generate_festivals self'; section_separator;
               _generate_press self'; section_separator;
               team_html; section_separator;
               _generate_distribution self'; section_separator;
               _generate_technical self'; section_separator;
               gallery; section_separator;
               downloads; section_separator;
               _generate_contact self';
               document_tail])
         ∧ cover ≠ ""
         ∧ _generate_synopsis self' ≠ ""
         ∧ _generate_technical self' ≠ ""
         ∧ _generate_contact self' ≠ ""
         ∧ (reviews_html = "" ↔ reviews (config self) = [])
         ∧ (_generate_festivals self' = ""
            ↔ festivals (config self) = [] ∧ awards (config self) = [])
         ∧ (_generate_press self' = "" ↔ press_coverage (config self) = [])
         ∧ (team_html = "" ↔ team (config self) = [])
         ∧ (_generate_distribution self' = ""
            ↔ distribution (config self) = distribution empty_config)
         ∧ (gallery = "" ↔ exists_ fs (stills_dir self) = false
                          ∨ glob_images fs (stills_dir self) = [])
         ∧ (downloads = "" ↔ exists_ fs (downloads_dir self) = false
                            ∨ iterdir fs (downloads_dir self) = [])).
Proof.
  intros self'.
  split; [apply (reviews_absent self')|].
  split; [apply (team_absent self')|].
  split; [apply (festivals_absent self')|].
  split; [apply (press_absent self')|].
  split; [apply (distribution_absent self')|].
  intros out. unfold generate_html. fold self'.
  destruct (render_html fs self') as [html|] eqn:Hhtml; [|done].
  cbn [mbind result_bind]. intros [= <-].
  apply render_html_ok in Hhtml
    as (cover & reviews_html & team_html & gallery & downloads
        & Hc & Hr & Ht & Hg & Hd & ->).
  exists cover, reviews_html, team_html, gallery, downloads.
  do 5 (split; [done|]).
  split; [by rewrite document_unfold|].
  split; [exact (cover_not_empty fs self' cover Hc)|].
  split; [exact (synopsis_not_empty self')|].
  split; [exact (technical_not_empty self')|].
  split; [exact (contact_not_empty self')|].
  split; [exact (reviews_empty_iff fs self' reviews_html Hr)|].
  split; [exact (festivals_empty_iff self')|].
  split; [exact (press_empty_iff self')|].
  split; [exact (team_empty_iff fs self' team_html Ht)|].
  split; [exact (distribution_empty_iff self')|].
  split; [exact (gallery_empty_iff fs self' gallery Hg)|].
  exact (downloads_empty_iff fs self' downloads Hd).
Qed.

End Sections.

(** The document of the sample project [alpha], which has a team and an
    award but neither reviews nor press coverage nor a distribution: the
    sections of these three are empty, the eight others are there. *)
Lemma sections_in_order_witness :
  ∃ cover team_html gallery downloads,
    let self' := set_for_pdf alpha false in
    generate_html sample_fs alpha "index.html" false
    = Ok (self', Path.of_str "films/alpha/output/html/index.html",
          Py.cat
            [document_head self';
             cover; section_separator;
             _generate_synopsis self'; section_separator;
             ""; section_separator;
             _generate_festivals self'; section_separator;
             ""; section_separator;
             team_html; section_separator;
             ""; section_separator;
             _generate_technical self'; section_separator;
             gallery; section_separator;
             downloads; section_separator;
             _generate_contact self';
             document_tail])
    ∧ cover ≠ "" ∧ _generate_synopsis self' ≠ ""
    ∧ _generate_festivals self' ≠ "" ∧ team_html ≠ ""
    ∧ _generate_technical self' ≠ "" ∧ gallery ≠ "" ∧ downloads ≠ ""
    ∧ _generate_contact self' ≠ "".
Proof.
  destruct (generate_html sample_fs alpha "index.html" false) as [out|] eqn:Hgen;
    [|by vm_compute in Hgen].
  destruct (proj2 (proj2 (proj2 (proj2 (proj2
              (sections_in_order sample_fs alpha "index.html" false)))))
              out Hgen)
    as (cover & reviews_html & team_html & gallery & downloads & _ & _ & _ & _
        & _ & -> & Hcover & Hsynopsis & Htechnical & Hcontact & Hreviews
        & Hfestivals & Hpress & Hteam & Hdistribution & Hgallery & Hdownloads).
  exists cover, team_html, gallery, downloads. cbn zeta.
  rewrite (proj2 Hreviews eq_refl), (proj2 Hpress eq_refl),
    (proj2 Hdistribution eq_refl).
  split; [reflexivity|].
  split; [done|]. split; [done|].
  split; [intros H%Hfestivals; by destruct H|].
  split; [by intros H%Hteam|].
  split; [done|].
  split; [intros H%Hgallery; by destruct H as [H|H]; vm_compute in H|].
  split; [intros H%Hdownloads; by destruct H as [H|H]; vm_compute in H|].
  done.
Defined.

(** An object whose entries are all blank is not absent: the section of
    the distribution is rendered for it. *)
Example template_distribution_renders :
  _generate_distribution (set_for_pdf templated false) ≠ "".
Proof. intros H. vm_compute in H. discriminate H. Qed.


Section Cover.
Context (fs : FS).

Lemma laurels_for_pdf (self : EPKGenerator) :
  cover_laurels_html (set_for_pdf self true) = "".
Proof.
  unfold cover_laurels_html.
  cbn [for_pdf set_for_pdf _for_pdf default negb]. by rewrite andb_false_r.
Qed.

Lemma laurels_for_html (self : EPKGenerator) :
  awards (config self) ≠ [] →
  cover_laurels_html (set_for_pdf self false) = laurels_block self.
Proof.
  intros Hawards. unfold cover_laurels_html, laurels_block.
  cbn [for_pdf set_for_pdf _for_pdf default negb config].
  rewrite bool_decide_eq_false_2; [done|].
  destruct (awards (config self)); [done|discriminate].
Qed.

Lemma cover_for_pdf_without_awards (self : EPKGenerator) :
  _generate_cover fs (set_for_pdf self true)
  = _generate_cover fs (set_for_pdf (without_awards self) true).
Proof. unfold _generate_cover. by rewrite !laurels_for_pdf. Qed.

Lemma laurels_in_cover (self : EPKGenerator) (cover : string) :
  awards (config self) ≠ [] →
  _generate_cover fs (set_for_pdf self false) = Ok cover →
  is_substring (laurels_block self) cover.
Proof.
  intros Hawards. unfold _generate_cover.
  destruct (cover_poster_path _ _) as [poster|]; [|done].
  cbn [mbind result_bind]. intros [= <-].
  rewrite laurels_for_html by done.
  unfold cover_html. apply is_substring_cat. elem_at 17.
Qed.


Lemma poster_paths_related (self : EPKGenerator) (p1 p2 : option string) :
  cover_poster_path fs (set_for_pdf self false) = Ok p1 →
  cover_poster_path fs (set_for_pdf self true) = Ok p2 →
  match p1, p2 with
  | Some r1, Some r2 => (∃ t, r1 = "../.." +:+ t) ∧ (∃ t, r2 = "file:///" +:+ t)
  | None, None => True
  | _, _ => False
  end.
Proof.
  unfold cover_poster_path.
  change (posters_dir (set_for_pdf self true))
    with (posters_dir (set_for_pdf self false)).
  destruct (exists_ fs _); [|by intros [= <-] [= <-]].
  destruct (glob_images fs _) as [|poster ?]; [by intros [= <-] [= <-]|].
  destruct (asset_ref fs (set_for_pdf self false) poster) as [r1|] eqn:H1;
    [|done].
  destruct (asset_ref fs (set_for_pdf self true) poster) as [r2|] eqn:H2;
    [|done].
  intros [= <-] [= <-]. split.
  - by apply asset_ref_html in H1.
  - by apply asset_ref_pdf in H2.
Qed.

Lemma cover_html_differ (self : EPKGenerator) (p1 p2 : option string)
  (l1 l2 rest1 rest2 : string) :
  match p1, p2 with
  | Some r1, Some r2 => (∃ t, r1 = "../.." +:+ t) ∧ (∃ t, r2 = "file:///" +:+ t)
  | None, None => True
  | _, _ => False
  end →
  cover_html (set_for_pdf self false) p1 l1 +:+ rest1
  ≠ cover_html (set_for_pdf self true) p2 l2 +:+ rest2.
Proof.
  intros Hposter Heq. unfold cover_html in Heq.
  cbn [for_pdf set_for_pdf _for_pdf from_option id config] in Heq.
  rewrite !cat_cons, !str_app_assoc in Heq.
  apply String.app_inj in Heq.
  destruct p1 as [r1|], p2 as [r2|]; [|destruct Hposter..|].
  - destruct Hposter as [[t1 ->] [t2 ->]].
    rewrite !cat_cons, !str_app_assoc in Heq.
    apply String.app_inj in Heq.
    cbn [String.append] in Heq. discriminate Heq.
  - cbn [String.append] in Heq.
    apply String.app_inj in Heq.
    let x := eval vm_compute in (Py.lit "`>") in
    change (Py.lit "`>") with x in Heq.
    cbn [String.append] in Heq. discriminate Heq.
Qed.

Lemma documents_differ (self self1 self2 : EPKGenerator) (name name' : string)
  (path1 path2 : Path.t) (html1 html2 : string) :
  generate_html fs self name false = Ok (self1, path1, html1) →
  generate_html fs self name' true = Ok (self2, path2, html2) →
  html1 ≠ html2.
Proof.
  unfold generate_html.
  destruct (render_html fs (set_for_pdf self false)) as [d1|] eqn:Hd1; [|done].
  destruct (render_html fs (set_for_pdf self true)) as [d2|] eqn:Hd2; [|done].
  cbn [mbind result_bind]. intros [= _ _ <-] [= _ _ <-].
  apply render_html_ok in Hd1 as (c1 & ? & ? & ? & ? & Hc1 & _ & _ & _ & _ & ->).
  apply render_html_ok in Hd2 as (c2 & ? & ? & ? & ? & Hc2 & _ & _ & _ & _ & ->).
  rewrite !document_unfold.
  change (document_head (set_for_pdf self true))
    with (document_head (set_for_pdf self false)).
  rewrite !(cat_cons (document_head _)). intros Heq.
  apply String.app_inj in Heq. rewrite !(cat_cons c1), !(cat_cons c2) in Heq.
  unfold _generate_cover in Hc1, Hc2.
  destruct (cover_poster_path fs (set_for_pdf self false)) as [p1|] eqn:Hp1;
    [|done].
  destruct (cover_poster_path fs (set_for_pdf self true)) as [p2|] eqn:Hp2;
    [|done].
  cbn [mbind result_bind] in Hc1, Hc2.
  injection Hc1 as <-. injection Hc2 as <-.
  by eapply cover_html_differ, Heq; eapply poster_paths_related.
Qed.

Lemma is_substring_prefix3 (a b c rest : string) :
  is_substring (a +:+ b +:+ c) (a +:+ b +:+ c +:+ rest).
Proof. exists "", rest. cbn [String.append]. by rewrite !str_app_assoc. Qed.

Lemma award_in_laurel (award : dict) :
  is_substring (laurel_title award) (laurel award)
  ∧ is_substring (laurel_festival award) (laurel award).
Proof.
  unfold laurel, laurel_title, laurel_festival. rewrite !cat_cons. split.
  - replace (Py.lit (Py.lines
               [""; "                <div class=`laurel`>";
                "                    <span class=`laurel-title`>"]))
      with (Py.lit (Py.lines
               [""; "                <div class=`laurel`>";
                "                    "])
            +:+ Py.lit "<span class=`laurel-title`>") by reflexivity.
    replace (Py.lines ["</span>"; "                    "])
      with ("</span>" +:+ Py.lines [""; "                    "])
      by reflexivity.
    rewrite !str_app_assoc.
    apply is_substring_app_r, is_substring_prefix3.
  - do 3 apply is_substring_app_r. apply is_substring_prefix3.
Qed.

Lemma award_in_block (self : EPKGenerator) (award : dict) :
  award ∈ take 4 (awards (config self)) →
  is_substring (laurel_title award) (laurels_block self)
  ∧ is_substring (laurel_festival award) (laurels_block self).
Proof.
  intros Hin.
  assert (is_substring (laurel award) (laurels_block self)) as Hblock.
  { unfold laurels_block. apply is_substring_app_r, is_substring_app_l.
    apply is_substring_cat. by apply list_elem_of_fmap_2. }
  destruct (award_in_laurel award) as [Htitle Hfestival].
  split; (eapply is_substring_trans; [|exact Hblock]); done.
Qed.

Lemma block_opens (self : EPKGenerator) :
  is_substring (Py.lit "<div class=`laurels`>") (laurels_block self).
Proof. unfold laurels_block. apply is_substring_app_l, is_substring_refl. Qed.

Lemma str_app_cancel (a x y : string) : a +:+ x = a +:+ y → x = y.
Proof. induction a as [|c a IH]; cbn; [done|]. intros [= H]. by apply IH. Qed.

Lemma cover_html_slot (self : EPKGenerator) (poster : option string) :
  ∃ before, ∀ laurels,
    cover_html self poster laurels
    = before +:+ laurels
      +:+ Py.lines [""; "            </div>"; "        </div>"; "        "].
Proof.
  unfold cover_html. eexists. intros laurels.
  match goal with
  | |- Py.cat ?l = _ =>
      change l with (take 17 l ++ [laurels; List.last l ""])%list
  end.
  rewrite cat_app. cbn [take List.last].
  rewrite !(cat_cons laurels), (cat_cons (Py.lines _)). unfold Py.cat at 2.
  cbn [String.concat]. rewrite str_app_nil_r. reflexivity.
Qed.

Lemma awards_change_cover (self : EPKGenerator) (cover : string) :
  awards (config self) ≠ [] →
  _generate_cover fs (set_for_pdf self false) = Ok cover →
  _generate_cover fs (set_for_pdf (without_awards self) false) ≠ Ok cover.
Proof.
  intros Hawards. unfold _generate_cover.
  change (cover_poster_path fs (set_for_pdf (without_awards self) false))
    with (cover_poster_path fs (set_for_pdf self false)).
  destruct (cover_poster_path _ _) as [poster|]; [|done].
  cbn [mbind result_bind]. intros [= <-] Heq.
  apply (f_equal (fun r => match r with Ok c => c | Raise _ => "" end)) in Heq.
  cbv beta iota in Heq.
  change (cover_laurels_html (set_for_pdf (without_awards self) false))
    with "" in Heq.
  rewrite (laurels_for_html self Hawards) in Heq.
  change (cover_html (set_for_pdf (without_awards self) false) poster "")
    with (cover_html (set_for_pdf self false) poster "") in Heq.
  destruct (cover_html_slot (set_for_pdf self false) poster) as [before Hslot].
  rewrite !Hslot in Heq. apply str_app_cancel in Heq.
  unfold laurels_block in Heq.
  apply (f_equal (fun s => match s with
                           | String c _ => Some c
                           | "" => None
                           end)) in Heq.
  vm_compute in Heq. discriminate Heq.
Qed.

(** C9: with awards in the configuration, the cover rendered for HTML
    carries the block of laurels, in which each of the first four awards
    is shown with its title, its festival and its year, and so does the
    document; the cover rendered for PDF is the cover of the same
    configuration without its awards, whereas the cover rendered for
    HTML is not; and the two documents are never the same text. *)
Theorem cover_laurels_only_for_html (self : EPKGenerator) :
  awards (config self) ≠ [] →
  (∀ cover, _generate_cover fs (set_for_pdf self false) = Ok cover →
     is_substring (laurels_block self) cover
     ∧ is_substring (Py.lit "<div class=`laurels`>") cover
     ∧ ∀ award, award ∈ take 4 (awards (config self)) →
         is_substring (laurel_title award) cover
         ∧ is_substring (laurel_festival award) cover)
  ∧ (∀ name self' path html,
       generate_html fs self name false = Ok (self', path, html) →
       is_substring (laurels_block self) html
       ∧ ∀ award, award ∈ take 4 (awards (config self)) →
           is_substring (laurel_title award) html
           ∧ is_substring (laurel_festival award) html)
  ∧ _generate_cover fs (set_for_pdf self true)
    = _generate_cover fs (set_for_pdf (without_awards self) true)
  ∧ (∀ cover, _generate_cover fs (set_for_pdf self false) = Ok cover →
       _generate_cover fs (set_for_pdf (without_awards self) false) ≠ Ok cover)
  ∧ (∀ name name' self1 self2 path1 path2 html1 html2,
       generate_html fs self name false = Ok (self1, path1, html1) →
       generate_html fs self name' true = Ok (self2, path2, html2) →
       html1 ≠ html2).
Proof.
  intros Hawards.
  assert (∀ text, is_substring (laurels_block self) text →
            is_substring (Py.lit "<div class=`laurels`>") text
            ∧ ∀ award, award ∈ take 4 (awards (config self)) →
                is_substring (laurel_title award) text
                ∧ is_substring (laurel_festival award) text) as Hshown.
  { intros text Htext. split.
    - eapply is_substring_trans; [apply block_opens|exact Htext].
    - intros award Hin. destruct (award_in_block self award Hin).
      split; eapply is_substring_trans; try exact Htext; done. }
  split.
  { intros cover Hcover.
    assert (is_substring (laurels_block self) cover) as Hblock
      by by apply laurels_in_cover.
    split; [done|]. by apply Hshown. }
  split; [|split; [apply cover_for_pdf_without_awards|split]].
  - intros name self' path html. unfold generate_html.
    destruct (render_html fs (set_for_pdf self false)) as [d|] eqn:Hd; [|done].
    cbn [mbind result_bind]. intros [= _ _ <-].
    apply render_html_ok in Hd as (c & ? & ? & ? & ? & Hc & _ & _ & _ & _ & ->).
    assert (is_substring (laurels_block self)
              (document (set_for_pdf self false)
                 [c; _generate_synopsis (set_for_pdf self false); x;
                  _generate_festivals (set_for_pdf self false);
                  _generate_press (set_for_pdf self false); x0;
                  _generate_distribution (set_for_pdf self false);
                  _generate_technical (set_for_pdf self false); x1; x2;
                  _generate_contact (set_for_pdf self false)])) as Hblock.
    { eapply is_substring_trans; [by apply laurels_in_cover|].
      apply section_in_document. elem_at 0. }
    split; [done|]. by apply Hshown.
  - intros cover. by apply awards_change_cover.
  - intros *. apply documents_differ.
Qed.

End Cover.

(** The sample project [alpha] has an award: its cover for HTML shows the
    title, the festival and the year of the award, and its cover for PDF
    is the cover it would have without the award. *)
Lemma cover_laurels_only_for_html_witness :
  ∃ cover,
    _generate_cover sample_fs (set_for_pdf alpha false) = Ok cover
    ∧ is_substring
        (Py.lit "<span class=`laurel-title`>Jury Award - Best Feature</span>")
        cover
    ∧ is_substring "Sundance Film Festival 2025" cover
    ∧ _generate_cover sample_fs (set_for_pdf alpha true)
      = _generate_cover sample_fs (set_for_pdf (without_awards alpha) true)
    ∧ _generate_cover sample_fs (set_for_pdf (without_awards alpha) false)
      ≠ Ok cover.
Proof.
  destruct (_generate_cover sample_fs (set_for_pdf alpha false))
    as [cover|] eqn:Hcover; [|by vm_compute in Hcover].
  destruct (cover_laurels_only_for_html sample_fs alpha ltac:(discriminate))
    as (Hhtml & _ & Hpdf & Hchange & _).
  destruct (Hhtml cover Hcover) as (_ & _ & Hawards).
  destruct (Hawards demo_award) as [Htitle Hfestival];
    [apply list_elem_of_here|].
  exists cover. split; [done|]. split; [exact Htitle|].
  split; [exact Hfestival|]. split; [exact Hpdf|]. exact (Hchange cover Hcover).
Defined.

Section Reviews.
Context (fs : FS) (self : EPKGenerator).

(** C10: a review whose rating is a non-empty string that [int] does not
    accept, such as 4.5, makes the reviews section raise, and the whole of
    [generate_html] with it: no document is returned. *)
Theorem rating_not_integer_raises (review : dict) (name : string) (pdf : bool) :
  review ∈ reviews (config self) →
  Py.truthy (review !! "rating") = true →
  is_ok (Py.int (Py.get review "rating" "0")) = false →
  raises (_generate_reviews fs self)
  ∧ raises (generate_html fs self name pdf).
Proof.
  intros Hin Htruthy Hint.
  assert (∀ self', config self' = config self →
            raises (_generate_reviews fs self')) as Hrev.
  { intros self' Hcfg. unfold _generate_reviews. rewrite Hcfg.
    rewrite bool_decide_eq_false_2
      by (intros Hnil; rewrite Hnil in Hin; set_solver).
    destruct (mapM_raises (review_card fs) _ review Hin) as [e He].
    - unfold review_card, review_rating_html. rewrite Htruthy.
      destruct (not_ok_raises _ Hint) as [e ->]. by exists e.
    - rewrite He. by exists e. }
  split; [by apply Hrev|].
  unfold generate_html, render_html, sections.
  destruct (Hrev (set_for_pdf self pdf) eq_refl) as [e He].
  rewrite He. rewrite mapM_cons.
  destruct (_generate_cover _ _) as [c|e']; [|by exists e'].
  by exists e.
Qed.
End Reviews.

(** The rating 4.5 is refused by [int]. *)
Example int_of_fraction :
  Py.int "4.5"
  = Raise (ValueError "invalid literal for int() with base 10: '4.5'").
Proof. reflexivity. Qed.

(** The sample project [gamma] with a review rated 4.5. *)
Lemma rating_not_integer_raises_witness :
  raises (_generate_reviews
            (demo_fs good_poster demo_contact [half_star_review])
            (gamma [half_star_review]))
  ∧ raises (generate_html (demo_fs good_poster demo_contact [half_star_review])
              (gamma [half_star_review]) "index.html" false).
Proof.
  apply (rating_not_integer_raises _ _ half_star_review).
  - apply list_elem_of_here.
  - reflexivity.
  - reflexivity.
Defined.


(** ** Batch processing *)

Section Batch.
Context (env : Env) (fs : FS).

Lemma process_single_success (dir : Path.t) :
  success (_process_single env fs dir) = project_is_sound env fs dir.
Proof.
  unfold _process_single, project_is_sound, loaded.
  destruct (load_config fs _ _) as [epk|]; [|done].
  rewrite is_valid_no_errors.
  destruct (bool_decide (errors (validate_assets env fs epk) = [])); [|done].
  cbn [negb andb].
  destruct (generate_html fs epk "index.html" false) as [[[? ?] ?]|]; [|done].
  cbn [is_ok]. by destruct (generate_pdf _ _ _ _ _ _).
Qed.

Lemma process_single_warnings (dir : Path.t) (epk : EPKGenerator) :
  loaded env fs dir = Ok epk →
  film_warnings (_process_single env fs dir)
  = warnings (validate_assets env fs epk).
Proof.
  unfold _process_single, loaded. intros ->.
  destruct (negb _); [done|].
  destruct (generate_html fs epk "index.html" false) as [[[? ?] ?]|]; [|done].
  by destruct (generate_pdf _ _ _ _ _ _).
Qed.

Lemma process_single_film (dir : Path.t) :
  film (_process_single env fs dir) = Path.name dir.
Proof.
  unfold _process_single.
  destruct (load_config fs _ _) as [epk|]; [|done].
  destruct (negb _); [done|].
  destruct (generate_html fs epk "index.html" false) as [[[? ?] ?]|]; [|done].
  by destruct (generate_pdf _ _ _ _ _ _).
Qed.

Lemma lacks_contact_email_fails (dir : Path.t) :
  lacks_contact_email env fs dir = true →
  success (_process_single env fs dir) = false
  ∧ contact_required ∈ film_errors (_process_single env fs dir).
Proof.
  unfold lacks_contact_email, _process_single, loaded.
  destruct (load_config fs _ _) as [epk|]; [|done].
  intros Hmail%negb_true_iff.
  assert (contact_required ∈ errors (validate_assets env fs epk)) as Hin.
  { unfold validate_assets. cbn [errors]. unfold check_contact.
    rewrite Hmail. set_solver. }
  rewrite is_valid_no_errors, bool_decide_eq_false_2.
  - done.
  - intros Hnil. rewrite Hnil in Hin. by apply elem_of_nil in Hin.
Qed.

Lemma summary_adds_up (self : BatchProcessor) :
  total (_print_summary self)
  = successful (_print_summary self) + failed (_print_summary self).
Proof.
  unfold _print_summary. cbn [total successful failed].
  pose proof (List.filter_length_le success (results self)). lia.
Qed.

(** C8: the result of [validate_assets] is valid exactly when its list of
    errors is empty, whatever its warnings; and a project of a batch
    succeeds exactly when its validation finds no error and its HTML is
    generated, its warnings being carried to the result. *)
Theorem is_valid_iff_no_errors :
  (∀ self, is_valid (validate_assets env fs self)
           = bool_decide (errors (validate_assets env fs self) = []))
  ∧ (∀ dir, success (_process_single env fs dir) =
       match loaded env fs dir with
       | Ok epk =>
           bool_decide (errors (validate_assets env fs epk) = [])
           && is_ok (generate_html fs epk "index.html" false)
       | Raise _ => false
       end)
  ∧ (∀ dir, film_warnings (_process_single env fs dir) =
       match loaded env fs dir with
       | Ok epk => warnings (validate_assets env fs epk)
       | Raise _ => []
       end).
Proof.
  split; [intros self; apply is_valid_no_errors|].
  split; [exact process_single_success|].
  intros dir. destruct (loaded env fs dir) as [epk|] eqn:Hload.
  - by apply process_single_warnings.
  - unfold _process_single. unfold loaded in Hload. by rewrite Hload.
Qed.

Lemma process_all_results (self : BatchProcessor) :
  find_projects fs self ≠ [] →
  process_all env fs self
  = let self' :=
      {| root_dir := root_dir self;
         results := (results self
                     ++ (_process_single env fs <$> find_projects fs self))%list |}
    in (self', results self').
Proof.
  intros Hsome. unfold process_all. by rewrite bool_decide_eq_false_2.
Qed.

(** C7: a batch with a project to process gives every project found its
    result, in order, each being what [_process_single] makes of that
    project alone, and returns the list; the figures of the summary
    satisfy total = successful + failed; and with three projects, one
    without contact email and the two others sound, a fresh processor
    counts two successes and one failure, the failed entry carrying the
    error that the contact email is required. *)
Theorem batch_never_aborts (self : BatchProcessor) :
  let projects := find_projects fs self in
  let self' := fst (process_all env fs self) in
  (projects ≠ [] →
   results self' = (results self ++ (_process_single env fs <$> projects))%list
   ∧ snd (process_all env fs self) = results self')
  ∧ total (_print_summary self')
    = successful (_print_summary self') + failed (_print_summary self')
  ∧ (∀ i dir,
       results self = [] → length projects = 3 →
       projects !! i = Some dir →
       lacks_contact_email env fs dir = true →
       (∀ j other, j ≠ i → projects !! j = Some other →
          project_is_sound env fs other = true) →
       _print_summary self' = {| total := 3; successful := 2; failed := 1 |}
       ∧ ∃ entry, results self' !! i = Some entry
                  ∧ film entry = Path.name dir
                  ∧ success entry = false
                  ∧ contact_required ∈ film_errors entry).
Proof.
  intros projects self'. split; [|split].
  - intros Hsome. subst self'. by rewrite process_all_results.
  - apply summary_adds_up.
  - intros i dir Hfresh Hlen Hi Hlacks Hsound.
    assert (projects ≠ []) as Hsome by (by destruct projects).
    subst self'. rewrite process_all_results by done. cbn [fst].
    fold projects. rewrite Hfresh. cbn [app].
    destruct (lacks_contact_email_fails dir Hlacks) as [Hfail Herr].
    destruct projects as [|a [|b [|c [|]]]]; try discriminate Hlen.
    assert (∀ j other, j ≠ i → [a; b; c] !! j = Some other →
              success (_process_single env fs other) = true) as Hok.
    { intros j other Hj Hother. rewrite process_single_success. eauto. }
    unfold _print_summary. cbn [results fmap list_fmap length List.filter].
    destruct i as [|[|[|i]]]; [| | |done]; injection Hi as ->.
    + rewrite Hfail, (Hok 1 b), (Hok 2 c) by done.
      split; [done|]. exists (_process_single env fs dir). by rewrite process_single_film.
    + rewrite Hfail, (Hok 0 a), (Hok 2 c) by done.
      split; [done|]. exists (_process_single env fs dir). by rewrite process_single_film.
    + rewrite Hfail, (Hok 0 a), (Hok 1 b) by done.
      split; [done|]. exists (_process_single env fs dir). by rewrite process_single_film.
Qed.
End Batch.

(** The sample batch, [beta] having no contact: two successes, one
    failure. *)
Lemma batch_never_aborts_witness :
  _print_summary
    (fst (process_all demo_env (demo_fs good_poster ∅ [])
            (BatchProcessor_init "films")))
  = {| total := 3; successful := 2; failed := 1 |}
  ∧ ∃ entry,
      results (fst (process_all demo_env (demo_fs good_poster ∅ [])
                      (BatchProcessor_init "films"))) !! 1 = Some entry
      ∧ film entry = "beta" ∧ success entry = false
      ∧ contact_required ∈ film_errors entry.
Proof.
  apply (proj2 (proj2 (batch_never_aborts demo_env (demo_fs good_poster ∅ [])
                         (BatchProcessor_init "films")))
           1 (Path.of_str "films/beta")).
  - reflexivity.
  - reflexivity.
  - reflexivity.
  - reflexivity.
  - intros [|[|[|j]]] other Hj Hother; try done;
      injection Hother as <-; by vm_compute.
Defined.

(** * Further properties of the code *)

(** ** What makes the rendering raise *)

Section Raising.
Context (fs : FS) (self : EPKGenerator).

Lemma section_raises (name : string) (pdf : bool) (section : result string) :
  section ∈ sections fs (set_for_pdf self pdf) → raises section →
  raises (generate_html fs self name pdf).
Proof.
  intros Hin Hraises. unfold generate_html, render_html.
  destruct (mapM_raises id _ section Hin Hraises) as [e ->]. by exists e.
Qed.

Lemma repeat_out_of_range (capacity n : Z) :
  (n < - 2 ^ 63 ∨ 2 ^ 63 ≤ n ∨ (0 < n ∧ capacity < 3 * n))%Z →
  raises (Py.repeat capacity 3 star n).
Proof.
  intros Hn. unfold Py.repeat.
  destruct (decide _) as [|Hrange]; [by eexists|].
  destruct (decide _) as [Hnone|Hsome]; [lia|].
  destruct (decide _) as [|Hlong]; [by eexists|].
  destruct (decide _) as [|Hfits]; [by eexists|lia].
Qed.

(** X1: a review whose rating [int] accepts but which is beyond what a
    machine index holds (2^63 or more, or less than -2^63), or which asks
    for more stars than the memory can hold, makes the reviews section
    raise, and [generate_html] with it, in either mode: the number of
    stars is not capped. *)
Theorem rating_out_of_range_raises (review : dict) (n : Z) (name : string)
  (pdf : bool) :
  review ∈ reviews (config self) →
  Py.truthy (review !! "rating") = true →
  Py.int (Py.get review "rating" "0") = Ok n →
  (n < - 2 ^ 63 ∨ 2 ^ 63 ≤ n ∨ (0 < n ∧ memory fs < 3 * n))%Z →
  raises (_generate_reviews fs self)
  ∧ raises (generate_html fs self name pdf).
Proof.
  intros Hin Htruthy Hint Hn.
  assert (∀ self', config self' = config self →
            raises (_generate_reviews fs self')) as Hrev.
  { intros self' Hcfg. unfold _generate_reviews. rewrite Hcfg.
    rewrite bool_decide_eq_false_2
      by (intros Hnil; rewrite Hnil in Hin; set_solver).
    destruct (mapM_raises (review_card fs) _ review Hin) as [e He].
    - unfold review_card, review_rating_html. rewrite Htruthy, Hint.
      cbn [mbind result_bind].
      destruct (repeat_out_of_range (memory fs) n Hn) as [e ->]. by exists e.
    - rewrite He. by exists e. }
  split; [by apply Hrev|].
  apply (section_raises name pdf (_generate_reviews fs (set_for_pdf self pdf)));
    [unfold sections; elem_at 2|by apply Hrev].
Qed.

(** X2: a team member whose configured photo exists but does not lie
    under the project directory (an absolute path elsewhere, say) makes
    the team section raise when rendering for the browser, and
    [generate_html] with it: [relative_to] refuses the path. *)
Theorem photo_outside_project_raises (member : dict) (name : string) :
  member ∈ team (config self) →
  Py.truthy (member !! "photo") = true →
  exists_ fs (Path.div (project_dir self) (Py.get member "photo" "")) = true →
  is_ok (Path.relative_to
           (Path.div (project_dir self) (Py.get member "photo" ""))
           (project_dir self)) = false →
  raises (_generate_team fs (set_for_pdf self false))
  ∧ raises (generate_html fs self name false).
Proof.
  intros Hin Htruthy Hexists Houtside.
  assert (raises (_generate_team fs (set_for_pdf self false))) as Hteam.
  { unfold _generate_team. cbn [config set_for_pdf].
    rewrite bool_decide_eq_false_2
      by (intros Hnil; rewrite Hnil in Hin; set_solver).
    destruct (mapM_raises (fun member =>
        photo ← team_photo_path fs (set_for_pdf self false) member;
        Ok (team_member_html member photo)) _ member Hin) as [e He].
    - unfold team_photo_path, asset_ref.
      cbn [for_pdf set_for_pdf _for_pdf default from_option id project_dir].
      rewrite Htruthy, Hexists.
      destruct (not_ok_raises _ Houtside) as [e ->]. by exists e.
    - rewrite He. by exists e. }
  split; [done|].
  apply (section_raises name false (_generate_team fs (set_for_pdf self false)));
    [unfold sections; elem_at 5|done].
Qed.
End Raising.

(** A rating of twenty nines. *)
Lemma rating_out_of_range_raises_witness :
  raises (_generate_reviews sample_fs (gamma [huge_review]))
  ∧ raises (generate_html sample_fs (gamma [huge_review]) "index.html" false).
Proof.
  apply (rating_out_of_range_raises sample_fs (gamma [huge_review]) huge_review
           99999999999999999999).
  - apply list_elem_of_here.
  - reflexivity.
  - reflexivity.
  - right. left. lia.
Defined.

(** The director's photo kept in a shared directory outside the project. *)
Lemma photo_outside_project_raises_witness :
  raises (_generate_team shared_fs (set_for_pdf outsourced false))
  ∧ raises (generate_html shared_fs outsourced "index.html" false).
Proof.
  apply (photo_outside_project_raises shared_fs outsourced outsider).
  - apply list_elem_of_here.
  - reflexivity.
  - reflexivity.
  - reflexivity.
Defined.

(** ** PDF generation *)

Section Pdf.
Context (env : Env) (fs : FS) (self : EPKGenerator).

Lemma generate_pdf_backend (html_file : option string) (out : string)
  (use : bool) :
  generate_pdf env fs self html_file out use
  = match pdf_backend env use with
    | Some renderer => _generate_pdf_with renderer fs self html_file out
    | None => (self, None)
    end.
Proof.
  unfold generate_pdf, pdf_backend.
  destruct (use && PLAYWRIGHT_AVAILABLE env); [done|].
  by destruct (WEASYPRINT_AVAILABLE env).
Qed.

Lemma generate_pdf_state (html_file : option string) (out : string)
  (use : bool) :
  fst (generate_pdf env fs self html_file out use)
  = match pdf_backend env use, html_file with
    | Some _, None => set_for_pdf self true
    | _, _ => self
    end.
Proof.
  rewrite generate_pdf_backend.
  destruct (pdf_backend env use) as [renderer|]; [|done].
  unfold _generate_pdf_with. destruct html_file as [text|].
  - by destruct (renderer text).
  - unfold generate_html.
    destruct (render_html fs (set_for_pdf self true)) as [text|]; [|done].
    cbn [mbind result_bind]. by destruct (renderer text).
Qed.

(** X3: generating a PDF, whether it succeeds or not, leaves the
    generator such that a later [generate_html] writes what it would
    have written before: the PDF mode the PDF rendering switched on does
    not leak into the next HTML. *)
Theorem html_unchanged_by_pdf (html_file : option string) (out name : string)
  (use pdf : bool) :
  generate_html fs (fst (generate_pdf env fs self html_file out use)) name pdf
  = generate_html fs self name pdf.
Proof.
  rewrite generate_pdf_state. by destruct (pdf_backend env use), html_file.
Qed.

(** X4: [generate_pdf] without an HTML file returns a path exactly when
    a renderer is available, the rendering of the HTML for PDF returns
    and the renderer does not raise on its text; the path is then
    [output/pdf/<name>].  In every other case it returns [None]. *)
Theorem pdf_written_iff (out : string) (use : bool) (p : Path.t) :
  snd (generate_pdf env fs self None out use) = Some p ↔
  ∃ renderer self' path text,
    pdf_backend env use = Some renderer
    ∧ generate_html fs self "temp_for_pdf.html" true = Ok (self', path, text)
    ∧ is_ok (renderer text) = true
    ∧ p = Path.div (Path.div (output_dir self) "pdf") out.
Proof.
  rewrite generate_pdf_backend.
  destruct (pdf_backend env use) as [renderer|]; cbn [snd].
  2: { split; [done|]. by intros (? & ? & ? & ? & ? & _). }
  unfold _generate_pdf_with.
  destruct (generate_html fs self "temp_for_pdf.html" true)
    as [[[self' path] text]|] eqn:Hgen; cbn [mbind result_bind snd].
  2: { split; [done|]. by intros (? & ? & ? & ? & _ & ? & _). }
  assert (self' = set_for_pdf self true) as ->.
  { unfold generate_html in Hgen. destruct (render_html _ _); [|done].
    by injection Hgen. }
  destruct (renderer text) eqn:Hrender; cbn [snd].
  - split.
    + intros [= <-]. exists renderer, (set_for_pdf self true), path, text.
      by rewrite Hrender.
    + intros (? & ? & ? & ? & [= <-] & [= _ _ <-] & _ & ->). done.
  - split; [done|].
    intros (? & ? & ? & ? & [= <-] & [= _ _ <-] & Hok & _).
    by rewrite Hrender in Hok.
Qed.

(** X5: when Playwright is installed and asked for, a failure of its
    rendering is final: [generate_pdf] returns [None] and does not fall
    back to WeasyPrint, installed or not. *)
Theorem playwright_failure_is_final (out : string) (self' : EPKGenerator)
  (path : Path.t) (text : string) :
  PLAYWRIGHT_AVAILABLE env = true →
  generate_html fs self "temp_for_pdf.html" true = Ok (self', path, text) →
  is_ok (playwright_pdf env text) = false →
  snd (generate_pdf env fs self None out true) = None.
Proof.
  intros Havailable Hgen Hfails. unfold generate_pdf. rewrite Havailable.
  cbn [andb]. unfold _generate_pdf_with. rewrite Hgen.
  cbn [mbind result_bind]. by destruct (playwright_pdf env text).
Qed.
End Pdf.

(** Chromium fails on the sample project [alpha]; WeasyPrint, which
    would render it, is not tried. *)
Lemma playwright_failure_is_final_witness :
  WEASYPRINT_AVAILABLE chromium_down = true
  ∧ snd (generate_pdf chromium_down sample_fs alpha None "epk.pdf" true) = None.
Proof.
  split; [reflexivity|].
  destruct (generate_html sample_fs alpha "temp_for_pdf.html" true)
    as [[[self' path] text]|] eqn:Hgen; [|by vm_compute in Hgen].
  apply (playwright_failure_is_final chromium_down sample_fs alpha "epk.pdf"
           self' path text); [reflexivity|exact Hgen|reflexivity].
Defined.

(** ** The shape of the validation *)

Section ValidationShape.
Context (env : Env) (fs : FS) (self : EPKGenerator).

Lemma check_required_sublist (meta : dict) :
  check_required meta `sublist_of` (missing_field_error ∘ snd <$> required_fields).
Proof.
  unfold check_required, required_fields.
  cbn [mbind list_bind fmap list_fmap compose snd app].
  repeat match goal with
         | |- context [Py.truthy ?o] => destruct (Py.truthy o)
         end; cbn [app];
    repeat first [apply sublist_nil_l | apply sublist_skip | apply sublist_cons].
Qed.

Lemma check_poster_warnings_length :
  (length (snd (check_poster env fs self)) ≤ 1)%nat.
Proof. unfold check_poster. repeat case_match; cbn; lia. Qed.

Lemma sample_stills_length (stills : list Path.t) :
  (length (sample_stills fs stills) ≤ 1)%nat.
Proof. rewrite sample_stills_find. case_match; cbn; lia. Qed.

Lemma check_stills_length : (length (check_stills env fs self) ≤ 2)%nat.
Proof.
  unfold check_stills. destruct (exists_ fs _); [|cbn; lia].
  rewrite length_app.
  pose proof (sample_stills_length (take 3 (glob_images fs (stills_dir self)))).
  repeat case_match; cbn [length]; lia.
Qed.

(** X6: the errors of a validation are a selection, in a fixed order and
    without repetition, of seven messages (the five required fields, the
    poster, the contact email); there are at most four warnings. *)
Theorem validation_messages_bounded :
  errors (validate_assets env fs self) `sublist_of` all_errors
  ∧ NoDup (errors (validate_assets env fs self))
  ∧ (length (errors (validate_assets env fs self)) ≤ 7)%nat
  ∧ (length (warnings (validate_assets env fs self)) ≤ 4)%nat.
Proof.
  assert (errors (validate_assets env fs self) `sublist_of` all_errors) as Hsub.
  { unfold validate_assets, all_errors. cbn [errors].
    apply sublist_app; [apply check_required_sublist|].
    destruct (check_poster_errors env fs self) as [-> | ->],
      (check_contact_cases self) as [-> | ->]; cbn [app];
      repeat first [apply sublist_nil_l | apply sublist_skip | apply sublist_cons]. }
  split; [done|]. split; [|split].
  - eapply sublist_NoDup; [|exact Hsub].
    apply (bool_decide_unpack _). by vm_compute.
  - apply sublist_length in Hsub. exact Hsub.
  - unfold validate_assets. cbn [warnings]. rewrite !length_app.
    pose proof check_poster_warnings_length. pose proof check_stills_length.
    assert (length (check_synopsis (metadata (config self))) ≤ 1)%nat
      by (unfold check_synopsis; case_match; cbn; lia).
    lia.
Qed.
End ValidationShape.

Section Pictures.
Context (fs : FS) (self : EPKGenerator).

(** X7: the errors of a validation, and so its verdict, depend neither on
    what the pictures hold nor on the image library being installed:
    picture quality only ever produces warnings. *)
Theorem errors_ignore_pictures (env env' : Env) (open : Path.t → Image) :
  errors (validate_assets env (with_image_open fs open) self)
  = errors (validate_assets env' fs self)
  ∧ is_valid (validate_assets env (with_image_open fs open) self)
    = is_valid (validate_assets env' fs self).
Proof.
  assert (fst (check_poster env (with_image_open fs open) self)
          = fst (check_poster env' fs self)) as Hposter.
  { unfold check_poster.
    change (glob_images (with_image_open fs open)) with (glob_images fs).
    cbn [with_image_open exists_ image_open].
    destruct (negb _ || _); [done|].
    destruct (PIL_AVAILABLE env), (PIL_AVAILABLE env');
      destruct (glob_images fs (posters_dir self)) as [|poster ?]; try done;
      try destruct (open poster); try destruct (image_open fs poster);
      repeat case_bool_decide; done. }
  cbn [validate_assets errors is_valid]. by rewrite Hposter.
Qed.

(** X8: without the image library no picture is opened: the whole
    validation result is the same whatever the pictures hold. *)
Theorem no_library_no_pictures (env : Env) (open : Path.t → Image) :
  PIL_AVAILABLE env = false →
  validate_assets env (with_image_open fs open) self
  = validate_assets env fs self.
Proof.
  intros Hpil. unfold validate_assets, check_poster, check_stills.
  change (glob_images (with_image_open fs open)) with (glob_images fs).
  cbn [with_image_open exists_ image_open]. by rewrite Hpil.
Qed.
End Pictures.

(** Without the library, tiny pictures change nothing for [alpha]. *)
Lemma no_library_no_pictures_witness :
  validate_assets plain_env
    (with_image_open sample_fs (fun _ => Picture 10 10)) alpha
  = validate_assets plain_env sample_fs alpha.
Proof. apply no_library_no_pictures. reflexivity. Defined.

(** ** The pattern of the image names *)

Section Chars.

Lemma of_chars_chars (s : string) : Py.of_chars (Py.chars s) = s.
Proof. induction s as [|c s IH]; [done|]. cbn. by rewrite IH. Qed.

Lemma chars_app (s t : string) :
  Py.chars (s +:+ t) = (Py.chars s ++ Py.chars t)%list.
Proof. induction s as [|c s IH]; [done|]. cbn. by rewrite IH. Qed.

Lemma of_chars_app (a b : list ascii) :
  Py.of_chars (a ++ b) = Py.of_chars a +:+ Py.of_chars b.
Proof. induction a as [|c a IH]; [done|]. cbn. by rewrite IH. Qed.

Lemma image_name_ends (stem ext : string) :
  ext ∈ image_suffixes → image_name (stem +:+ ext) = true.
Proof.
  intros Hext. unfold image_name. rewrite chars_app, rev_app_distr.
  unfold image_suffixes in Hext.
  repeat (apply elem_of_cons in Hext as [->|Hext]; [done|]).
  by apply elem_of_nil in Hext.
Qed.

Lemma other_name_ends (stem ext : string) :
  ext ∈ other_suffixes → image_name (stem +:+ ext) = false.
Proof.
  intros Hext. unfold image_name. rewrite chars_app, rev_app_distr.
  unfold other_suffixes in Hext.
  repeat (apply elem_of_cons in Hext as [->|Hext]; [done|]).
  by apply elem_of_nil in Hext.
Qed.

End Chars.

(** X9: the pattern [*.[jp][pn][g]] accepts exactly the names that end
    in [.jpg], [.jng], [.ppg] or [.png], in lower case. *)
Theorem image_name_suffixes (name : string) :
  image_name name = true ↔ ends_with image_suffixes name.
Proof.
  split.
  - unfold image_name. destruct (List.rev (Py.chars name))
      as [|g [|c2 [|c1 [|dot r]]]] eqn:Hrev; try done.
    intros (-> & Hc2 & Hc1 & ->)%bool_decide_eq_true.
    apply (f_equal (@List.rev ascii)) in Hrev. rewrite rev_involutive in Hrev.
    apply (f_equal Py.of_chars) in Hrev. rewrite of_chars_chars in Hrev.
    cbn [List.rev] in Hrev. rewrite <- !List.app_assoc in Hrev.
    rewrite of_chars_app in Hrev. cbn [app Py.of_chars] in Hrev.
    exists (Py.of_chars (List.rev r)). eexists. split; [exact Hrev|].
    unfold image_suffixes. destruct Hc2 as [->| ->], Hc1 as [->| ->]; set_solver.
  - intros (stem & ext & -> & Hext). by apply image_name_ends.
Qed.

Section Posters.
Context (env : Env) (fs : FS) (self : EPKGenerator).

(** X10: a posters directory whose files all end in [.jpeg], in an upper
    case ending, in [.gif] or in [.webp] counts as holding no poster:
    the validation reports that a poster is required and fails. *)
Theorem other_posters_not_found :
  Forall (ends_with other_suffixes) (iterdir fs (posters_dir self)) →
  glob_images fs (posters_dir self) = []
  ∧ poster_required ∈ errors (validate_assets env fs self)
  ∧ is_valid (validate_assets env fs self) = false.
Proof.
  intros Hall.
  assert (glob_images fs (posters_dir self) = []) as Hglob.
  { unfold glob_images.
    induction Hall as [|name names (stem & ext & -> & Hext) _ IH]; [done|].
    cbn [List.filter]. by rewrite other_name_ends. }
  assert (poster_required ∈ errors (validate_assets env fs self)) as Hin.
  { cbn [validate_assets errors]. unfold check_poster. rewrite Hglob.
    rewrite bool_decide_eq_true_2, orb_true_r by done. set_solver. }
  split; [done|split; [done|]].
  cbn [validate_assets is_valid]. apply bool_decide_eq_false.
  cbn [validate_assets errors] in Hin. intros Hlen.
  apply nil_length_inv in Hlen. rewrite Hlen in Hin. by apply elem_of_nil in Hin.
Qed.
End Posters.

(** The posters of [alpha] saved as [poster.jpeg] and [Poster.PNG]. *)
Lemma other_posters_not_found_witness :
  glob_images jpeg_fs (posters_dir alpha) = []
  ∧ poster_required ∈ errors (validate_assets demo_env jpeg_fs alpha)
  ∧ is_valid (validate_assets demo_env jpeg_fs alpha) = false.
Proof.
  apply other_posters_not_found.
  change (iterdir jpeg_fs (posters_dir alpha))
    with ["poster.jpeg"; "Poster.PNG"].
  repeat constructor.
  - exists "poster", ".jpeg". split; [reflexivity|]. unfold other_suffixes.
    set_solver.
  - exists "Poster", ".PNG". split; [reflexivity|]. unfold other_suffixes.
    set_solver.
Defined.

(** ** The entries of a batch *)

Section BatchEntries.
Context (env : Env) (fs : FS).

(** X11: an entry of a batch is a success exactly when it carries no
    error; a failed entry names no HTML and no PDF file; a success names
    [<project>/output/html/index.html]; a configuration that does not
    load gives one error, the text of the exception, and no warning. *)
Theorem film_result_invariant (dir : Path.t) :
  let entry := _process_single env fs dir in
  (success entry = true ↔ film_errors entry = [])
  ∧ (success entry = false → html_path entry = None ∧ pdf_path entry = None)
  ∧ (success entry = true →
     html_path entry
     = Some (Path.str (Path.div (Path.div (Path.div dir "output") "html")
                         "index.html")))
  ∧ (is_ok (loaded env fs dir) = false →
     ∃ message, film_errors entry = [message] ∧ film_warnings entry = []).
Proof.
  unfold _process_single, loaded.
  destruct (load_config fs _ _) as [epk|e] eqn:Hload; cbn zeta.
  2: { cbn. repeat split; try done. by exists (exn_str e). }
  assert (project_dir epk = dir) as Hdir.
  { unfold load_config in Hload. destruct (load_json fs _); [|done].
    by injection Hload as <-. }
  rewrite is_valid_no_errors.
  case_bool_decide as Herr; cbn [negb].
  2: { cbn. repeat split; try done. }
  destruct (generate_html fs epk "index.html" false) as [[[epk' path] text]|e]
    eqn:Hgen.
  2: { cbn. repeat split; try done. intros Hnil.
       by apply app_eq_nil in Hnil as [_ ?]. }
  assert (path = Path.div (Path.div (Path.div dir "output") "html") "index.html")
    as ->.
  { unfold generate_html in Hgen. destruct (render_html _ _); [|done].
    injection Hgen as _ <- _. by rewrite <- Hdir. }
  destruct (generate_pdf env fs epk' None "epk.pdf" true) as [? pdf].
  cbn. repeat split; try done.
Qed.
End BatchEntries.

(** The entry of the sample project [alpha]: a success, with its HTML. *)
Lemma film_result_invariant_witness :
  html_path (_process_single demo_env sample_fs (Path.of_str "films/alpha"))
  = Some "films/alpha/output/html/index.html".
Proof.
  apply (proj1 (proj2 (proj2
           (film_result_invariant demo_env sample_fs (Path.of_str "films/alpha"))))).
  by vm_compute.
Defined.

Section BatchRuns.
Context (env : Env) (fs : FS) (self : BatchProcessor).

(** X12: [process_all] appends to the results the processor already
    holds and returns them all, so a second run on the same processor
    returns every project twice; with no project found it returns the
    empty list, whatever results the processor holds. *)
Theorem process_all_accumulates :
  let fresh := _process_single env fs <$> find_projects fs self in
  (find_projects fs self = [] → process_all env fs self = (self, []))
  ∧ (find_projects fs self ≠ [] →
     snd (process_all env fs self) = (results self ++ fresh)%list
     ∧ snd (process_all env fs (fst (process_all env fs self)))
       = (results self ++ fresh ++ fresh)%list).
Proof.
  intros fresh. split.
  - intros Hnone. unfold process_all. by rewrite bool_decide_eq_true_2.
  - intros Hsome. rewrite process_all_results by done. cbn [fst snd results].
    split; [done|].
    rewrite process_all_results by done. cbn [snd results].
    change (find_projects fs {| root_dir := root_dir self;
                                results := (results self ++ fresh)%list |})
      with (find_projects fs self).
    by rewrite <- List.app_assoc.
Qed.
End BatchRuns.

(** Two runs over the three sample projects return six entries. *)
Lemma process_all_accumulates_witness :
  length (snd (process_all demo_env sample_fs
                 (fst (process_all demo_env sample_fs
                         (BatchProcessor_init "films"))))) = 6.
Proof.
  rewrite (proj2 (proj2 (process_all_accumulates demo_env sample_fs
                           (BatchProcessor_init "films")) ltac:(by vm_compute))).
  rewrite !length_app, !length_fmap. reflexivity.
Defined.

(** ** The gallery *)

Section PathOrder.

Lemma compare_lt_trans (a b c : string) :
  String.compare a b = Lt → String.compare b c = Lt → String.compare a c = Lt.
Proof.
  intros Hab Hbc.
  assert (String.le a c) as Hac.
  { transitivity b; unfold String.le, String.leb; [by rewrite Hab|by rewrite Hbc]. }
  unfold String.le, String.leb in Hac.
  destruct (String.compare a c) eqn:Hcmp; [|done|done].
  apply String.compare_eq_iff in Hcmp as ->.
  rewrite String.compare_antisym, Hbc in Hab. discriminate.
Qed.

Lemma parts_leb_total (a b : list string) :
  parts_leb a b = true ∨ parts_leb b a = true.
Proof.
  revert b. induction a as [|x a IH]; intros [|y b]; cbn; auto.
  rewrite (String.compare_antisym y x).
  destruct (String.compare x y); cbn; auto.
Qed.

Lemma parts_leb_trans (a b c : list string) :
  parts_leb a b = true → parts_leb b c = true → parts_leb a c = true.
Proof.
  revert b c. induction a as [|x a IH]; intros [|y b] [|z c]; cbn; try done.
  destruct (String.compare x y) eqn:Hxy; [|intros _|done].
  - apply String.compare_eq_iff in Hxy as ->.
    destruct (String.compare y z); [apply IH|done|done].
  - destruct (String.compare y z) eqn:Hyz; [| |done].
    + apply String.compare_eq_iff in Hyz as ->. by rewrite Hxy.
    + by rewrite (compare_lt_trans x y z).
Qed.

#[global] Instance path_le_total : Total path_le.
Proof.
  intros p q. unfold path_le.
  destruct (parts_leb_total (Path.root p :: Path.parts p)
              (Path.root q :: Path.parts q)) as [H|H]; rewrite H; auto.
Qed.

#[global] Instance path_le_trans : Transitive path_le.
Proof.
  intros p q r. unfold path_le. intros H1%Is_true_true H2%Is_true_true.
  apply Is_true_true. by eapply parts_leb_trans.
Qed.
End PathOrder.

Section Gallery.
Context (fs : FS) (self : EPKGenerator).

(** X13: the gallery shows the first twelve stills in the order of their
    paths: as many as there are, up to twelve; sorted; all of them found
    in the stills directory; and every still left out comes after every
    still shown.  So the gallery carries at most twelve references. *)
Theorem gallery_first_twelve :
  let found := glob_images fs (stills_dir self) in
  let shown := gallery_stills fs self in
  length shown = min 12 (length found)
  ∧ Sorted path_le shown
  ∧ shown ⊆ found
  ∧ (∀ still other, still ∈ shown → other ∈ found → path_le still other
       ∨ other ∈ shown)
  ∧ (∀ paths, gallery_paths fs self = Ok paths → (length paths ≤ 12)%nat).
Proof.
  intros found shown. subst shown. unfold gallery_stills. fold found.
  pose proof (StronglySorted_merge_sort path_le found) as Hsorted.
  pose proof (merge_sort_Permutation path_le found) as Hperm.
  split; [by rewrite length_take, Hperm|].
  split.
  { apply StronglySorted_Sorted.
    rewrite <- (take_drop 12 (merge_sort path_le found)) in Hsorted.
    by apply StronglySorted_app_1_l in Hsorted. }
  split.
  { intros p Hp. rewrite <- Hperm.
    by apply (sublist_subseteq _ _ (sublist_take _ 12)). }
  split.
  { intros still other Hstill Hother. rewrite <- Hperm in Hother.
    rewrite <- (take_drop 12 (merge_sort path_le found)) in Hother, Hsorted.
    apply elem_of_app in Hother as [?|Hdrop]; [by right|left].
    by eapply StronglySorted_app_1_elem_of. }
  intros paths. unfold gallery_paths.
  destruct (exists_ fs _); [|intros [= <-]; cbn; lia].
  intros Hpaths%mapM_ok%Forall2_length. rewrite <- Hpaths.
  unfold gallery_stills. rewrite length_take. lia.
Qed.
End Gallery.

(** ** Which sections are empty *)

Section Optional.
Context (fs : FS) (self : EPKGenerator).

(** X14: each of the five sections driven by the configuration is empty
    exactly when its data is absent: a section whose data is present,
    however poor, is never dropped. *)
Theorem configured_sections_empty_iff :
  (∀ html, _generate_reviews fs self = Ok html →
           (html = "" ↔ reviews (config self) = []))
  ∧ (∀ html, _generate_team fs self = Ok html →
             (html = "" ↔ team (config self) = []))
  ∧ (_generate_festivals self = ""
     ↔ festivals (config self) = [] ∧ awards (config self) = [])
  ∧ (_generate_press self = "" ↔ press_coverage (config self) = [])
  ∧ (_generate_distribution self = ""
     ↔ distribution (config self) = distribution empty_config).
Proof.
  split; [exact (reviews_empty_iff fs self)|].
  split; [exact (team_empty_iff fs self)|].
  split; [exact (festivals_empty_iff self)|].
  split; [exact (press_empty_iff self)|].
  exact (distribution_empty_iff self).
Qed.

(** X15: the gallery is empty exactly when the stills directory is
    missing or holds no image; the downloads section exactly when the
    downloads directory is missing or holds nothing. *)
Theorem asset_sections_empty_iff :
  (∀ html, _generate_gallery fs self = Ok html →
     (html = "" ↔ exists_ fs (stills_dir self) = false
                 ∨ glob_images fs (stills_dir self) = []))
  ∧ (∀ html, _generate_downloads fs self = Ok html →
       (html = "" ↔ exists_ fs (downloads_dir self) = false
                   ∨ iterdir fs (downloads_dir self) = [])).
Proof.
  split; intros html.
  - unfold _generate_gallery.
    destruct (exists_ fs (stills_dir self)); cbn [negb];
      [|intros [= <-]; tauto].
    assert (gallery_stills fs self = [] ↔ glob_images fs (stills_dir self) = [])
      as Hshown.
    { unfold gallery_stills. rewrite <- !length_zero_iff_nil, length_take.
      rewrite (merge_sort_Permutation path_le). lia. }
    case_bool_decide as Hnil.
    + intros [= <-]. rewrite <- Hshown. tauto.
    + destruct (gallery_paths fs self); [|done]. cbn [mbind result_bind].
      intros [= <-]. rewrite <- Hshown. split; [|intros [|]; done].
      intros Hempty. exfalso. revert Hempty. unfold gallery_html.
      cat_not_empty.
  - unfold _generate_downloads.
    destruct (exists_ fs (downloads_dir self)); cbn [negb];
      [|intros [= <-]; tauto].
    assert (download_files fs self = [] ↔ iterdir fs (downloads_dir self) = [])
      as Hfiles.
    { unfold download_files, glob_all.
      split; [apply fmap_nil_inv|by intros ->]. }
    case_bool_decide as Hnil.
    + intros [= <-]. rewrite <- Hfiles. tauto.
    + destruct (download_paths fs self); [|done]. cbn [mbind result_bind].
      intros [= <-]. rewrite <- Hfiles. split; [|intros [|]; done].
      intros Hempty. exfalso. revert Hempty. unfold downloads_html.
      cat_not_empty.
Qed.

(** X16: the cover, the synopsis, the technical specifications and the
    contact are never empty, not even for an empty configuration. *)
Theorem mandatory_sections_not_empty :
  (∀ cover, _generate_cover fs self = Ok cover → cover ≠ "")
  ∧ _generate_synopsis self ≠ ""
  ∧ _generate_technical self ≠ ""
  ∧ _generate_contact self ≠ "".
Proof.
  split; [|split; [|split]].
  - intros cover. unfold _generate_cover.
    destruct (cover_poster_path fs self); [|done]. cbn [mbind result_bind].
    intros [= <-]. unfold cover_html. cat_not_empty.
  - unfold _generate_synopsis. cat_not_empty.
  - unfold _generate_technical. cat_not_empty.
  - unfold _generate_contact. cat_not_empty.
Qed.
End Optional.

(** ** What the sections show *)

Lemma round53_small (size : Z) : (size < 2 ^ 53)%Z → Py.round53 size = size.
Proof. intros Hsize. unfold Py.round53. by rewrite decide_True. Qed.

(** X17: for a file of less than 2^53 bytes, the size shown for a
    download is the size in MiB rounded to tenths: it is off by at most a
    twentieth of a MiB, and a file of up to 52428 bytes is shown as
    [0.0]. *)
Theorem size_shown_is_rounded (size : Z) :
  (0 ≤ size < 2 ^ 53)%Z →
  (∃ tenths,
     Py.format_mb size
     = Py.str_int (tenths / 10) +:+ "." +:+ Py.str_int (tenths mod 10)
     ∧ (Z.abs (tenths * 1048576 - size * 10) ≤ 524288)%Z)
  ∧ ((size ≤ 52428)%Z → Py.format_mb size = "0.0").
Proof.
  intros Hsize. unfold Py.format_mb. rewrite round53_small by lia. cbn zeta.
  split.
  - eexists. split; [reflexivity|].
    pose proof (Z.div_mod (size * 10) 1048576 ltac:(lia)).
    pose proof (Z.mod_pos_bound (size * 10) 1048576 ltac:(lia)).
    case_decide; lia.
  - intros Hsmall.
    assert ((size * 10) / 1048576 = 0)%Z as Hq by (apply Z.div_small; lia).
    assert ((size * 10) mod 1048576 = size * 10)%Z as Hr
      by (apply Z.mod_small; lia).
    rewrite Hq, Hr. rewrite decide_False by lia. reflexivity.
Qed.

(** A file of fifty thousand bytes. *)
Lemma size_shown_is_rounded_witness : Py.format_mb 50000 = "0.0".
Proof.
  refine (proj2 (size_shown_is_rounded 50000 _) _); lia.
Defined.

(** Above 2^53 bytes the division is no longer exact: the size shown
    is that of the nearest float. *)
Example format_mb_of_float :
  Py.format_mb 9007199255003137 = "8589934592.2".
Proof. reflexivity. Qed.

Section FourAwards.
Context (fs : FS) (self : EPKGenerator).

(** X18: the cover shows four awards at most: awards configured after
    the fourth change nothing on it. *)
Theorem cover_shows_four_awards (more : list dict) :
  (4 ≤ length (awards (config self)))%nat →
  _generate_cover fs (with_awards self (awards (config self) ++ more))
  = _generate_cover fs self.
Proof.
  intros Hfour. unfold _generate_cover.
  assert (cover_laurels_html (with_awards self (awards (config self) ++ more))
          = cover_laurels_html self) as ->; [|reflexivity].
  unfold cover_laurels_html. cbn [with_awards config awards].
  by rewrite take_app_le by lia.
Qed.
End FourAwards.

(** A fifth award for the sample project with four. *)
Lemma cover_shows_four_awards_witness :
  _generate_cover sample_fs
    (with_awards laureate (awards (config laureate) ++ [demo_award]))
  = _generate_cover sample_fs laureate.
Proof. apply cover_shows_four_awards. cbn. lia. Defined.

Lemma is_substring_head3 (a b c rest : string) :
  is_substring (a +:+ b +:+ c) (a +:+ b +:+ c +:+ rest).
Proof. exists "", rest. cbn [String.append]. by rewrite !str_app_assoc. Qed.

Section Head.
Context (fs : FS) (self : EPKGenerator).

(** X19: the head of the document carries the title and the logline of
    the configuration as they are, character for character: the title
    between the [title] tags, the logline as the content of the
    description; nothing is escaped. *)
Theorem metadata_is_verbatim (name : string) (pdf : bool)
  (self' : EPKGenerator) (path : Path.t) (html : string) :
  generate_html fs self name pdf = Ok (self', path, html) →
  let meta := metadata (config self) in
  is_substring
    ("<title>" +:+ Py.get meta "title" "Film" +:+ " - Electronic Press Kit</title>")
    html
  ∧ is_substring
      (Py.lit "<meta name=`description` content=`" +:+ Py.get meta "logline" ""
       +:+ Py.lit "`>")
      html.
Proof.
  unfold generate_html.
  destruct (render_html fs (set_for_pdf self pdf)) as [text|] eqn:Htext;
    [|done].
  cbn [mbind result_bind]. intros [= _ _ <-].
  set (meta := metadata (config self)).
  apply render_html_ok in Htext as (? & ? & ? & ? & ? & _ & _ & _ & _ & _ & ->).
  assert (is_substring (document_head (set_for_pdf self pdf))
            (document (set_for_pdf self pdf)
               [x; _generate_synopsis (set_for_pdf self pdf); x0;
                _generate_festivals (set_for_pdf self pdf);
                _generate_press (set_for_pdf self pdf); x1;
                _generate_distribution (set_for_pdf self pdf);
                _generate_technical (set_for_pdf self pdf); x2; x3;
                _generate_contact (set_for_pdf self pdf)])) as Hhead.
  { unfold document. apply is_substring_cat. apply list_elem_of_here. }
  split; (eapply is_substring_trans; [|exact Hhead]);
    unfold document_head; cbn [config set_for_pdf]; fold meta;
    rewrite !cat_cons.
  - replace (Py.lit (Py.lines
               ["<!DOCTYPE html>"; "<html lang=`en`>"; "<head>";
                "    <meta charset=`UTF-8`>";
                "    <meta name=`viewport` content=`width=device-width, initial-scale=1.0`>";
                "    <title>"]))
      with (Py.lit (Py.lines
               ["<!DOCTYPE html>"; "<html lang=`en`>"; "<head>";
                "    <meta charset=`UTF-8`>";
                "    <meta name=`viewport` content=`width=device-width, initial-scale=1.0`>";
                "    "]) +:+ "<title>") by reflexivity.
    replace (Py.lit (Py.lines
               [" - Electronic Press Kit</title>";
                "    <meta name=`description` content=`"]))
      with (" - Electronic Press Kit</title>" +:+
            Py.lit (Py.lines [""; "    <meta name=`description` content=`"]))
      by reflexivity.
    rewrite !str_app_assoc.
    apply is_substring_app_r, is_substring_head3.
  - replace (Py.lit (Py.lines
               [" - Electronic Press Kit</title>";
                "    <meta name=`description` content=`"]))
      with (Py.lit (Py.lines [" - Electronic Press Kit</title>"; "    "])
            +:+ Py.lit "<meta name=`description` content=`")
      by reflexivity.
    replace (Py.lit (Py.lines ["`>"; "    <style>"]))
      with (Py.lit "`>" +:+ Py.lit (Py.lines [""; "    <style>"]))
      by reflexivity.
    rewrite !str_app_assoc.
    do 3 apply is_substring_app_r. apply is_substring_head3.
Qed.
End Head.

(** The title of the sample project [alpha] in its document. *)
Lemma metadata_is_verbatim_witness :
  ∃ self' path html,
    generate_html sample_fs alpha "index.html" false = Ok (self', path, html)
    ∧ is_substring "<title>Tides - Electronic Press Kit</title>" html.
Proof.
  destruct (generate_html sample_fs alpha "index.html" false)
    as [[[self' path] html]|] eqn:Hgen; [|by vm_compute in Hgen].
  exists self', path, html. split; [done|].
  exact (proj1 (metadata_is_verbatim _ _ _ _ _ _ _ Hgen)).
Defined.

(** ** The paragraphs of the synopsis *)

Section Paragraphs.

Lemma rev_app_spec (s acc : string) :
  String.rev_app s acc = String.rev s +:+ acc.
Proof.
  unfold String.rev. revert acc.
  induction s as [|c s IH]; intros acc; [done|].
  cbn [String.rev_app]. rewrite (IH (String c "")), IH.
  by rewrite str_app_assoc.
Qed.

Lemma rev_cons (c : ascii) (s : string) :
  String.rev (String c s) = String.rev s +:+ String c "".
Proof. unfold String.rev at 1. cbn [String.rev_app]. apply rev_app_spec. Qed.

Lemma all_space_app (s t : string) :
  all_space (s +:+ t) = all_space s && all_space t.
Proof.
  induction s as [|c s IH]; [done|].
  cbn [String.append]. unfold all_space in *. cbn [Py.chars forallb].
  by rewrite IH, andb_assoc.
Qed.

Lemma all_space_rev (s : string) : all_space (String.rev s) = all_space s.
Proof.
  induction s as [|c s IH]; [done|].
  rewrite rev_cons, all_space_app, IH. unfold all_space. cbn [Py.chars forallb].
  by rewrite andb_true_r, andb_comm.
Qed.

Lemma lstrip_all_space (s : string) : all_space s = true → Py.lstrip s = "".
Proof.
  induction s as [|c s IH]; [done|].
  unfold all_space. cbn [Py.chars forallb Py.lstrip].
  intros [-> Hs]%andb_true_iff. by apply IH.
Qed.

Lemma strip_all_space (s : string) : all_space s = true → Py.strip s = "".
Proof. intros Hs. unfold Py.strip. by rewrite lstrip_all_space. Qed.

Lemma split_go_all_space (sep cur : string) (skip : nat) (s : string) :
  all_space cur = true → all_space s = true →
  Forall (fun piece => all_space piece = true) (Py.split_go sep cur skip s).
Proof.
  revert cur skip. induction s as [|c s IH]; intros cur skip Hcur Hs.
  - constructor; [by rewrite all_space_rev|done].
  - assert (Py.is_space c = true ∧ all_space s = true) as [Hc Hs'].
    { unfold all_space in Hs. cbn [Py.chars forallb] in Hs.
      by apply andb_true_iff in Hs. }
    cbn [Py.split_go]. destruct skip as [|k]; [|by apply IH].
    destruct (String.prefix sep (String c s)).
    + constructor; [by rewrite all_space_rev|by apply IH].
    + apply IH; [|done]. unfold all_space. cbn [Py.chars forallb].
      by rewrite Hc.
Qed.

Lemma split_go_absent (sep cur s : string) :
  Py.contains sep s = false →
  Py.split_go sep cur 0 s = [String.rev cur +:+ s].
Proof.
  revert cur. induction s as [|c s IH]; intros cur.
  - intros _. cbn [Py.split_go]. by rewrite str_app_nil_r.
  - cbn [Py.contains]. intros [Hpre Hs]%orb_false_iff.
    cbn [Py.split_go]. rewrite Hpre, IH by done.
    by rewrite rev_cons, str_app_assoc.
Qed.

(** X20: a text of white space only, the empty text included, gives no
    paragraph: [_format_paragraphs] returns the empty string. *)
Theorem format_paragraphs_blank (text : string) :
  all_space text = true → _format_paragraphs text = "".
Proof.
  intros Hs. unfold _format_paragraphs, Py.split.
  assert (Forall (fun piece => all_space piece = true)
            (Py.split_go (Py.nl +:+ Py.nl) "" 0 text)) as Hall
    by by apply split_go_all_space.
  induction Hall as [|piece pieces Hpiece _ IH]; [done|].
  cbn [fmap list_fmap List.filter]. by rewrite strip_all_space.
Qed.

(** X21: a text without an empty line is one paragraph, whatever single
    line breaks it has: its text is the whole text with the white space
    around it removed. *)
Theorem format_paragraphs_single (text : string) :
  Py.contains (Py.nl +:+ Py.nl) text = false → Py.strip text ≠ "" →
  _format_paragraphs text = paragraph (Py.strip text).
Proof.
  intros Habsent Hstrip. unfold _format_paragraphs, Py.split.
  rewrite split_go_absent by done. cbn [String.rev String.rev_app].
  change ("" +:+ text) with text. cbn [fmap list_fmap List.filter].
  destruct (String.eqb_spec (Py.strip text) "") as [|_]; [done|].
  cbn [negb fmap list_fmap]. unfold paragraph.
  unfold Py.cat. cbn [String.concat]. reflexivity.
Qed.
End Paragraphs.

(** Blank lines only. *)
Lemma format_paragraphs_blank_witness :
  _format_paragraphs (" " +:+ Py.nl +:+ Py.nl +:+ "  " +:+ Py.nl) = "".
Proof. apply format_paragraphs_blank. reflexivity. Defined.

(** Two lines, indented. *)
Lemma format_paragraphs_single_witness :
  _format_paragraphs ("  A crew of divers" +:+ Py.nl +:+ "maps a drowned city. ")
  = paragraph ("A crew of divers" +:+ Py.nl +:+ "maps a drowned city.").
Proof.
  apply (format_paragraphs_single
           ("  A crew of divers" +:+ Py.nl +:+ "maps a drowned city. ")).
  - reflexivity.
  - by vm_compute.
Defined.

(** ** The working directory *)

Section Cwd.
Context (fs fs' : FS) (self : EPKGenerator).
Hypothesis Habsolute : Path.root (project_dir self) ≠ "".
Hypothesis Hsame : same_tree fs fs'.

Lemma mapM_on {A B} (f g : A → result B) (l : list A) :
  (∀ a, a ∈ l → f a = g a) → mapM f l = mapM g l.
Proof.
  intros H. induction l as [|a l IH]; [done|]. cbn [mapM].
  rewrite H, IH; [done| |by left]. intros b Hb. apply H. by right.
Qed.

Lemma zip_with_on {A B C} (f g : A → B → C) (l : list A) (k : list B) :
  (∀ a, a ∈ l → ∀ b, f a b = g a b) → zip_with f l k = zip_with g l k.
Proof.
  revert k. induction l as [|a l IH]; intros k H; [done|].
  destruct k as [|b k]; [done|]. cbn [zip_with].
  rewrite H, IH; [done| |by left]. intros a' Ha'. apply H. by right.
Qed.

Lemma root_div (p : Path.t) (s : string) :
  Path.root p ≠ "" → Path.root (Path.div p s) ≠ "".
Proof.
  intros Hp. unfold Path.div, Path.join.
  by destruct (Path.root (Path.of_str s)) eqn:Hs; cbn [Path.root]; rewrite ?Hs.
Qed.

Lemma dir_root (sub : list string) :
  Path.root (foldl Path.div (project_dir self) sub) ≠ "".
Proof.
  induction sub as [|s sub IH] using rev_ind; [done|].
  rewrite foldl_app. by apply root_div.
Qed.

Lemma exists_same (p : Path.t) :
  Path.root p ≠ "" → exists_ fs' p = exists_ fs p.
Proof. intros Hp. by destruct Hsame as [_ H]; destruct (H p Hp). Qed.

Lemma iterdir_same (p : Path.t) :
  Path.root p ≠ "" → iterdir fs' p = iterdir fs p.
Proof. intros Hp. by destruct Hsame as [_ H]; destruct (H p Hp) as (_ & ? & _). Qed.

Lemma st_size_same (p : Path.t) :
  Path.root p ≠ "" → st_size fs' p = st_size fs p.
Proof. intros Hp. by destruct Hsame as [_ H]; destruct (H p Hp) as (_ & _ & ?). Qed.

Lemma asset_ref_same (self' : EPKGenerator) (p : Path.t) :
  Path.root p ≠ "" → asset_ref fs' self' p = asset_ref fs self' p.
Proof.
  intros Hp. unfold asset_ref. destruct (for_pdf self'); [|done].
  unfold Path.resolve. by destruct (Path.root p).
Qed.

Lemma glob_images_same (d : Path.t) :
  Path.root d ≠ "" → glob_images fs' d = glob_images fs d.
Proof. intros Hd. unfold glob_images. by rewrite iterdir_same. Qed.

Lemma glob_images_root (d p : Path.t) :
  Path.root d ≠ "" → p ∈ glob_images fs d → Path.root p ≠ "".
Proof.
  intros Hd (name & -> & _)%list_elem_of_fmap. by apply root_div.
Qed.

Lemma sections_same (pdf : bool) :
  sections fs' (set_for_pdf self pdf) = sections fs (set_for_pdf self pdf).
Proof.
  set (self' := set_for_pdf self pdf).
  assert (∀ sub, Path.root (foldl Path.div (project_dir self') sub) ≠ "")
    as Hsub by exact dir_root.
  pose proof (Hsub ["assets"; "images"; "posters"]) as Hposters.
  pose proof (Hsub ["assets"; "images"; "stills"]) as Hstills.
  pose proof (Hsub ["assets"; "downloads"]) as Hdownloads.
  cbn [foldl] in Hposters, Hstills, Hdownloads.
  unfold sections.
  assert (_generate_cover fs' self' = _generate_cover fs self') as ->.
  { unfold _generate_cover, cover_poster_path.
    rewrite exists_same, glob_images_same by exact Hposters.
    destruct (exists_ fs _); [|done].
    destruct (glob_images fs (posters_dir self')) as [|poster rest] eqn:Hglob;
      [done|].
    rewrite asset_ref_same; [done|].
    apply (glob_images_root (posters_dir self')); [exact Hposters|].
    rewrite Hglob. by left. }
  assert (_generate_reviews fs' self' = _generate_reviews fs self') as ->.
  { unfold _generate_reviews, review_card, review_rating_html.
    by destruct Hsame as [-> _]. }
  assert (_generate_team fs' self' = _generate_team fs self') as ->.
  { unfold _generate_team. case_bool_decide; [done|].
    f_equal. apply mapM_on. intros member _. unfold team_photo_path.
    assert (Path.root (Path.div (project_dir self')
                         (Py.get member "photo" "")) ≠ "") as Hphoto
      by by apply root_div.
    by rewrite exists_same, asset_ref_same. }
  assert (gallery_stills fs' self' = gallery_stills fs self') as Hshown.
  { unfold gallery_stills. by rewrite glob_images_same. }
  assert (_generate_gallery fs' self' = _generate_gallery fs self') as ->.
  { unfold _generate_gallery, gallery_paths.
    rewrite exists_same, Hshown by exact Hstills.
    rewrite (mapM_on (asset_ref fs' self') (asset_ref fs self')); [done|].
    intros p Hp. apply asset_ref_same.
    apply (glob_images_root (stills_dir self')); [exact Hstills|].
    unfold gallery_stills in Hp.
    apply (sublist_subseteq _ _ (sublist_take _ _)) in Hp.
    by rewrite merge_sort_Permutation in Hp. }
  assert (download_files fs' self' = download_files fs self') as Hfiles.
  { unfold download_files, glob_all. by rewrite iterdir_same. }
  assert (∀ p, p ∈ download_files fs self' → Path.root p ≠ "") as Hroot.
  { intros p (name & -> & _)%list_elem_of_fmap. by apply root_div. }
  assert (_generate_downloads fs' self' = _generate_downloads fs self') as ->.
  { unfold _generate_downloads, download_paths.
    rewrite exists_same, Hfiles by exact Hdownloads.
    rewrite (mapM_on (asset_ref fs' self') (asset_ref fs self'))
      by (intros p Hp; by apply asset_ref_same, Hroot).
    destruct (exists_ fs (downloads_dir self')); [|done]. cbn [negb].
    case_bool_decide; [done|].
    destruct (mapM _ _) as [paths|]; [|done]. cbn [mbind result_bind].
    do 3 f_equal. apply zip_with_on. intros file Hfile rel.
    unfold download_item. by rewrite st_size_same by by apply Hroot. }
  done.
Qed.

(** X22: for a project given by an absolute directory, what
    [generate_html] writes, in either mode, is the same on two machines
    that hold the same files under every absolute path and have the
    same memory: it does not depend on the working directory of the
    process, nor on anything a relative path leads to. *)
Theorem document_ignores_cwd (name : string) (pdf : bool) :
  generate_html fs' self name pdf = generate_html fs self name pdf.
Proof. unfold generate_html, render_html. by rewrite sections_same. Qed.
End Cwd.

(** The project served from [/srv/films/alpha], with its poster, its
    stills, its download and the photo of its director (eleven
    references), rendered for PDF by a process started in [/srv] and by
    one started in [/tmp]: the relative path [films/alpha] leads to the
    project for the first and nowhere for the second, and the documents
    are the same. *)
Lemma document_ignores_cwd_witness :
  generate_html (hosted_fs ["tmp"]) hosted "temp_for_pdf.html" true
  = generate_html (hosted_fs ["srv"]) hosted "temp_for_pdf.html" true
  ∧ exists_ (hosted_fs ["srv"]) (Path.of_str "films/alpha") = true
  ∧ exists_ (hosted_fs ["tmp"]) (Path.of_str "films/alpha") = false
  ∧ ∃ refs, asset_refs (hosted_fs ["srv"]) (set_for_pdf hosted true) = Ok refs
            ∧ length refs = 11
            ∧ "file:///srv/films/alpha/assets/images/posters/poster.jpg"
              ∈ refs.
Proof.
  split; [|split; [|split]].
  - apply document_ignores_cwd.
    + intros H. vm_compute in H. discriminate H.
    + split; [reflexivity|]. intros [root parts] Hroot.
      cbn [Path.root] in Hroot.
      unfold hosted_fs, mounted.
      cbn [exists_ iterdir st_size Path.root Path.parts].
      by destruct root.
  - vm_compute. reflexivity.
  - vm_compute. reflexivity.
  - eexists. split; [vm_compute; reflexivity|].
    split; [reflexivity|]. vm_compute. set_solver.
Defined.

(** ** The team photos of the API *)

Section Photos.

Lemma photo_matches_insert (filename photo : string) (member : dict) :
  photo_matches filename (<["photo" := photo]> member)
  = photo_matches filename member.
Proof.
  unfold photo_matches, Py.get. by rewrite lookup_insert_ne.
Qed.

Lemma associate_photos_spec (team : list dict) (filenames : list string) :
  associate_photos team filenames = associated filenames <$> team.
Proof.
  unfold associate_photos.
  induction filenames as [|f l IH] using rev_ind.
  - cbn. unfold associated. cbn. by rewrite list_fmap_id.
  - rewrite foldl_app, IH. cbn [foldl]. unfold associate_photo.
    rewrite <- list_fmap_compose. apply list_fmap_ext. intros _ member _.
    cbn [compose].
    assert (photo_matches f (associated l member) = photo_matches f member)
      as ->.
    { unfold associated. destruct (last _); [|done].
      apply photo_matches_insert. }
    unfold associated, matching_photos.
    rewrite List.filter_app. cbn [List.filter].
    destruct (photo_matches f member).
    + rewrite last_snoc.
      destruct (last _); [|done]. by rewrite insert_insert_eq.
    + by rewrite List.app_nil_r.
Qed.

(** X23: after the uploads of [create_project], each member of the team
    has as its photo the last uploaded file whose name, in lower case,
    starts with the member's name in lower case with its spaces turned
    into underscores; a member that no upload matches is left as
    configured.  One upload may so become the photo of several members,
    and a later matching upload replaces an earlier one. *)
Theorem last_matching_photo_wins (team : list dict) (filenames : list string) :
  associate_photos team filenames
  = (fun member =>
       match last (matching_photos filenames member) with
       | Some filename => <["photo" := crew_photo filename]> member
       | None => member
       end) <$> team.
Proof. exact (associate_photos_spec team filenames). Qed.

(** X24: a member without a name, or with an empty one, is matched by
    every upload: it ends with the last uploaded photo, whatever the
    file is called. *)
Theorem nameless_member_takes_last_photo (team : list dict)
  (filenames : list string) (i : nat) (member : dict) (filename : string) :
  team !! i = Some member →
  Py.get member "name" "" = "" →
  last filenames = Some filename →
  associate_photos team filenames !! i
  = Some (<["photo" := crew_photo filename]> member).
Proof.
  intros Hmember Hname Hlast.
  rewrite associate_photos_spec, list_lookup_fmap, Hmember. cbn [fmap option_fmap option_map].
  unfold associated.
  assert (matching_photos filenames member = filenames) as ->; [|by rewrite Hlast].
  assert (∀ f, photo_matches f member = true) as Hall.
  { intros f. unfold photo_matches. rewrite Hname. by destruct (Py.lower f). }
  unfold matching_photos. clear Hlast.
  induction filenames as [|f l IH]; [done|].
  cbn [List.filter]. by rewrite Hall, IH.
Qed.
End Photos.

(** The member without a name gets the group picture. *)
Lemma nameless_member_takes_last_photo_witness :
  associate_photos [jane; unnamed] ["jane_doe.jpg"; "group.png"] !! 1
  = Some (<["photo" := crew_photo "group.png"]> unnamed).
Proof.
  apply nameless_member_takes_last_photo; reflexivity.
Defined.

(** ** The handlers of the API *)

Section Handlers.
Context (api : Api) (env : Env) (fs : FS).

(** X25: for a project whose directory does not exist, [generate_epk]
    answers 404 and leaves the registry alone, while [validate_project]
    answers 500: its own 404 is caught by its [except Exception] clause
    and wrapped. *)
Theorem missing_project_statuses (registry : gmap string Project)
  (now project_id : string) (pdf : bool) :
  exists_ fs (Path.div (PROJECTS_DIR api) project_id) = false →
  validate_project api env fs project_id
  = Raised (HTTPException 500
      (Text (http_exception_str api 404 (Text "Project not found"))))
  ∧ generate_epk api env fs registry now project_id pdf
    = (registry, Raised (HTTPException 404 (Text "Project not found"))).
Proof.
  intros Hmissing.
  unfold validate_project, validate_project_try, generate_epk, generate_epk_try.
  by rewrite Hmissing.
Qed.

(** X26: [generate_epk] never registers a project and never touches
    another project's entry; when it raises, the registry is as before;
    when it returns, the entry of the project, if there is one, has the
    status [generated], and the response offers the HTML download only,
    whether a PDF was asked for or not. *)
Theorem generate_epk_registry (registry : gmap string Project)
  (now project_id : string) (pdf : bool) :
  let (registry', outcome) :=
    generate_epk api env fs registry now project_id pdf in
  dom registry' = dom registry
  ∧ (∀ other, other ≠ project_id → registry' !! other = registry !! other)
  ∧ match outcome with
    | Raised _ => registry' = registry
    | Return response =>
        status <$> registry' !! project_id
        = (fun _ => "generated") <$> registry !! project_id
        ∧ download_urls response
          = Some [("html", "/api/projects/" +:+ project_id +:+ "/download/html")]
    end.
Proof.
  unfold generate_epk.
  destruct (generate_epk_try api env fs registry now project_id pdf)
    as [[registry' response]|[code d|e]] eqn:Htry; [|done..].
  unfold generate_epk_try in Htry.
  destruct (negb (exists_ fs _)); [done|].
  destruct (negb (exists_ fs _)); [done|].
  destruct (load_config _ _ _) as [epk|]; [|done].
  cbn [lift mbind attempt_bind] in Htry.
  destruct (negb (is_valid _)); [done|].
  destruct (generate_html _ _ _ _); [|done].
  cbn [lift mbind attempt_bind] in Htry.
  injection Htry as <- <-. cbn [download_urls].
  destruct (registry !! project_id) as [p|] eqn:Hp.
  - split; [|split; [|split; [|done]]].
    + apply dom_insert_lookup_L. by rewrite Hp.
    + intros other Hother. by rewrite lookup_insert_ne.
    + by rewrite lookup_insert_eq.
  - by rewrite Hp.
Qed.
End Handlers.

(** No project [delta] among the sample projects. *)
Lemma missing_project_statuses_witness :
  validate_project demo_api demo_env sample_fs "delta"
  = Raised (HTTPException 500 (Text "404: Project not found"))
  ∧ generate_epk demo_api demo_env sample_fs ∅ "2026-01-01T00:00:00" "delta" true
    = (∅, Raised (HTTPException 404 (Text "Project not found"))).
Proof.
  apply (missing_project_statuses demo_api demo_env sample_fs ∅
           "2026-01-01T00:00:00" "delta" true).
  reflexivity.
Defined.
